(** * Replica job orchestration blocks (molbiomed plugin)

    A shallow embedding of [Include/Blocks/create_md_custom.py] and
    [Include/Blocks/mm_pbsa.py].  The blocks are sequential orchestration
    code: they read a few variables, touch the local filesystem, start an
    external generator script and talk to the execution backend.  The
    embedding threads an explicit state (filesystem, [extraData], block
    outputs, trace of external interactions) through an exception monad;
    everything outside the repository (the generator scripts, the backend
    offered by the host, the platform's symlink support) is an oracle
    collected in the record [World]. *)

From Stdlib Require Import ZArith Ascii String DecimalString DecimalNat.
From stdpp Require Import gmap strings list fin_maps.

(* ===================================================================== *)
(** * Python values and string helpers *)
(* ===================================================================== *)

Module Py.

(** The values a block variable can hold in this plugin. *)
Inductive pyval :=
| PyNone
| PyInt (z : Z)
| PyStr (s : string).

(** Python truthiness: [None], [0] and the empty string are falsy. *)
Definition truthy (v : pyval) : bool :=
  match v with
  | PyNone => false
  | PyInt z => negb (z =? 0)%Z
  | PyStr s => negb (String.eqb s "")
  end.

(** [a or b] *)
Definition py_or (a b : pyval) : pyval := if truthy a then a else b.

(** [str(n)] for a non-negative integer. *)
Definition str_nat (n : nat) : string :=
  NilEmpty.string_of_uint (Nat.to_uint n).

(** [str(z)] for an integer. *)
Definition str_int (z : Z) : string :=
  NilZero.string_of_int (Z.to_int z).

(** [str(v)] *)
Definition str (v : pyval) : string :=
  match v with
  | PyNone => "None"
  | PyInt z => str_int z
  | PyStr s => s
  end.

(** [f"{n:02d}"] for a non-negative integer: decimal digits, padded with
    zeros on the left up to a width of two. *)
Definition format_02d (n : nat) : string :=
  let s := str_nat n in
  if (String.length s <? 2)%nat then "0" +:+ s else s.

(** [sep.join(l)] *)
Definition join (sep : string) (l : list string) : string :=
  String.concat sep l.

(** Code points below 256 for which [str.isspace] holds. *)
Definition isspace (c : ascii) : bool :=
  let n := nat_of_ascii c in
  ((9 <=? n) && (n <=? 13) || (28 <=? n) && (n <=? 32)
   || (n =? 133) || (n =? 160))%nat.

(** Truth value of [s.strip()]: some character is not white space. *)
Fixpoint strip_nonempty (s : string) : bool :=
  match s with
  | EmptyString => false
  | String c s' => negb (isspace c) || strip_nonempty s'
  end.

(** [s.replace(" ", "_")] *)
Fixpoint replace_spaces (s : string) : string :=
  match s with
  | EmptyString => EmptyString
  | String c s' =>
      String (if Ascii.eqb c " " then "_"%char else c) (replace_spaces s')
  end.

Definition starts_with_slash (s : string) : bool :=
  match s with
  | String c _ => Ascii.eqb c "/"
  | EmptyString => false
  end.

Fixpoint ends_with_slash (s : string) : bool :=
  match s with
  | EmptyString => false
  | String c EmptyString => Ascii.eqb c "/"
  | String _ s' => ends_with_slash s'
  end.

(** [os.path.join(a, b)] (posixpath). *)
Definition os_path_join (a b : string) : string :=
  if starts_with_slash b then b
  else if String.eqb a "" || ends_with_slash a then a +:+ b
  else a +:+ "/" +:+ b.

(** The line feed character. *)
Definition nl : string := String (ascii_of_nat 10) EmptyString.

End Py.
Export Py.

(* ===================================================================== *)
(** * Filesystem *)
(* ===================================================================== *)

(** An absolute path is the list of its components below the root. *)
Definition path := list string.

(** [p / name] *)
Definition pjoin (p : path) (name : string) : path := p ++ [name].

(** [p.name]: the final component, empty for the root. *)
Definition pname (p : path) : string := List.last p "".

(** [str(p)] *)
Definition str_path (p : path) : string :=
  match p with
  | [] => "/"
  | _ => String.concat "" (List.map (fun c => "/" +:+ c) p)
  end.

(** What a directory entry holds.  A symbolic link is a leaf entry
    recording its target; the model does not resolve links, so a test such
    as [Path.exists] is answered on the entry itself. *)
Inductive node :=
| File (content : string)
| Dir
| Symlink (target : path).

#[global] Instance node_eq_dec : EqDecision node.
Proof. solve_decision. Defined.

(** The filesystem: a finite map from absolute paths to entries.  The root
    itself is implicit. *)
Abbreviation FS := (gmap path node).

(** [p] and everything below it. *)
Definition within (p q : path) : Prop := p `prefix_of` q.

(** The filesystem without [p] and everything below it. *)
Definition remove_tree (p : path) (fs : FS) : FS :=
  filter (fun kv => ¬ within p kv.1) fs.

(** The non-empty prefixes of a path, shortest first:
    the directories [os.makedirs] visits. *)
Definition ancestors_and_self (p : path) : list path :=
  List.map (fun n => take n p) (seq 1 (length p)).

(** Python exceptions raised by the blocks or by the library calls they
    make. *)
Inductive exn :=
| ValueError (msg : string)
| RuntimeError (msg : string)
| FileNotFoundError (msg : string)
| FileExistsError (filename : string)
| NotADirectoryError (filename : string)
| IsADirectoryError (filename : string)
| OSError (msg : string).

#[global] Instance exn_eq_dec : EqDecision exn.
Proof. solve_decision. Defined.

(** [isinstance(e, OSError)]: the filesystem errors are its subclasses. *)
Definition is_OSError (e : exn) : bool :=
  match e with
  | ValueError _ | RuntimeError _ => false
  | _ => true
  end.

Inductive result (A : Type) :=
| Ok (a : A)
| Raise (e : exn).
Arguments Ok {A} a.
Arguments Raise {A} e.

(** [os.makedirs(p, exist_ok=True)] on the map: every missing directory on
    the way is created; an entry that is not a directory stops it, the
    error naming the directory that could not be created.  The test is on
    the entry: a symbolic link counts as not a directory. *)
Fixpoint makedirs_go (ps : list path) (fs : FS) : result FS :=
  match ps with
  | [] => Ok fs
  | q :: ps' =>
      match fs !! q with
      | None => makedirs_go ps' (<[q := Dir]> fs)
      | Some Dir => makedirs_go ps' fs
      | Some _ =>
          match ps' with
          | [] => Raise (FileExistsError (str_path q))
          | q' :: _ => Raise (NotADirectoryError (str_path q'))
          end
      end
  end.

Definition fs_makedirs (p : path) (fs : FS) : result FS :=
  makedirs_go (ancestors_and_self p) fs.

(** [shutil.rmtree(p)] *)
Definition fs_rmtree (p : path) (fs : FS) : result FS :=
  match fs !! p with
  | Some Dir => Ok (remove_tree p fs)
  | Some (Symlink _) =>
      Raise (OSError "Cannot call rmtree on a symbolic link")
  | Some (File _) => Raise (NotADirectoryError (str_path p))
  | None => Raise (FileNotFoundError (str_path p))
  end.

(** [shutil.copy2(src, dst)] for a destination that names the new file:
    the source must be a regular file and the destination directory must
    exist. *)
Definition fs_copy2 (src dst : path) (fs : FS) : result FS :=
  match fs !! src with
  | Some (File c) =>
      match fs !! dst with
      | Some Dir => Raise (IsADirectoryError (str_path dst))
      | _ => Ok (<[dst := File c]> fs)
      end
  | Some Dir => Raise (IsADirectoryError (str_path src))
  | _ => Raise (FileNotFoundError (str_path src))
  end.

(** What creating the entry [p] raises when the directory it goes into is
    not there. *)
Definition missing_parent (p : path) (fs : FS) : option exn :=
  match removelast p with
  | [] => None
  | d =>
      match fs !! d with
      | Some Dir => None
      | Some _ => Some (NotADirectoryError (str_path p))
      | None => Some (FileNotFoundError (str_path p))
      end
  end.

(** [os.symlink(src, link)]; [refused] tells whether the platform rejects
    the creation of symbolic links. *)
Definition fs_symlink (refused : bool) (src link : path) (fs : FS)
  : result FS :=
  match missing_parent link fs with
  | Some e => Raise e
  | None =>
      match fs !! link with
      | Some _ => Raise (FileExistsError (str_path link))
      | None =>
          if refused then Raise (OSError "symbolic links are not supported")
          else Ok (<[link := Symlink src]> fs)
      end
  end.

(** [with open(p, "w") as fh: fh.write(text)] *)
Definition fs_write_text (p : path) (text : string) (fs : FS) : result FS :=
  match missing_parent p fs with
  | Some e => Raise e
  | None =>
      match fs !! p with
      | Some Dir => Raise (IsADirectoryError (str_path p))
      | _ => Ok (<[p := File text]> fs)
      end
  end.

(* ===================================================================== *)
(** * The world outside the repository *)
(* ===================================================================== *)

(** What [process.communicate()] hands back, together with the entries the
    process left in its working directory. *)
Record Completed := {
  returncode : Z;
  stdout : string;
  stderr : string;
  produced : list (string * node);
}.

(** The oracles.  A call of the backend API answers with a value or raises;
    a subprocess always completes with some exit status. *)
Record World := {
  getcwd : path;
  popen : list string -> path -> Completed;
  submitJob : string -> result string;
  command : string -> result unit;
  sendData : string -> string -> result string;
  getData : string -> string -> result (list (path * node));
  symlink_refused : path -> bool;
}.

(** External interactions, in the order they happen. *)
Inductive event :=
| EvPrint (line : string)
| EvPopen (cmd : list string) (cwd : path)
| EvLoadFile (file name : string) (readOnly : bool)
| EvSubmitJob (script : string)
| EvCommand (cmd : string)
| EvSendData (local remote : string)
| EvGetData (remote local : string).

#[global] Instance event_eq_dec : EqDecision event.
Proof. solve_decision. Defined.

(** The mutable state a block action runs against. *)
Record State := {
  fs : FS;
  extraData : gmap string (list string);
  outputs : gmap string string;
  trace : list event;
}.

Definition set_fs (f : FS) (s : State) : State :=
  {| fs := f; extraData := extraData s; outputs := outputs s;
     trace := trace s |}.

Definition set_extraData (k : string) (v : list string) (s : State) : State :=
  {| fs := fs s; extraData := <[k := v]> (extraData s);
     outputs := outputs s; trace := trace s |}.

Definition set_output (k v : string) (s : State) : State :=
  {| fs := fs s; extraData := extraData s;
     outputs := <[k := v]> (outputs s); trace := trace s |}.

Definition add_event (e : event) (s : State) : State :=
  {| fs := fs s; extraData := extraData s; outputs := outputs s;
     trace := trace s ++ [e] |}.

(** A state with nothing recorded yet. *)
Definition initial (f : FS) (extra : gmap string (list string)) : State :=
  {| fs := f; extraData := extra; outputs := ∅; trace := [] |}.

(* ===================================================================== *)
(** * The monad of block actions *)
(* ===================================================================== *)

Definition M (A : Type) : Type := State -> result A * State.

Definition ret {A} (a : A) : M A := fun s => (Ok a, s).

Definition bind {A B} (m : M A) (k : A -> M B) : M B :=
  fun s =>
    match m s with
    | (Ok a, s') => k a s'
    | (Raise e, s') => (Raise e, s')
    end.

Definition raise {A} (e : exn) : M A := fun s => (Raise e, s).

Declare Scope action_scope.
Delimit Scope action_scope with action.
Notation "x <- m ;; k" := (bind m (fun x => k))
  (at level 100, m at next level, right associativity) : action_scope.
Notation "m ;; k" := (bind m (fun _ => k))
  (at level 100, right associativity) : action_scope.
Open Scope action_scope.

(** [if c: m] *)
Definition when (c : bool) (m : M unit) : M unit :=
  if c then m else ret tt.

(** [try: m  except OSError: h] *)
Definition try_except_OSError {A} (m : M A) (h : M A) : M A :=
  fun s =>
    match m s with
    | (Raise e, s') => if is_OSError e then h s' else (Raise e, s')
    | r => r
    end.

(** [for x in l: body x] *)
Fixpoint for_each {A} (l : list A) (body : A -> M unit) : M unit :=
  match l with
  | [] => ret tt
  | x :: l' => body x ;; for_each l' body
  end.

(** Lifting a filesystem operation. *)
Definition on_fs (op : FS -> result FS) : M unit :=
  fun s =>
    match op (fs s) with
    | Ok f => (Ok tt, set_fs f s)
    | Raise e => (Raise e, s)
    end.

Definition emit (e : event) : M unit := fun s => (Ok tt, add_event e s).

Definition print (line : string) : M unit := emit (EvPrint line).

(** [p.exists()], answered on the entry at [p]: this is what
    [Path.exists] answers where the entry is absent, a directory or a
    regular file, and for a symbolic link whose target is there; a
    dangling link, which [Path.exists] reports as absent, is outside of
    what the model covers. *)
Definition path_exists (p : path) : M bool :=
  fun s => (Ok (bool_decide (is_Some (fs s !! p))), s).

(** [p.exists() and p.is_dir()], answered on the entry at [p]; a symbolic
    link to a directory, which [Path.is_dir] follows, is outside of what
    the model covers. *)
Definition path_is_dir (p : path) : M bool :=
  fun s => (Ok (bool_decide (fs s !! p = Some Dir)), s).

(** Recording a backend call and returning (or raising) its answer. *)
Definition call {A} (e : event) (answer : result A) : M A :=
  fun s => (answer, add_event e s).

(** [range(1, n + 1)] *)
Definition range1 (n : Z) : list nat := seq 1 (Z.to_nat n).

(** The entries a finished process left in its working directory. *)
Definition leave_products (cwd : path) (c : Completed) (f : FS) : FS :=
  foldl (fun acc kv => <[pjoin cwd kv.1 := kv.2]> acc) f (produced c).

(** The entries a download left below [local_sub]. *)
Definition store_fetched (local_sub : path) (got : list (path * node))
    (f : FS) : FS :=
  foldl (fun acc kv => <[local_sub ++ kv.1 := kv.2]> acc) f got.

(** [subprocess.Popen(cmd, ..., cwd=cwd)] followed by
    [process.communicate()]. *)
Definition run_process (w : World) (cmd : list string) (cwd : path)
  : M Completed :=
  emit (EvPopen cmd cwd) ;;
  let c := popen w cmd cwd in
  on_fs (fun f => Ok (leave_products cwd c f)) ;;
  ret c.

(** [block.setOutput(id, value)] *)
Definition setOutput (id value : string) : M unit :=
  fun s => (Ok tt, set_output id value s).

(* ===================================================================== *)
(** * [create_md_custom.py] *)
(* ===================================================================== *)

Module CreateMdCustom.

(** [block.remote] *)
Record Remote := {
  name : string;
  isLocal : bool;
  workDir : string;
}.

(** The part of a [SlurmBlock] the two actions read.  [temperature] is
    kept as the text [str(float(...))] renders, the only way the value is
    used; [last_residue_interactive] is [None] or a dictionary. *)
Record Block := {
  parameters_file : path;
  coordinates_file : path;
  temperature : string;
  length_ns : Z;
  replicas : Z;
  last_residue : pyval;
  last_residue_interactive : option (gmap string pyval);
  remote : Remote;
  flow_name : string;
  pluginDir : path;
}.

(** [block.variables.get("last_residue") or
     (block.variables.get("last_residue_interactive") or {}).get("residue")] *)
Definition last_residue_value (block : Block) : pyval :=
  py_or (last_residue block)
    (default PyNone
       (default ∅ (last_residue_interactive block) !! "residue")).

Definition allowed_machines : list string :=
  ["csuc"; "local"; "picard"; "slurm"].

Definition missing_residue_msg : string :=
  "Last residue must be specified via index or interactive selection.".

Definition unsupported_machine_msg (machine : string) : string :=
  "Machine '" +:+ machine +:+ "' is not supported. Allowed machines are: "
  +:+ join ", " allowed_machines
  +:+ ". Please update the plugin and the create_md_custom script to support this machine.".

Definition parent_workdir (w : World) : path :=
  pjoin (getcwd w) "md_custom_workdir".

Definition script_location (block : Block) : path :=
  pluginDir block ++ ["Include"; "protocols"; "MD"; "cMD"; "create_md_custom.sh"].

Definition replica_tag (replica : nat) : string :=
  "replica_" +:+ format_02d replica.

Definition replica_workdir (w : World) (replica : nat) : path :=
  pjoin (parent_workdir w) (replica_tag replica).

(** The command line of the generator script. *)
Definition build_cmd (block : Block) : list string :=
  [ "bash"; str_path (script_location block);
    "-p"; pname (parameters_file block);
    "-c"; pname (coordinates_file block);
    "-r"; str (last_residue_value block);
    "-t"; temperature block;
    "-l"; str_int (length_ns block);
    "-m"; name (remote block) ].

Definition remote_root (block : Block) : string :=
  os_path_join (workDir (remote block)) (replace_spaces (flow_name block)).

(** One turn of the replica loop; [remote_job_folders] is the list the
    loop appends to. *)
Definition replica_body (w : World) (block : Block) (replica : nat)
    (remote_job_folders : list string) : M (list string) :=
  let tag := replica_tag replica in
  let workdir := pjoin (parent_workdir w) tag in
  on_fs (fs_makedirs workdir) ;;
  on_fs (fs_copy2 (parameters_file block)
           (pjoin workdir (pname (parameters_file block)))) ;;
  on_fs (fs_copy2 (coordinates_file block)
           (pjoin workdir (pname (coordinates_file block)))) ;;
  let out_preprod_folder := pjoin workdir "preprod" in
  let out_prod_folder := pjoin workdir "prod" in
  let cmd := build_cmd block in
  print (nl +:+ "[Replica " +:+ str_nat replica +:+ "/"
         +:+ str_int (replicas block) +:+ "]" +:+ nl
         +:+ "Executing script: " +:+ join " " cmd) ;;
  process <- run_process w cmd workdir ;;
  (if negb (returncode process =? 0)%Z then
     print ("Replica " +:+ str_nat replica
            +:+ " error executing script: " +:+ stderr process) ;;
     raise (RuntimeError ("Replica " +:+ str_nat replica
                          +:+ " script failed with error: "
                          +:+ stderr process))
   else
     when (strip_nonempty (stdout process))
       (print ("Replica " +:+ str_nat replica +:+ " script stdout:"
               +:+ nl +:+ stdout process)) ;;
     when (strip_nonempty (stderr process))
       (print ("Replica " +:+ str_nat replica +:+ " script stderr:"
               +:+ nl +:+ stderr process))) ;;
  for_each [out_preprod_folder; out_prod_folder] (fun folder_path =>
    d <- path_is_dir folder_path ;;
    if d then print ("  " +:+ tag +:+ "/" +:+ pname folder_path +:+ "/")
    else print ("  " +:+ tag +:+ "/" +:+ pname folder_path
                +:+ "/ (not found)")) ;;
  let out_slurm_file := pjoin workdir "script.sh" in
  e <- path_exists out_slurm_file ;;
  when e (emit (EvLoadFile (str_path out_slurm_file)
                  (tag +:+ "_script.sh") true)) ;;
  res <-
    (if isLocal (remote block) then
       job_id <- call (EvSubmitJob (str_path out_slurm_file))
                   (submitJob w (str_path out_slurm_file)) ;;
       ret (job_id, remote_job_folders)
     else
       let root := remote_root block in
       print ("Creating remote root directory at " +:+ root +:+ "...") ;;
       call (EvCommand ("mkdir -p " +:+ root))
         (command w ("mkdir -p " +:+ root)) ;;
       print "Transferring workdir to remote..." ;;
       remote_workdir <- call (EvSendData (str_path workdir) root)
                           (sendData w (str_path workdir) root) ;;
       let remote_script_path :=
         os_path_join remote_workdir (pname out_slurm_file) in
       print "Submitting job on remote..." ;;
       job_id <- call (EvSubmitJob remote_script_path)
                   (submitJob w remote_script_path) ;;
       ret (job_id, remote_job_folders ++ [remote_workdir])) ;;
  print ("Submitted job with ID: " +:+ res.1) ;;
  ret res.2.

(** [for replica in range(1, replicas_value + 1): ...] *)
Fixpoint replica_loop (w : World) (block : Block) (todo : list nat)
    (remote_job_folders : list string) : M (list string) :=
  match todo with
  | [] => ret remote_job_folders
  | replica :: todo' =>
      folders <- replica_body w block replica remote_job_folders ;;
      replica_loop w block todo' folders
  end.

(** Removing and recreating the batch workspace root. *)
Definition prepare_workspace (w : World) : M unit :=
  let parent := parent_workdir w in
  e <- path_exists parent ;;
  when e
    (print ("WARNING: existing parent workdir found at "
            +:+ str_path parent
            +:+ "; removing it now. All prior contents will be permanently deleted.") ;;
     on_fs (fs_rmtree parent)) ;;
  on_fs (fs_makedirs parent).

(** The check on the resolved last residue (the first [raise]). *)
Definition check_last_residue (block : Block) : M unit :=
  if negb (truthy (last_residue_value block)) then
    raise (ValueError missing_residue_msg)
  else ret tt.

(** The check on the machine name (the second [raise]). *)
Definition check_machine (block : Block) : M unit :=
  let machine := name (remote block) in
  if negb (bool_decide (machine ∈ allowed_machines)) then
    raise (ValueError (unsupported_machine_msg machine))
  else ret tt.

(** [block.extraData["remote_job_folders"] = remote_job_folders] *)
Definition store_folders (remote_job_folders : list string) : M unit :=
  fun s => (Ok tt, set_extraData "remote_job_folders" remote_job_folders s).

(** [run_script]: generate and submit one or more replica MD setups. *)
Definition run_script (w : World) (block : Block) : M unit :=
  check_last_residue block ;;
  check_machine block ;;
  prepare_workspace w ;;
  remote_job_folders <- replica_loop w block (range1 (replicas block)) [] ;;
  when (negb (bool_decide (remote_job_folders = [])))
    (store_folders remote_job_folders).

(** [block.extraData.get("remote_job_folders", [])] *)
Definition recorded_folders (s : State) : list string :=
  default [] (extraData s !! "remote_job_folders").

Definition stages : list string := ["preprod"; "prod"].

(** Downloading the two stages of one recorded remote folder. *)
Definition download_one (w : World) (idx : nat) (remote_folder : string)
  : M unit :=
  let tag := replica_tag idx in
  let local_replica_dir := pjoin (parent_workdir w) tag in
  on_fs (fs_makedirs local_replica_dir) ;;
  for_each stages (fun sub =>
    let remote_sub := os_path_join remote_folder sub in
    let local_sub := pjoin local_replica_dir sub in
    print ("Downloading " +:+ sub +:+ " for " +:+ tag +:+ "...") ;;
    got <- call (EvGetData remote_sub (str_path local_sub))
             (getData w remote_sub (str_path local_sub)) ;;
    on_fs (fun f => Ok (store_fetched local_sub got f))).

(** [for idx, remote_folder in enumerate(remote_job_folders, start=idx)] *)
Fixpoint download_loop (w : World) (idx : nat) (folders : list string)
  : M unit :=
  match folders with
  | [] => ret tt
  | remote_folder :: rest =>
      download_one w idx remote_folder ;;
      download_loop w (S idx) rest
  end.

(** The body of the inner aggregation loop: linking one stage of one
    replica into its aggregated folder [agg]. *)
Definition link_stage (w : World) (replica : nat) (sub : string)
    (agg : path) : M unit :=
  let tag := replica_tag replica in
  let rep_dir := pjoin (parent_workdir w) tag in
  let src := pjoin rep_dir sub in
  e <- path_exists src ;;
  when e
    (let link_name := pjoin agg (tag +:+ "_" +:+ sub) in
     l <- path_exists link_name ;;
     when (negb l)
       (try_except_OSError
          (on_fs (fs_symlink (symlink_refused w link_name) src link_name))
          (on_fs (fs_write_text link_name (str_path src))))).

(** The aggregation loops. *)
Definition aggregate (w : World) (replicas_value : Z)
    (aggregated_preprod aggregated_prod : path) : M unit :=
  for_each (range1 replicas_value) (fun replica =>
    for_each [("preprod", aggregated_preprod); ("prod", aggregated_prod)]
      (fun sa => link_stage w replica sa.1 sa.2)).

(** [download_data]: download data for all replicas and expose the
    aggregated folders as outputs. *)
Definition download_data (w : World) (block : Block) : M unit :=
  let parent := parent_workdir w in
  e <- path_exists parent ;;
  if negb e then
    raise (FileNotFoundError "Parent workdir not found; nothing to download.")
  else
  let replicas_value := replicas block in
  when (negb (isLocal (remote block)))
    (remote_job_folders <- (fun s => (Ok (recorded_folders s), s)) ;;
     when (negb (Z.of_nat (length remote_job_folders) =? replicas_value)%Z)
       (print "Warning: remote job folders count does not match replicas; attempting partial download.") ;;
     download_loop w 1 remote_job_folders) ;;
  let aggregated_preprod := pjoin parent "preprod_replicas" in
  let aggregated_prod := pjoin parent "prod_replicas" in
  on_fs (fs_makedirs aggregated_preprod) ;;
  on_fs (fs_makedirs aggregated_prod) ;;
  aggregate w replicas_value aggregated_preprod aggregated_prod ;;
  setOutput "preprod_folder" (str_path aggregated_preprod) ;;
  setOutput "prod_folder" (str_path aggregated_prod).

End CreateMdCustom.

(* ===================================================================== *)
(** * [mm_pbsa.py] *)
(* ===================================================================== *)

Module MmPbsa.

(** The part of the [PluginBlock] the action reads. *)
Record Block := {
  prmtop_file : path;
  trajectory_file : path;
  job_name : string;
  frames : Z;
  solvent_mask : string;
  ligand_mask : string;
  output_prefix : string;
  pb_radius : string;
  cluster : string;
  run_now : bool;
  pluginDir : path;
}.

Definition script_location (block : Block) : path :=
  pluginDir block ++ ["Include"; "protocols"; "MM-PBSA"; "mmpbsa_setup.sh"].

Definition build_cmd (block : Block) : list string :=
  [ "bash"; str_path (script_location block);
    "-j"; job_name block;
    "-t"; str_path (trajectory_file block);
    "-f"; str_int (frames block);
    "-p"; str_path (prmtop_file block);
    "-s"; solvent_mask block;
    "-n"; ligand_mask block;
    "-o"; output_prefix block;
    "-r"; pb_radius block;
    "-q"; cluster block ].

(** [run_script]: executes the MM-PBSA setup script with the provided
    inputs and variables. *)
Definition run_script (w : World) (block : Block) : M unit :=
  let workdir := pluginDir block in
  let cmd := build_cmd block in
  process <- run_process w cmd workdir ;;
  (if negb (returncode process =? 0)%Z then
     print ("- Error executing setup script: " +:+ stderr process) ;;
     raise (RuntimeError ("MM-PBSA setup failed: " +:+ stderr process))
   else
     print ("Setup stdout:" +:+ nl +:+ stdout process +:+ nl
            +:+ "Setup stderr:" +:+ nl +:+ stderr process)) ;;
  let script_file := pjoin workdir "script_mmpbsa.sh" in
  let input_file := pjoin workdir "mmpbsa.in" in
  e <- path_exists script_file ;;
  when (run_now block && e)
    (let run_cmd := ["bash"; str_path script_file] in
     process <- run_process w run_cmd workdir ;;
     if negb (returncode process =? 0)%Z then
       print ("- Error executing MM-PBSA script: " +:+ stderr process) ;;
       raise (RuntimeError ("MM-PBSA execution failed: "
                            +:+ stderr process))
     else
       print ("Execution stdout:" +:+ nl +:+ stdout process +:+ nl
              +:+ "Execution stderr:" +:+ nl +:+ stderr process)) ;;
  setOutput "mmpbsa_input_file" (str_path input_file) ;;
  setOutput "submission_script" (str_path script_file).

End MmPbsa.

(* ===================================================================== *)
(** * Vocabulary of the statements *)
(* ===================================================================== *)

Import CreateMdCustom.

(** The value picked in the viewer, [None] when there is no selection or
    the selection has no ["residue"] entry. *)
Definition interactive_residue (block : Block) : pyval :=
  default PyNone (default ∅ (last_residue_interactive block) !! "residue").

(** Subprocess starts and job submissions: the interactions that reach the
    generator script and the scheduler. *)
Definition loud (e : event) : bool :=
  match e with
  | EvPopen _ _ | EvSubmitJob _ => true
  | _ => false
  end.

(** Every directory on the way to [p], and [p] itself, is a directory. *)
Definition dirs_exist (p : path) (f : FS) : Prop :=
  Forall (fun q => f !! q = Some Dir) (ancestors_and_self p).

(** Nothing at or below [p]. *)
Definition vacant (p : path) (f : FS) : Prop :=
  forall q, within p q -> f !! q = None.

(** The workspace root emptied and recreated. *)
Definition fresh_workspace (w : World) (f : FS) : FS :=
  <[parent_workdir w := Dir]> (remove_tree (parent_workdir w) f).

(** The workspace of one replica once the inputs with contents [c1], [c2]
    are copied and the generator has run. *)
Definition replica_fs (w : World) (block : Block) (c1 c2 : string)
    (replica : nat) (f : FS) : FS :=
  let workdir := replica_workdir w replica in
  leave_products workdir (popen w (build_cmd block) workdir)
    (<[pjoin workdir (pname (coordinates_file block)) := File c2]>
       (<[pjoin workdir (pname (parameters_file block)) := File c1]>
          (<[workdir := Dir]> f))).

(** What the backend answers when the job of one replica is handed over:
    the script submitted, the job identifier, and the remote folders to
    record (none on the local backend). *)
Definition backend_answer (w : World) (block : Block) (replica : nat)
  : result (string * string * list string) :=
  let workdir := replica_workdir w replica in
  if isLocal (remote block) then
    match submitJob w (str_path (pjoin workdir "script.sh")) with
    | Ok job_id => Ok (str_path (pjoin workdir "script.sh"), job_id, [])
    | Raise e => Raise e
    end
  else
    match command w ("mkdir -p " +:+ remote_root block) with
    | Raise e => Raise e
    | Ok _ =>
        match sendData w (str_path workdir) (remote_root block) with
        | Raise e => Raise e
        | Ok remote_workdir =>
            match submitJob w (os_path_join remote_workdir "script.sh") with
            | Raise e => Raise e
            | Ok job_id =>
                Ok (os_path_join remote_workdir "script.sh", job_id,
                    [remote_workdir])
            end
        end
    end.

(** The script and the job of a replica whose submission went through. *)
Definition submitted_script (w : World) (block : Block) (replica : nat)
  : string :=
  match backend_answer w block replica with
  | Ok (script, _, _) => script
  | Raise _ => ""
  end.

Definition submitted_job (w : World) (block : Block) (replica : nat)
  : string :=
  match backend_answer w block replica with
  | Ok (_, job_id, _) => job_id
  | Raise _ => ""
  end.

Definition recorded_folder (w : World) (block : Block) (replica : nat)
  : list string :=
  match backend_answer w block replica with
  | Ok (_, _, folders) => folders
  | Raise _ => []
  end.

(** The generator and scheduler interactions of one fully processed
    replica. *)
Definition replica_interactions (w : World) (block : Block) (replica : nat)
  : list event :=
  [EvPopen (build_cmd block) (replica_workdir w replica);
   EvSubmitJob (submitted_script w block replica)].

(** The filesystem after the turns [todo] of the replica loop. *)
Definition loop_fs (w : World) (block : Block) (c1 c2 : string)
    (todo : list nat) (f : FS) : FS :=
  foldl (fun g replica => replica_fs w block c1 c2 replica g) f todo.

(** The generator exits with status 0 for this replica and the backend
    accepts its job. *)
Definition replica_succeeds (w : World) (block : Block) (replica : nat)
  : Prop :=
  returncode (popen w (build_cmd block) (replica_workdir w replica)) = 0%Z
  /\ exists answer, backend_answer w block replica = Ok answer.

(** The line that announces the job identifier of a replica. *)
Definition job_line (w : World) (block : Block) (replica : nat) : event :=
  EvPrint ("Submitted job with ID: " +:+ submitted_job w block replica).

(** The error a failing generator run ends the batch with. *)
Definition script_failure (w : World) (block : Block) (replica : nat) : exn :=
  RuntimeError
    ("Replica " +:+ str_nat replica +:+ " script failed with error: "
     +:+ stderr (popen w (build_cmd block) (replica_workdir w replica))).

(** The state a turn of the replica loop may start from: the workspace root
    is in place and both inputs are regular files outside of it. *)
Record ready (w : World) (block : Block) (c1 c2 : string) (f : FS)
  : Prop := {
  ready_root : dirs_exist (parent_workdir w) f;
  ready_prmtop : f !! parameters_file block = Some (File c1);
  ready_prmtop_out : ~ within (parent_workdir w) (parameters_file block);
  ready_inpcrd : f !! coordinates_file block = Some (File c2);
  ready_inpcrd_out : ~ within (parent_workdir w) (coordinates_file block);
}.

(** A request the two checks let through, submitted from an existing
    working directory whose [md_custom_workdir] entry is a directory or is
    absent with nothing below it, both inputs being regular files (of
    contents [c1], [c2]) outside of that directory. *)
Record well_placed (w : World) (block : Block) (c1 c2 : string) (f : FS)
  : Prop := {
  wp_residue : truthy (last_residue_value block) = true;
  wp_machine : name (remote block) ∈ allowed_machines;
  wp_cwd : dirs_exist (getcwd w) f;
  wp_root : f !! parent_workdir w = Some Dir \/ vacant (parent_workdir w) f;
  wp_prmtop : f !! parameters_file block = Some (File c1);
  wp_prmtop_out : ~ within (parent_workdir w) (parameters_file block);
  wp_inpcrd : f !! coordinates_file block = Some (File c2);
  wp_inpcrd_out : ~ within (parent_workdir w) (coordinates_file block);
}.

(** The list [remote_job_folders] at the end of a successful loop. *)
Definition all_recorded (w : World) (block : Block) : list string :=
  concat (List.map (recorded_folder w block) (range1 (replicas block))).

(** The remote folder [sendData] answers for a replica. *)
Definition remote_workdir_of (w : World) (block : Block) (replica : nat)
  : string :=
  match sendData w (str_path (replica_workdir w replica)) (remote_root block)
  with
  | Ok remote_workdir => remote_workdir
  | Raise _ => ""
  end.

(** The generator leaves the copied inputs alone, and the inputs do not
    share a file name. *)
Definition inputs_kept (w : World) (block : Block) (replica : nat) : Prop :=
  let c := popen w (build_cmd block) (replica_workdir w replica) in
  pname (parameters_file block) <> pname (coordinates_file block)
  /\ (pname (parameters_file block) ∉ (produced c).*1)
  /\ (pname (coordinates_file block) ∉ (produced c).*1).

(** The local folder one stage of a replica is downloaded to; the
    aggregation links point at it. *)
Definition stage_dir (w : World) (replica : nat) (sub : string) : path :=
  pjoin (replica_workdir w replica) sub.

(** The two aggregated folders. *)
Definition aggregated_preprod (w : World) : path :=
  pjoin (parent_workdir w) "preprod_replicas".

Definition aggregated_prod (w : World) : path :=
  pjoin (parent_workdir w) "prod_replicas".

(** The stages, each with the aggregated folder its links go to. *)
Definition stage_links (w : World) : list (string * path) :=
  [("preprod", aggregated_preprod w); ("prod", aggregated_prod w)].

(** The name of the link of one stage of a replica inside [agg]. *)
Definition link_name (agg : path) (replica : nat) (sub : string) : path :=
  pjoin agg (replica_tag replica +:+ "_" +:+ sub).

(** Every replica stage that is there has its link. *)
Definition all_linked (w : World) (todo : list nat) (f : FS) : Prop :=
  forall k sa, k ∈ todo -> sa ∈ stage_links w ->
    is_Some (f !! stage_dir w k sa.1) ->
    is_Some (f !! link_name sa.2 k sa.1).

(** [g] still has every entry of [f], and holds the same thing wherever
    [P] says so. *)
Definition kept (P : path -> Prop) (f g : FS) : Prop :=
  (forall q, is_Some (f !! q) -> is_Some (g !! q))
  /\ (forall q n, P q -> f !! q = Some n -> g !! q = Some n).

(** An action under which the filesystem only changes as [kept P] allows,
    and which leaves [extraData] alone, whether it returns or raises. *)
Definition keeps {A} (P : path -> Prop) (m : M A) : Prop :=
  forall s r s', m s = (r, s') ->
    kept P (fs s) (fs s') /\ extraData s' = extraData s.

(** Outside of every download folder. *)
Definition undownloaded (w : World) (q : path) : Prop :=
  forall j sub, ~ within (stage_dir w j sub) q.


(** The warning about the number of recorded folders. *)
Definition mismatch_warning : string :=
  "Warning: remote job folders count does not match replicas; attempting partial download.".

(** The first half of [download_data] on a remote backend: the warning
    and the downloads. *)
Definition note_mismatch (block : Block) (folders : list string) : M unit :=
  when (negb (Z.of_nat (length folders) =? replicas block)%Z)
    (print mismatch_warning).

Definition fetch_phase (w : World) (block : Block) : M unit :=
  when (negb (isLocal (remote block)))
    (remote_job_folders <- (fun s => (Ok (recorded_folders s), s)) ;;
     note_mismatch block remote_job_folders ;;
     download_loop w 1 remote_job_folders).

(** The second half of [download_data]: the aggregated folders, the links
    and the outputs. *)
Definition link_phase (w : World) (block : Block) : M unit :=
  on_fs (fs_makedirs (aggregated_preprod w)) ;;
  on_fs (fs_makedirs (aggregated_prod w)) ;;
  aggregate w (replicas block) (aggregated_preprod w) (aggregated_prod w) ;;
  setOutput "preprod_folder" (str_path (aggregated_preprod w)) ;;
  setOutput "prod_folder" (str_path (aggregated_prod w)).

(** The two outputs [download_data] sets. *)
Definition collected_outputs (w : World) (o : gmap string string)
  : gmap string string :=
  <["prod_folder" := str_path (aggregated_prod w)]>
    (<["preprod_folder" := str_path (aggregated_preprod w)]> o).

(** From [s] to [s'] nothing happened but entries appearing inside the
    aggregated folders. *)
Definition links_added (w : World) (s s' : State) : Prop :=
  extraData s' = extraData s /\ outputs s' = outputs s
  /\ trace s' = trace s
  /\ (forall q n, fs s !! q = Some n -> fs s' !! q = Some n)
  /\ (forall q, ~ within (aggregated_preprod w) q ->
        ~ within (aggregated_prod w) q -> fs s' !! q = fs s !! q).

(** The stage of a replica has its link, if it is there at all. *)
Definition stage_linked (w : World) (k : nat) (sa : string * path)
    (s : State) : Prop :=
  is_Some (fs s !! stage_dir w k sa.1) ->
  is_Some (fs s !! link_name sa.2 k sa.1).

(** Every run of [m] relates the state it starts from to the state it ends
    in by [R], whether it returns or raises, and returns only values that
    satisfy [Q]. *)
Definition yields {A} (R : State -> State -> Prop) (Q : A -> Prop)
    (m : M A) : Prop :=
  forall s r s', m s = (r, s') ->
    R s s' /\ match r with Ok a => Q a | Raise _ => True end.

(** The interactions [run_script] may have. *)
Definition submit_event (w : World) (block : Block) (e : event) : Prop :=
  match e with
  | EvPrint _ | EvLoadFile _ _ _ | EvSubmitJob _ => True
  | EvPopen cmd cwd =>
      cmd = build_cmd block /\ exists k, cwd = replica_workdir w k
  | EvCommand c =>
      isLocal (remote block) = false
      /\ c = "mkdir -p " +:+ remote_root block
  | EvSendData _ rem =>
      isLocal (remote block) = false /\ rem = remote_root block
  | EvGetData _ _ => False
  end.

(** What a run of [run_script], complete or not, can have done. *)
Definition submission_step (w : World) (block : Block) (s s' : State)
  : Prop :=
  outputs s' = outputs s
  /\ (exists evs,
        trace s' = trace s ++ evs /\ Forall (submit_event w block) evs)
  /\ (forall k, k <> "remote_job_folders" ->
        extraData s' !! k = extraData s !! k)
  /\ (isLocal (remote block) = true -> extraData s' = extraData s)
  /\ (dirs_exist (getcwd w) (fs s) ->
      dirs_exist (getcwd w) (fs s')
      /\ forall q, ~ within (parent_workdir w) q -> fs s' !! q = fs s !! q).

(** The interactions [download_data] may have: none on the local
    backend. *)
Definition collect_event (block : Block) (e : event) : Prop :=
  match e with
  | EvPrint _ | EvGetData _ _ => isLocal (remote block) = false
  | _ => False
  end.

(** What a run of [download_data], complete or not, can have done. *)
Definition collect_step (w : World) (block : Block) (s s' : State) : Prop :=
  extraData s' = extraData s
  /\ (exists evs,
        trace s' = trace s ++ evs /\ Forall (collect_event block) evs)
  /\ (forall k, k <> "preprod_folder" -> k <> "prod_folder" ->
        outputs s' !! k = outputs s !! k)
  /\ kept (undownloaded w) (fs s) (fs s').

(** What a download loop that goes through prints and asks the backend
    for, the first folder going to replica [idx]: both stages of each
    recorded folder, in order. *)
Fixpoint download_events (w : World) (idx : nat) (folders : list string)
  : list event :=
  match folders with
  | [] => []
  | remote_folder :: rest =>
      EvPrint ("Downloading preprod for " +:+ replica_tag idx +:+ "...")
      :: EvGetData (os_path_join remote_folder "preprod")
           (str_path (stage_dir w idx "preprod"))
      :: EvPrint ("Downloading prod for " +:+ replica_tag idx +:+ "...")
      :: EvGetData (os_path_join remote_folder "prod")
           (str_path (stage_dir w idx "prod"))
      :: download_events w (S idx) rest
  end.

(** The warning, when the number of folders is not the replica count. *)
Definition mismatch_events (block : Block) (folders : list string)
  : list event :=
  if (Z.of_nat (length folders) =? replicas block)%Z then []
  else [EvPrint mismatch_warning].

(** From [s] to [s'] nothing happened but links of the replicas [todo]
    appearing at free names, each pointing at the stage folder of its
    replica, as a symbolic link or as a text file holding the path. *)
Definition own_links (w : World) (todo : list nat) (s s' : State) : Prop :=
  extraData s' = extraData s /\ outputs s' = outputs s
  /\ trace s' = trace s
  /\ (forall q m, fs s !! q = Some m -> fs s' !! q = Some m)
  /\ (forall q m, fs s !! q = None -> fs s' !! q = Some m ->
        exists k sa,
          k ∈ todo /\ sa ∈ stage_links w
          /\ q = link_name sa.2 k sa.1
          /\ is_Some (fs s !! stage_dir w k sa.1)
          /\ (m = Symlink (stage_dir w k sa.1)
              \/ m = File (str_path (stage_dir w k sa.1)))).

(** The entry at [q], if any, is not a symbolic link: there [Path.exists]
    and the test on the entry agree. *)
Definition not_a_link (f : FS) (q : path) : Prop :=
  forall t, f !! q <> Some (Symlink t).

(** No symbolic link sits where the aggregation of the replicas [todo]
    looks: at a stage folder, at the name of a link, at an aggregated
    folder. *)
Definition plain_stages (w : World) (todo : list nat) (f : FS) : Prop :=
  forall k sa, k ∈ todo -> sa ∈ stage_links w ->
    not_a_link f (stage_dir w k sa.1)
    /\ not_a_link f (link_name sa.2 k sa.1)
    /\ not_a_link f sa.2.

(** Every run of [m] only adds to the trace; a run that raises the
    missing-residue error has added something to it; and, with [b] set, a
    run that returns has added the event [e]. *)
Definition marks {A} (e : event) (b : bool) (m : M A) : Prop :=
  forall s r s', m s = (r, s') ->
    exists evs,
      trace s' = trace s ++ evs
      /\ (r = Raise (ValueError missing_residue_msg) -> evs <> [])
      /\ (b = true -> (exists a, r = Ok a) -> e ∈ evs).

(** From [s] to [s'] the outputs, [extraData] and everything at or below
    the two aggregated folders stayed as they were. *)
Definition downloads_only (w : World) (s s' : State) : Prop :=
  extraData s' = extraData s /\ outputs s' = outputs s
  /\ forall q,
       within (aggregated_preprod w) q \/ within (aggregated_prod w) q ->
       fs s' !! q = fs s !! q.

(* ===================================================================== *)
(** * Sample worlds, blocks and filesystems *)
(* ===================================================================== *)

Module Samples.

(** A generator run that succeeds and leaves the three expected entries. *)
Definition script_ok : Completed :=
  {| returncode := 0; stdout := "done"; stderr := "";
     produced := [("preprod", Dir); ("prod", Dir);
                  ("script.sh", File "#!/bin/bash")] |}.

(** A generator run that fails. *)
Definition script_failed : Completed :=
  {| returncode := 2; stdout := ""; stderr := "tleap: command not found";
     produced := [] |}.

(** A cooperative world: every script succeeds, every backend call
    answers. *)
Definition world_ok : World :=
  {| getcwd := ["home"];
     popen := fun _ _ => script_ok;
     submitJob := fun script => Ok ("job:" +:+ script);
     command := fun _ => Ok tt;
     sendData := fun loc rem => Ok (rem +:+ loc);
     getData := fun _ _ => Ok [([], Dir); (["md.out"], File "energies")];
     symlink_refused := fun _ => false |}.

(** The same world, except that the script fails in [replica_02]. *)
Definition world_second_fails : World :=
  {| getcwd := ["home"];
     popen := fun _ cwd =>
       if bool_decide (cwd = ["home"; "md_custom_workdir"; "replica_02"])
       then script_failed else script_ok;
     submitJob := fun script => Ok ("job:" +:+ script);
     command := fun _ => Ok tt;
     sendData := fun loc rem => Ok (rem +:+ loc);
     getData := fun _ _ => Ok [([], Dir)];
     symlink_refused := fun _ => false |}.

(** A world whose backend raises on the first download. *)
Definition world_download_raises : World :=
  {| getcwd := ["home"];
     popen := fun _ _ => script_ok;
     submitJob := fun script => Ok ("job:" +:+ script);
     command := fun _ => Ok tt;
     sendData := fun loc rem => Ok (rem +:+ loc);
     getData := fun rem _ =>
       if String.eqb rem "/scratch/run/replica_01/preprod"
       then Raise (OSError "connection lost") else Ok [([], Dir)];
     symlink_refused := fun _ => false |}.

(** A world without symbolic links. *)
Definition world_no_symlinks : World :=
  {| getcwd := ["home"];
     popen := fun _ _ => script_ok;
     submitJob := fun script => Ok ("job:" +:+ script);
     command := fun _ => Ok tt;
     sendData := fun loc rem => Ok (rem +:+ loc);
     getData := fun _ _ => Ok [([], Dir)];
     symlink_refused := fun _ => true |}.


Definition local_remote : Remote :=
  {| name := "local"; isLocal := true; workDir := "/tmp" |}.

Definition picard_remote : Remote :=
  {| name := "picard"; isLocal := false; workDir := "/scratch" |}.

Definition unknown_remote : Remote :=
  {| name := "marenostrum"; isLocal := false; workDir := "/gpfs" |}.

(** Two replicas on the local backend, last residue given by index. *)
Definition block_local : Block :=
  {| parameters_file := ["data"; "sys.prmtop"];
     coordinates_file := ["data"; "sys.inpcrd"];
     temperature := "300.0"; length_ns := 200; replicas := 2;
     last_residue := PyInt 150; last_residue_interactive := None;
     remote := local_remote; flow_name := "run";
     pluginDir := ["opt"; "molbiomed"] |}.

Definition with_remote (r : Remote) (b : Block) : Block :=
  {| parameters_file := parameters_file b;
     coordinates_file := coordinates_file b;
     temperature := temperature b; length_ns := length_ns b;
     replicas := replicas b; last_residue := last_residue b;
     last_residue_interactive := last_residue_interactive b;
     remote := r; flow_name := flow_name b; pluginDir := pluginDir b |}.

Definition with_replicas (n : Z) (b : Block) : Block :=
  {| parameters_file := parameters_file b;
     coordinates_file := coordinates_file b;
     temperature := temperature b; length_ns := length_ns b;
     replicas := n; last_residue := last_residue b;
     last_residue_interactive := last_residue_interactive b;
     remote := remote b; flow_name := flow_name b;
     pluginDir := pluginDir b |}.

Definition with_residues (explicit : pyval)
    (interactive : option (gmap string pyval)) (b : Block) : Block :=
  {| parameters_file := parameters_file b;
     coordinates_file := coordinates_file b;
     temperature := temperature b; length_ns := length_ns b;
     replicas := replicas b; last_residue := explicit;
     last_residue_interactive := interactive;
     remote := remote b; flow_name := flow_name b;
     pluginDir := pluginDir b |}.

Definition block_picard : Block := with_remote picard_remote block_local.

Definition with_inputs (prmtop inpcrd : path) (b : Block) : Block :=
  {| parameters_file := prmtop; coordinates_file := inpcrd;
     temperature := temperature b; length_ns := length_ns b;
     replicas := replicas b; last_residue := last_residue b;
     last_residue_interactive := last_residue_interactive b;
     remote := remote b; flow_name := flow_name b;
     pluginDir := pluginDir b |}.

(** The topology file kept inside the workspace of an earlier batch. *)
Definition block_inside : Block :=
  with_inputs ["home"; "md_custom_workdir"; "sys.prmtop"]
    ["data"; "sys.inpcrd"] block_local.

(** One replica whose two inputs share their file name. *)
Definition block_twins : Block :=
  with_inputs ["data"; "top"; "system.dat"] ["data"; "crd"; "system.dat"]
    (with_replicas 1 block_local).

(** A residue picked in the viewer. *)
Definition picked (z : Z) : option (gmap string pyval) :=
  Some {[ "residue" := PyInt z ]}.

(** The inputs and the working directory, no workspace yet. *)
Definition fs_fresh : FS :=
  <[ ["data"; "sys.prmtop"] := File "TOPOLOGY" ]>
  (<[ ["data"; "sys.inpcrd"] := File "COORDINATES" ]>
  (<[ ["data"] := Dir ]> (<[ ["home"] := Dir ]> ∅))).

(** The same with a workspace left behind by an earlier batch. *)
Definition fs_stale : FS :=
  <[ ["home"; "md_custom_workdir"; "replica_03"; "old.log"] := File "old" ]>
  (<[ ["home"; "md_custom_workdir"; "replica_03"] := Dir ]>
  (<[ ["home"; "md_custom_workdir"] := Dir ]> fs_fresh)).

(** The workspace of a submitted batch, before anything is downloaded. *)
Definition fs_submitted : FS :=
  <[ ["home"; "md_custom_workdir"] := Dir ]> fs_fresh.

(** A workspace that holds the topology file. *)
Definition fs_inside : FS :=
  <[ ["home"; "md_custom_workdir"; "sys.prmtop"] := File "TOPOLOGY" ]>
  fs_submitted.

(** Inputs of the same file name in two directories. *)
Definition fs_twins : FS :=
  <[ ["data"; "top"; "system.dat"] := File "TOPOLOGY" ]>
  (<[ ["data"; "crd"; "system.dat"] := File "COORDINATES" ]>
  (<[ ["data"; "top"] := Dir ]> (<[ ["data"; "crd"] := Dir ]> fs_fresh))).

(** A working directory in which [md_custom_workdir] is a regular file. *)
Definition fs_blocked : FS :=
  <[ ["home"; "md_custom_workdir"] := File "notes" ]> fs_fresh.

(** The workspace after a collection that brought the production stage
    of the first replica. *)
Definition fs_collected : FS :=
  <[ ["home"; "md_custom_workdir"; "prod_replicas"] := Dir ]>
  (<[ ["home"; "md_custom_workdir"; "preprod_replicas"] := Dir ]>
  (<[ ["home"; "md_custom_workdir"; "replica_01"; "prod"] := Dir ]>
  (<[ ["home"; "md_custom_workdir"; "replica_01"] := Dir ]> fs_submitted))).

(** The remote folders a submission of two replicas recorded. *)
Definition handles : list string :=
  ["/scratch/run/replica_01"; "/scratch/run/replica_02"].

Definition submitted : State :=
  initial fs_submitted {[ "remote_job_folders" := handles ]}.

Definition mmpbsa_block (now : bool) : MmPbsa.Block :=
  {| MmPbsa.prmtop_file := ["data"; "complex.prmtop"];
     MmPbsa.trajectory_file := ["data"; "prod.nc"];
     MmPbsa.job_name := "MMPBSA_job"; MmPbsa.frames := 5000;
     MmPbsa.solvent_mask := ":WAT:Na+:Cl-"; MmPbsa.ligand_mask := ":LIG";
     MmPbsa.output_prefix := "mmpbsa_output";
     MmPbsa.pb_radius := "mbondi2"; MmPbsa.cluster := "local";
     MmPbsa.run_now := now; MmPbsa.pluginDir := ["opt"; "molbiomed"] |}.

(** A setup script that exits with status 0 and writes nothing. *)
Definition world_silent_setup : World :=
  {| getcwd := ["home"];
     popen := fun _ _ =>
       {| returncode := 0; stdout := ""; stderr := ""; produced := [] |};
     submitJob := fun script => Ok ("job:" +:+ script);
     command := fun _ => Ok tt;
     sendData := fun loc rem => Ok (rem +:+ loc);
     getData := fun _ _ => Ok [];
     symlink_refused := fun _ => false |}.

(** A world whose scheduler refuses the job of the second replica. *)
Definition world_queue_closed : World :=
  {| getcwd := ["home"];
     popen := fun _ _ => script_ok;
     submitJob := fun script =>
       if String.eqb script "/home/md_custom_workdir/replica_02/script.sh"
       then Raise (RuntimeError "sbatch: queue is closed")
       else Ok ("job:" +:+ script);
     command := fun _ => Ok tt;
     sendData := fun loc rem => Ok (rem +:+ loc);
     getData := fun _ _ => Ok [];
     symlink_refused := fun _ => false |}.

(** A world in which every script fails. *)
Definition world_scripts_fail : World :=
  {| getcwd := ["home"];
     popen := fun _ _ => script_failed;
     submitJob := fun script => Ok ("job:" +:+ script);
     command := fun _ => Ok tt;
     sendData := fun loc rem => Ok (rem +:+ loc);
     getData := fun _ _ => Ok [];
     symlink_refused := fun _ => false |}.

(** The MM-PBSA setup leaves its two files; running the generated script
    succeeds or fails according to [ok]. *)
Definition world_mmpbsa (ok : bool) : World :=
  {| getcwd := ["home"];
     popen := fun cmd _ =>
       if bool_decide (cmd = ["bash"; "/opt/molbiomed/script_mmpbsa.sh"])
       then (if ok then
               {| returncode := 0; stdout := "DELTA TOTAL -32.1";
                  stderr := ""; produced := [("results.dat", File "-32.1")] |}
             else
               {| returncode := 1; stdout := "";
                  stderr := "MMPBSA.py: not found"; produced := [] |})
       else
         {| returncode := 0; stdout := "written"; stderr := "";
            produced := [("mmpbsa.in", File "&general");
                         ("script_mmpbsa.sh", File "#!/bin/bash")] |};
     submitJob := fun script => Ok ("job:" +:+ script);
     command := fun _ => Ok tt;
     sendData := fun loc rem => Ok (rem +:+ loc);
     getData := fun _ _ => Ok [];
     symlink_refused := fun _ => false |}.

End Samples.

(* ===================================================================== *)
(** * Replica tags *)
(* ===================================================================== *)

Section Tags.

(** Reading back the digits of a tag. *)
Lemma format_02d_parse n :
  option_map Nat.of_uint (NilEmpty.uint_of_string (format_02d n)) = Some n.
Proof.
  unfold format_02d, str_nat.
  destruct (String.length _ <? 2)%nat.
  - change (NilEmpty.uint_of_string
              ("0" +:+ NilEmpty.string_of_uint (Nat.to_uint n)))
      with (uint_of_char "0"
              (NilEmpty.uint_of_string
                 (NilEmpty.string_of_uint (Nat.to_uint n)))).
    rewrite NilEmpty.usu. cbn. f_equal.
    change (Nat.of_uint_acc (Nat.to_uint n) (Nat.tail_mul 10 0))
      with (Nat.of_uint (Nat.to_uint n)).
    apply Unsigned.of_to.
  - rewrite NilEmpty.usu. cbn. f_equal. apply Unsigned.of_to.
Qed.

Lemma format_02d_inj n m : format_02d n = format_02d m -> n = m.
Proof.
  intros H. pose proof (format_02d_parse n) as Hn.
  rewrite H, format_02d_parse in Hn. congruence.
Qed.

Lemma string_app_inv_head (a b c : string) : a +:+ b = a +:+ c -> b = c.
Proof. induction a; cbn; [auto | intros [= ?]; auto]. Qed.

Lemma replica_tag_inj n m : replica_tag n = replica_tag m -> n = m.
Proof.
  unfold replica_tag. intros H%string_app_inv_head.
  apply format_02d_inj, H.
Qed.

Lemma replica_workdir_inj w n m :
  replica_workdir w n = replica_workdir w m -> n = m.
Proof.
  unfold replica_workdir, pjoin. intros H%app_inv_head.
  apply replica_tag_inj. congruence.
Qed.

End Tags.

(* ===================================================================== *)
(** * Filesystem facts *)
(* ===================================================================== *)

Section FsFacts.

Implicit Types (p q : path) (f : FS).

Lemma within_refl p : within p p.
Proof. unfold within. reflexivity. Qed.

Lemma within_pjoin p x : within p (pjoin p x).
Proof. unfold within, pjoin. apply prefix_app_r. reflexivity. Qed.

Lemma within_trans p q r : within p q -> within q r -> within p r.
Proof. unfold within. intros. etrans; eauto. Qed.

Lemma pjoin_neq p x : pjoin p x <> p.
Proof.
  unfold pjoin. intros H. apply (f_equal length) in H.
  rewrite length_app in H. simpl in H. lia.
Qed.

Lemma pname_pjoin p x : pname (pjoin p x) = x.
Proof. unfold pname, pjoin. apply last_last. Qed.

Lemma pjoin_inj p x y : pjoin p x = pjoin p y -> x = y.
Proof. unfold pjoin. intros H%app_inv_head. congruence. Qed.

(** Two children of the same directory with different names span disjoint
    subtrees. *)
Lemma within_siblings p x y q :
  within (pjoin p x) q -> within (pjoin p y) q -> x = y.
Proof.
  unfold within, pjoin. intros [k1 ->] [k2 H].
  rewrite <- !app_assoc in H. apply app_inv_head in H.
  simpl in H. congruence.
Qed.

Lemma not_within_child p x q :
  ~ within p q -> ~ within (pjoin p x) q.
Proof. intros H H'. apply H. eapply within_trans; [apply within_pjoin | eauto]. Qed.

Lemma lookup_remove_tree_within p q f :
  within p q -> remove_tree p f !! q = None.
Proof.
  intros H. unfold remove_tree. apply map_lookup_filter_None_2.
  right. intros x _ Hn. apply Hn, H.
Qed.

Lemma lookup_remove_tree_outside p q f :
  ~ within p q -> remove_tree p f !! q = f !! q.
Proof.
  intros H. unfold remove_tree.
  destruct (f !! q) as [x |] eqn:E.
  - apply map_lookup_filter_Some_2; [exact E | exact H].
  - apply map_lookup_filter_None_2. left. exact E.
Qed.

Lemma remove_tree_vacant p f : vacant p f -> remove_tree p f = f.
Proof.
  intros H. apply map_eq. intros q.
  destruct (decide (within p q)) as [Hq | Hq].
  - rewrite lookup_remove_tree_within by exact Hq. symmetry. apply H, Hq.
  - apply lookup_remove_tree_outside, Hq.
Qed.

Lemma ancestors_and_self_pjoin p x :
  ancestors_and_self (pjoin p x) = ancestors_and_self p ++ [pjoin p x].
Proof.
  unfold ancestors_and_self, pjoin.
  rewrite length_app. simpl. rewrite Nat.add_1_r, seq_S, map_app. simpl.
  f_equal.
  - apply map_ext_in. intros n [_ Hn]%in_seq.
    apply take_app_le. lia.
  - f_equal. rewrite firstn_all2 by (rewrite length_app; simpl; lia).
    reflexivity.
Qed.

Lemma ancestors_are_prefixes p q :
  q ∈ ancestors_and_self p -> within q p.
Proof.
  unfold ancestors_and_self. intros H.
  apply list_elem_of_In, in_map_iff in H. destruct H as (n & <- & _).
  unfold within. apply prefix_take.
Qed.

Lemma makedirs_go_dirs ps qs f :
  Forall (fun q => f !! q = Some Dir) ps ->
  makedirs_go (ps ++ qs) f = makedirs_go qs f.
Proof.
  induction 1 as [| q ps Hq _ IH]; [reflexivity |].
  simpl. rewrite Hq. exact IH.
Qed.


Lemma fs_makedirs_child p x f :
  dirs_exist p f ->
  f !! pjoin p x = None ->
  fs_makedirs (pjoin p x) f = Ok (<[pjoin p x := Dir]> f).
Proof.
  intros H Hx. unfold fs_makedirs.
  rewrite ancestors_and_self_pjoin, makedirs_go_dirs by exact H.
  simpl. rewrite Hx. reflexivity.
Qed.

Lemma dirs_exist_pjoin p x f :
  dirs_exist p f -> f !! pjoin p x = Some Dir -> dirs_exist (pjoin p x) f.
Proof.
  intros H Hx. unfold dirs_exist.
  rewrite ancestors_and_self_pjoin. apply Forall_app. split; [exact H |].
  constructor; [exact Hx | constructor].
Qed.

(** Writing somewhere that is not on the way to [p] keeps the way. *)
Lemma dirs_exist_insert p q n f :
  dirs_exist p f -> ~ within q p -> dirs_exist p (<[q := n]> f).
Proof.
  unfold dirs_exist. rewrite !Forall_forall. intros H Hq r Hr.
  rewrite lookup_insert_ne; [apply H, Hr |].
  intros ->. apply Hq, ancestors_are_prefixes, Hr.
Qed.

Lemma dirs_exist_remove_tree p q f :
  dirs_exist p f -> ~ within q p -> dirs_exist p (remove_tree q f).
Proof.
  unfold dirs_exist. rewrite !Forall_forall. intros H Hq r Hr.
  rewrite lookup_remove_tree_outside; [apply H, Hr |].
  intros Hw. apply Hq. eapply within_trans; [exact Hw |].
  apply ancestors_are_prefixes, Hr.
Qed.

Lemma not_within_parent p x : ~ within (pjoin p x) p.
Proof.
  unfold within, pjoin. intros H%prefix_length.
  rewrite length_app in H. simpl in H. lia.
Qed.

(** The entries a process leaves lie directly in its working directory. *)
Lemma lookup_leave_products_outside cwd c f q :
  (forall x, q <> pjoin cwd x) ->
  leave_products cwd c f !! q = f !! q.
Proof.
  intros Hq. unfold leave_products.
  generalize (produced c) f. intros l. induction l as [| [x n] l IH]; intros g.
  - reflexivity.
  - simpl. rewrite IH. apply lookup_insert_ne. intros E. apply (Hq x). auto.
Qed.

Lemma lookup_leave_products_other cwd c f x :
  x ∉ (produced c).*1 ->
  leave_products cwd c f !! pjoin cwd x = f !! pjoin cwd x.
Proof.
  unfold leave_products.
  generalize (produced c) f. intros l. induction l as [| [y n] l IH]; intros g Hx.
  - reflexivity.
  - simpl in *. apply not_elem_of_cons in Hx as [Hne Hx].
    rewrite IH by exact Hx.
    apply lookup_insert_ne. intros E%pjoin_inj. congruence.
Qed.

Lemma dirs_exist_leave_products p cwd c f :
  dirs_exist p f -> ~ within cwd p \/ p = cwd ->
  dirs_exist p (leave_products cwd c f).
Proof.
  unfold dirs_exist. rewrite !Forall_forall. intros H Hc r Hr.
  rewrite lookup_leave_products_outside; [apply H, Hr |].
  intros x ->. apply ancestors_are_prefixes in Hr.
  destruct Hc as [Hc | ->].
  - apply Hc. eapply within_trans; [apply within_pjoin | exact Hr].
  - exact (not_within_parent _ _ Hr).
Qed.

End FsFacts.

(* ===================================================================== *)
(** * Running actions step by step *)
(* ===================================================================== *)

Lemma bind_Ok {A B} (m : M A) (k : A -> M B) s a s' :
  m s = (Ok a, s') -> bind m k s = k a s'.
Proof. unfold bind. intros ->. reflexivity. Qed.

Lemma bind_Raise {A B} (m : M A) (k : A -> M B) s e s' :
  m s = (Raise e, s') -> bind m k s = (Raise e, s').
Proof. unfold bind. intros ->. reflexivity. Qed.

Lemma on_fs_Ok op s f :
  op (fs s) = Ok f -> on_fs op s = (Ok tt, set_fs f s).
Proof. unfold on_fs. intros ->. reflexivity. Qed.

Lemma on_fs_Raise op s e :
  op (fs s) = Raise e -> on_fs op s = (Raise e, s).
Proof. unfold on_fs. intros ->. reflexivity. Qed.

Lemma run_returned {A} (x : result A * State) a :
  x.1 = Ok a -> x = (Ok a, x.2).
Proof. destruct x as [r s]. cbn. intros ->. reflexivity. Qed.

Lemma run_raised {A} (x : result A * State) e :
  x.1 = Raise e -> x = (Raise e, x.2).
Proof. destruct x as [r s]. cbn. intros ->. reflexivity. Qed.

(* ===================================================================== *)
(** * Validation of the request *)
(* ===================================================================== *)

Section Validation.
Variable w : World.

Lemma check_last_residue_falsy block s :
  truthy (last_residue_value block) = false ->
  check_last_residue block s = (Raise (ValueError missing_residue_msg), s).
Proof. unfold check_last_residue. intros ->. reflexivity. Qed.

Lemma check_last_residue_truthy block s :
  truthy (last_residue_value block) = true ->
  check_last_residue block s = (Ok tt, s).
Proof. unfold check_last_residue. intros ->. reflexivity. Qed.

Lemma check_machine_allowed block s :
  name (remote block) ∈ allowed_machines ->
  check_machine block s = (Ok tt, s).
Proof.
  intros H. unfold check_machine.
  rewrite bool_decide_eq_true_2 by exact H. reflexivity.
Qed.

Lemma check_machine_unknown block s :
  name (remote block) ∉ allowed_machines ->
  check_machine block s
  = (Raise (ValueError (unsupported_machine_msg (name (remote block)))), s).
Proof.
  intros H. unfold check_machine.
  rewrite bool_decide_eq_false_2 by exact H. reflexivity.
Qed.

(** Past the two checks [run_script] is the workspace preparation
    followed by the replica loop. *)
Lemma run_script_validated block s :
  truthy (last_residue_value block) = true ->
  name (remote block) ∈ allowed_machines ->
  run_script w block s
  = (prepare_workspace w ;;
     remote_job_folders <-
       replica_loop w block (range1 (replicas block)) [] ;;
     when (negb (bool_decide (remote_job_folders = [])))
       (store_folders remote_job_folders)) s.
Proof.
  intros Hr Hm. unfold run_script.
  rewrite (bind_Ok _ _ s tt s) by (apply check_last_residue_truthy, Hr).
  rewrite (bind_Ok _ _ s tt s) by (apply check_machine_allowed, Hm).
  reflexivity.
Qed.

(** C8.  When neither the last-residue index nor an interactive residue
    selection is supplied, [run_script] raises the [ValueError] asking for
    the last residue and leaves the whole state as it found it: no event
    is added to the trace, so no subprocess has been started (nor any
    other external call made), and the filesystem is untouched. *)
Theorem missing_residue_raises_before_any_subprocess block s :
  last_residue block = PyNone ->
  last_residue_interactive block = None ->
  run_script w block s = (Raise (ValueError missing_residue_msg), s).
Proof.
  intros He Hi. unfold run_script.
  apply bind_Raise, check_last_residue_falsy.
  unfold last_residue_value. rewrite He, Hi. reflexivity.
Qed.

End Validation.

Lemma missing_residue_raises_before_any_subprocess_witness :
  let block := Samples.with_residues PyNone None Samples.block_local in
  let s := initial Samples.fs_fresh ∅ in
  run_script Samples.world_ok block s
  = (Raise (ValueError missing_residue_msg), s)
  /\ trace s = [].
Proof.
  split.
  - apply (missing_residue_raises_before_any_subprocess Samples.world_ok
             (Samples.with_residues PyNone None Samples.block_local)
             (initial Samples.fs_fresh ∅)); reflexivity.
  - reflexivity.
Defined.

(* ===================================================================== *)
(** * Resolution of the last residue *)
(* ===================================================================== *)

Section LastResidue.

Lemma last_residue_value_unfold block :
  last_residue_value block
  = py_or (last_residue block) (interactive_residue block).
Proof. reflexivity. Qed.

Lemma check_last_residue_raises_iff block s :
  check_last_residue block s = (Raise (ValueError missing_residue_msg), s)
  <-> truthy (last_residue block) = false
      /\ truthy (interactive_residue block) = false.
Proof.
  unfold check_last_residue. rewrite last_residue_value_unfold.
  unfold py_or.
  destruct (truthy (last_residue block)) eqn:He; simpl.
  - rewrite He. simpl. split; [discriminate | intros [? _]; discriminate].
  - destruct (truthy (interactive_residue block)) eqn:Hi; simpl.
    + split; [discriminate | intros [_ ?]; discriminate].
    + split; auto.
Qed.

End LastResidue.

(** C9 as stated fails: with the explicit index [0] and residue [150] picked
    in the viewer, both sources are supplied, yet the value resolved and
    handed to the generator after [-r] is the interactive one. *)
Lemma explicit_zero_index_loses_precedence :
  let block :=
    Samples.with_residues (PyInt 0) (Samples.picked 150) Samples.block_local in
  last_residue block = PyInt 0
  /\ last_residue_interactive block = Samples.picked 150
  /\ last_residue_value block = PyInt 150
  /\ last_residue_value block
     <> last_residue block
  /\ build_cmd block !! 7%nat = Some "150".
Proof.
  repeat split; try reflexivity. vm_compute. discriminate.
Qed.

(* ===================================================================== *)
(** * Unsupported machines *)
(* ===================================================================== *)

Section UnsupportedMachine.
Variable w : World.

(** C7 (amended).  When the last residue resolves and the machine name is
    not one of [csuc], [local], [picard], [slurm], [run_script] raises the
    [ValueError] whose message quotes the offending name and lists the
    allowed machines, and the state is exactly the one it started from:
    no directory is created, no file copied, nothing recorded in the
    trace. *)
Theorem unsupported_machine_raises block s :
  truthy (last_residue_value block) = true ->
  name (remote block) ∉ allowed_machines ->
  run_script w block s
  = (Raise (ValueError (unsupported_machine_msg (name (remote block)))), s)
  /\ unsupported_machine_msg (name (remote block))
     = "Machine '" +:+ name (remote block)
       +:+ "' is not supported. Allowed machines are: "
       +:+ join ", " ["csuc"; "local"; "picard"; "slurm"]
       +:+ ". Please update the plugin and the create_md_custom script to support this machine.".
Proof.
  intros Hr Hm. split; [| reflexivity].
  unfold run_script.
  rewrite (bind_Ok _ _ s tt s) by (apply check_last_residue_truthy, Hr).
  apply bind_Raise, check_machine_unknown, Hm.
Qed.

End UnsupportedMachine.

Lemma unsupported_machine_raises_witness :
  let block := Samples.with_remote Samples.unknown_remote Samples.block_local in
  let s := initial Samples.fs_stale ∅ in
  run_script Samples.world_ok block s
  = (Raise (ValueError
       (unsupported_machine_msg "marenostrum")), s).
Proof.
  apply (unsupported_machine_raises Samples.world_ok
           (Samples.with_remote Samples.unknown_remote Samples.block_local)
           (initial Samples.fs_stale ∅)).
  - reflexivity.
  - vm_compute. intros H. repeat (inversion H as [| ? ? ? H']; subst; clear H; rename H' into H).
Defined.

(** C7 as stated fails: the residue check comes first, so a request with an
    unsupported machine and no last residue raises the residue error, whose
    message names neither the machine nor the supported set. *)
Lemma unsupported_machine_without_residue :
  let block :=
    Samples.with_residues PyNone None
      (Samples.with_remote Samples.unknown_remote Samples.block_local) in
  let s := initial Samples.fs_fresh ∅ in
  (name (remote block)
     ∉ allowed_machines)
  /\ run_script Samples.world_ok block s
     = (Raise (ValueError
          "Last residue must be specified via index or interactive selection."), s)
  /\ (run_script Samples.world_ok block s).1
     <> Raise (ValueError (unsupported_machine_msg
                             (name (remote block)))).
Proof.
  split; [| split].
  - vm_compute. intros H.
    repeat (inversion H as [| ? ? ? H']; subst; clear H; rename H' into H).
  - reflexivity.
  - vm_compute. discriminate.
Qed.

(* ===================================================================== *)
(** * The MM-PBSA block *)
(* ===================================================================== *)

Section MmPbsaSkip.
Variable w : World.

(** C10.  When the setup script exits with status 0 and leaves no
    [script_mmpbsa.sh] in the plugin directory, [run_script] finishes
    without raising whatever [run_now] says: the setup script is the only
    subprocess started, and both outputs are set to the expected
    [mmpbsa.in] and [script_mmpbsa.sh] paths although the files need not
    exist. *)
Theorem mmpbsa_missing_script_is_skipped (block : MmPbsa.Block) s :
  let workdir := MmPbsa.pluginDir block in
  let setup := popen w (MmPbsa.build_cmd block) workdir in
  returncode setup = 0%Z ->
  leave_products workdir setup (fs s) !! pjoin workdir "script_mmpbsa.sh"
  = None ->
  exists s',
    MmPbsa.run_script w block s = (Ok tt, s')
    /\ trace s'
       = trace s
         ++ [EvPopen (MmPbsa.build_cmd block) workdir;
             EvPrint ("Setup stdout:" +:+ nl +:+ stdout setup +:+ nl
                      +:+ "Setup stderr:" +:+ nl +:+ stderr setup)]
    /\ outputs s'
       = <["submission_script" := str_path (pjoin workdir "script_mmpbsa.sh")]>
           (<["mmpbsa_input_file" := str_path (pjoin workdir "mmpbsa.in")]>
              (outputs s))
    /\ fs s' = leave_products workdir setup (fs s)
    /\ extraData s' = extraData s.
Proof.
  intros workdir setup Hrc Hnone.
  unfold MmPbsa.run_script, run_process, bind, emit, on_fs, ret, print,
    emit, path_exists, when, setOutput.
  fold workdir. fold setup. simpl. rewrite Hrc. simpl.
  rewrite Hnone.
  rewrite bool_decide_eq_false_2 by (intros [? ?]; discriminate).
  rewrite andb_false_r. simpl.
  eexists. split; [reflexivity |]. simpl.
  rewrite <- app_assoc. repeat split; reflexivity.
Qed.

End MmPbsaSkip.

Lemma mmpbsa_missing_script_is_skipped_witness :
  exists s',
    MmPbsa.run_script Samples.world_silent_setup (Samples.mmpbsa_block true)
      (initial Samples.fs_fresh ∅) = (Ok tt, s')
    /\ outputs s' !! "submission_script"
       = Some "/opt/molbiomed/script_mmpbsa.sh"
    /\ fs s' !! ["opt"; "molbiomed"; "script_mmpbsa.sh"] = None.
Proof.
  destruct (mmpbsa_missing_script_is_skipped Samples.world_silent_setup
              (Samples.mmpbsa_block true) (initial Samples.fs_fresh ∅)
              eq_refl eq_refl)
    as (s' & Hrun & _ & Hout & Hfs & _).
  exists s'. split; [exact Hrun |]. split.
  - rewrite Hout. reflexivity.
  - rewrite Hfs. reflexivity.
Defined.

(* ===================================================================== *)
(** * One turn of the replica loop *)
(* ===================================================================== *)

Section ReplicaBody.
Variable w : World.
Variable block : Block.

Lemma on_fs_bind {B} op (k : unit -> M B) s f :
  op (fs s) = Ok f -> bind (on_fs op) k s = k tt (set_fs f s).
Proof. intros H. apply bind_Ok, on_fs_Ok, H. Qed.

Lemma outside_parent_neq_inside p q :
  ~ within (parent_workdir w) p -> within (parent_workdir w) q -> p <> q.
Proof. intros Hp Hq ->. contradiction. Qed.

Lemma workdir_within_parent k : within (parent_workdir w) (replica_workdir w k).
Proof. apply within_pjoin. Qed.

Lemma workdir_child_within_parent k x :
  within (parent_workdir w) (pjoin (replica_workdir w k) x).
Proof.
  eapply within_trans; [apply workdir_within_parent | apply within_pjoin].
Qed.

(** The three filesystem steps that open a turn. *)
Lemma stage_inputs c1 c2 k f :
  ready w block c1 c2 f ->
  vacant (replica_workdir w k) f ->
  let workdir := replica_workdir w k in
  let dst1 := pjoin workdir (pname (parameters_file block)) in
  let dst2 := pjoin workdir (pname (coordinates_file block)) in
  fs_makedirs workdir f = Ok (<[workdir := Dir]> f)
  /\ fs_copy2 (parameters_file block) dst1 (<[workdir := Dir]> f)
     = Ok (<[dst1 := File c1]> (<[workdir := Dir]> f))
  /\ fs_copy2 (coordinates_file block) dst2
       (<[dst1 := File c1]> (<[workdir := Dir]> f))
     = Ok (<[dst2 := File c2]> (<[dst1 := File c1]> (<[workdir := Dir]> f))).
Proof.
  intros [Hroot Hp Hpo Hc Hco] Hvac workdir dst1 dst2.
  assert (Hw : f !! workdir = None) by apply Hvac, within_refl.
  assert (Hd1 : f !! dst1 = None) by apply Hvac, within_pjoin.
  assert (Hd2 : f !! dst2 = None) by apply Hvac, within_pjoin.
  assert (Hpw : parameters_file block <> workdir)
    by (eapply outside_parent_neq_inside; [eauto | apply workdir_within_parent]).
  assert (Hcw : coordinates_file block <> workdir)
    by (eapply outside_parent_neq_inside; [eauto | apply workdir_within_parent]).
  assert (Hcd : coordinates_file block <> dst1)
    by (eapply outside_parent_neq_inside;
        [eauto | apply workdir_child_within_parent]).
  split; [| split].
  - apply fs_makedirs_child; assumption.
  - unfold fs_copy2.
    rewrite lookup_insert_ne by congruence. rewrite Hp.
    rewrite lookup_insert_ne by (apply not_eq_sym, pjoin_neq).
    rewrite Hd1. reflexivity.
  - unfold fs_copy2.
    rewrite !lookup_insert_ne by congruence. rewrite Hc.
    destruct (decide (dst1 = dst2)) as [E | E].
    + rewrite <- E, lookup_insert_eq. reflexivity.
    + rewrite lookup_insert_ne by exact E.
      rewrite lookup_insert_ne by (apply not_eq_sym, pjoin_neq).
      rewrite Hd2. reflexivity.
Qed.

Ltac flatten_trace :=
  repeat rewrite <- app_assoc; cbn [app].

(** Case analysis on the first test the goal is stuck on. *)
Ltac split_branch :=
  match goal with
  | |- context [if ?b then _ else _] => destruct b
  end.

(** Unfolding the monad under a block action. *)
Ltac run_action f :=
  cbv beta iota zeta delta
    [f bind print emit run_process on_fs ret raise when for_each
     path_is_dir path_exists call setOutput
     fs set_fs add_event set_extraData set_output trace extraData outputs
     fst snd negb Z.eqb].

(** A turn whose generator succeeds and whose job the backend accepts. *)
Lemma replica_body_ok c1 c2 k folders s script job_id recorded :
  ready w block c1 c2 (fs s) ->
  vacant (replica_workdir w k) (fs s) ->
  returncode (popen w (build_cmd block) (replica_workdir w k)) = 0%Z ->
  backend_answer w block k = Ok (script, job_id, recorded) ->
  exists s' evs,
    replica_body w block k folders s = (Ok (folders ++ recorded), s')
    /\ fs s' = replica_fs w block c1 c2 k (fs s)
    /\ extraData s' = extraData s
    /\ outputs s' = outputs s
    /\ trace s' = trace s ++ evs
    /\ List.filter loud evs
       = [EvPopen (build_cmd block) (replica_workdir w k); EvSubmitJob script]
    /\ List.last evs (EvPrint "")
       = EvPrint ("Submitted job with ID: " +:+ job_id).
Proof.
  intros Hready Hvac Hrc Hans.
  destruct (stage_inputs c1 c2 k (fs s) Hready Hvac) as (H1 & H2 & H3).
  unfold backend_answer in Hans.
  destruct s as [f0 ex out tr]. cbn [fs] in *.
  unfold replica_workdir in *.
  run_action replica_body.
  rewrite H1. run_action replica_body.
  rewrite H2. run_action replica_body.
  rewrite H3. run_action replica_body.
  rewrite Hrc. run_action replica_body.
  destruct (isLocal (remote block)).
  - destruct (submitJob w _) as [j |] eqn:Hj; [| discriminate].
    injection Hans as <- <- <-.
    repeat (split_branch; run_action replica_body).
    all: rewrite ?Hj; run_action replica_body.
    all: eexists; eexists; split; [rewrite app_nil_r; reflexivity |].
    all: cbn [fs extraData outputs trace].
    all: split; [reflexivity |]; split; [reflexivity |];
      split; [reflexivity |]; flatten_trace.
    all: split; [reflexivity |]; split; reflexivity.
  - destruct (command w _) as [[] |] eqn:Hcmd; [| discriminate].
    destruct (sendData w _ _) as [rw |] eqn:Hsend; [| discriminate].
    destruct (submitJob w _) as [j |] eqn:Hj; [| discriminate].
    injection Hans as <- <- <-.
    repeat (split_branch; run_action replica_body).
    all: rewrite ?Hcmd; run_action replica_body.
    all: rewrite ?Hsend; run_action replica_body.
    all: rewrite ?pname_pjoin.
    all: rewrite ?Hj; run_action replica_body.
    all: eexists; eexists; split; [reflexivity |].
    all: cbn [fs extraData outputs trace].
    all: split; [reflexivity |]; split; [reflexivity |];
      split; [reflexivity |]; flatten_trace.
    all: split; [reflexivity |]; split; reflexivity.
Qed.

(** A turn whose generator exits with a non-zero status. *)
Lemma replica_body_script_fails c1 c2 k folders s :
  ready w block c1 c2 (fs s) ->
  vacant (replica_workdir w k) (fs s) ->
  returncode (popen w (build_cmd block) (replica_workdir w k)) <> 0%Z ->
  exists s' evs,
    replica_body w block k folders s
    = (Raise (RuntimeError
                ("Replica " +:+ str_nat k +:+ " script failed with error: "
                 +:+ stderr (popen w (build_cmd block)
                               (replica_workdir w k)))), s')
    /\ fs s' = replica_fs w block c1 c2 k (fs s)
    /\ extraData s' = extraData s
    /\ outputs s' = outputs s
    /\ trace s' = trace s ++ evs
    /\ List.filter loud evs
       = [EvPopen (build_cmd block) (replica_workdir w k)].
Proof.
  intros Hready Hvac Hrc.
  destruct (stage_inputs c1 c2 k (fs s) Hready Hvac) as (H1 & H2 & H3).
  destruct s as [f0 ex out tr]. cbn [fs] in *.
  unfold replica_workdir in *.
  run_action replica_body.
  rewrite H1. run_action replica_body.
  rewrite H2. run_action replica_body.
  rewrite H3. run_action replica_body.
  apply Z.eqb_neq in Hrc. unfold Z.eqb in Hrc. rewrite Hrc.
  run_action replica_body.
  eexists; eexists; split; [reflexivity |].
  cbn [fs extraData outputs trace].
  split; [reflexivity |]; split; [reflexivity |];
    split; [reflexivity |]; flatten_trace.
  split; reflexivity.
Qed.

(** What a turn writes stays inside the replica's directory. *)
Lemma replica_fs_outside c1 c2 k f q :
  ~ within (replica_workdir w k) q ->
  replica_fs w block c1 c2 k f !! q = f !! q.
Proof.
  intros Hq. unfold replica_fs.
  rewrite lookup_leave_products_outside
    by (intros x ->; apply Hq, within_pjoin).
  rewrite !lookup_insert_ne; [reflexivity | | |].
  - intros <-. apply Hq, within_refl.
  - intros <-. apply Hq, within_pjoin.
  - intros <-. apply Hq, within_pjoin.
Qed.

Lemma replica_fs_workdir c1 c2 k f :
  replica_fs w block c1 c2 k f !! replica_workdir w k = Some Dir.
Proof.
  unfold replica_fs.
  rewrite lookup_leave_products_outside
    by (intros x E; symmetry in E; exact (pjoin_neq _ _ E)).
  rewrite !lookup_insert_ne by (apply pjoin_neq).
  apply lookup_insert_eq.
Qed.

Lemma outside_parent_outside_workdir k q :
  ~ within (parent_workdir w) q -> ~ within (replica_workdir w k) q.
Proof. apply not_within_child. Qed.

Lemma other_workdir_outside k k' q :
  k <> k' -> within (replica_workdir w k') q ->
  ~ within (replica_workdir w k) q.
Proof.
  intros Hne Hk' Hk. apply Hne, replica_tag_inj.
  exact (within_siblings _ _ _ _ Hk Hk').
Qed.

Lemma ready_replica_fs c1 c2 k f :
  ready w block c1 c2 f -> ready w block c1 c2 (replica_fs w block c1 c2 k f).
Proof.
  intros [Hroot Hp Hpo Hc Hco]. split; try assumption.
  - unfold dirs_exist in *. rewrite Forall_forall in *. intros q Hq.
    rewrite replica_fs_outside; [apply Hroot, Hq |].
    intros Hw. apply ancestors_are_prefixes in Hq.
    exact (not_within_parent _ _ (within_trans _ _ _ Hw Hq)).
  - rewrite replica_fs_outside by (apply outside_parent_outside_workdir, Hpo).
    exact Hp.
  - rewrite replica_fs_outside by (apply outside_parent_outside_workdir, Hco).
    exact Hc.
Qed.

Lemma vacant_replica_fs c1 c2 k k' f :
  k <> k' -> vacant (replica_workdir w k') f ->
  vacant (replica_workdir w k') (replica_fs w block c1 c2 k f).
Proof.
  intros Hne Hv q Hq.
  rewrite replica_fs_outside by (eapply other_workdir_outside; eauto).
  apply Hv, Hq.
Qed.

End ReplicaBody.

(* ===================================================================== *)
(** * The replica loop *)
(* ===================================================================== *)

Section ReplicaLoop.
Variable w : World.
Variable block : Block.

Lemma last_elem_of {A} (l : list A) d : l <> [] -> List.last l d ∈ l.
Proof.
  induction l as [| x [| y l] IH]; intros H; [congruence | left |].
  right. apply IH. discriminate.
Qed.

Lemma replica_loop_app ks1 ks2 folders s :
  replica_loop w block (ks1 ++ ks2) folders s
  = match replica_loop w block ks1 folders s with
    | (Ok folders', s') => replica_loop w block ks2 folders' s'
    | (Raise e, s') => (Raise e, s')
    end.
Proof.
  revert folders s. induction ks1 as [| k ks1 IH]; intros folders s.
  - reflexivity.
  - cbn [app replica_loop]. unfold bind.
    destruct (replica_body w block k folders s) as [[folders' | e] s'].
    + apply IH.
    + reflexivity.
Qed.

Lemma ready_loop_fs c1 c2 ks f :
  ready w block c1 c2 f -> ready w block c1 c2 (loop_fs w block c1 c2 ks f).
Proof.
  revert f. induction ks as [| k ks IH]; intros f H; [exact H |].
  apply IH, ready_replica_fs, H.
Qed.

(** A turn leaves the directories of the other replicas alone. *)
Lemma loop_fs_outside c1 c2 ks f q :
  (forall k, k ∈ ks -> ~ within (replica_workdir w k) q) ->
  loop_fs w block c1 c2 ks f !! q = f !! q.
Proof.
  revert f. induction ks as [| k ks IH]; intros f H; [reflexivity |].
  change (loop_fs w block c1 c2 (k :: ks) f)
    with (loop_fs w block c1 c2 ks (replica_fs w block c1 c2 k f)).
  rewrite IH by (intros k' Hk'; apply H; right; exact Hk').
  apply replica_fs_outside, H. left.
Qed.

Lemma vacant_loop_fs c1 c2 ks k f :
  k ∉ ks -> vacant (replica_workdir w k) f ->
  vacant (replica_workdir w k) (loop_fs w block c1 c2 ks f).
Proof.
  intros Hk Hv q Hq. rewrite loop_fs_outside; [apply Hv, Hq |].
  intros k' Hk'. eapply other_workdir_outside; [| exact Hq].
  intros ->. contradiction.
Qed.

(** Every turn succeeding, the loop runs to its end. *)
Lemma replica_loop_ok c1 c2 ks :
  forall folders s,
    NoDup ks ->
    ready w block c1 c2 (fs s) ->
    (forall k, k ∈ ks -> vacant (replica_workdir w k) (fs s)) ->
    (forall k, k ∈ ks -> replica_succeeds w block k) ->
    exists s' evs,
      replica_loop w block ks folders s
      = (Ok (folders ++ concat (List.map (recorded_folder w block) ks)), s')
      /\ fs s' = loop_fs w block c1 c2 ks (fs s)
      /\ extraData s' = extraData s
      /\ outputs s' = outputs s
      /\ trace s' = trace s ++ evs
      /\ List.filter loud evs
         = concat (List.map (replica_interactions w block) ks)
      /\ (forall k, k ∈ ks -> job_line w block k ∈ evs).
Proof.
  induction ks as [| k ks IH]; intros folders s Hnd Hready Hvac Hok.
  - exists s, []. cbn. rewrite !app_nil_r.
    repeat split; try reflexivity. intros k Hk. inversion Hk.
  - apply NoDup_cons in Hnd as [Hk Hnd].
    destruct (Hok k) as [Hrc [[[script job_id] recorded] Hans]]; [left |].
    destruct (replica_body_ok w block c1 c2 k folders s script job_id recorded
                Hready (Hvac k ltac:(left)) Hrc Hans)
      as (s1 & evs1 & Hrun & Hfs & Hex & Hout & Htr & Hloud & Hlast).
    destruct (IH (folders ++ recorded) s1 Hnd) as
      (s2 & evs2 & Hrun2 & Hfs2 & Hex2 & Hout2 & Htr2 & Hloud2 & Hjobs2).
    { rewrite Hfs. apply ready_replica_fs, Hready. }
    { intros k' Hk'. rewrite Hfs. apply vacant_replica_fs.
      - intros ->. contradiction.
      - apply Hvac. right. exact Hk'. }
    { intros k' Hk'. apply Hok. right. exact Hk'. }
    exists s2, (evs1 ++ evs2).
    cbn [replica_loop]. rewrite (bind_Ok _ _ _ _ _ Hrun), Hrun2.
    assert (Hrec : recorded_folder w block k = recorded)
      by (unfold recorded_folder; rewrite Hans; reflexivity).
    assert (Hscr : submitted_script w block k = script)
      by (unfold submitted_script; rewrite Hans; reflexivity).
    assert (Hjob : submitted_job w block k = job_id)
      by (unfold submitted_job; rewrite Hans; reflexivity).
    split; [| split; [| split; [| split; [| split; [| split]]]]].
    + cbn [List.map concat]. rewrite Hrec, app_assoc. reflexivity.
    + rewrite Hfs2, Hfs. reflexivity.
    + congruence.
    + congruence.
    + rewrite Htr2, Htr, app_assoc. reflexivity.
    + rewrite List.filter_app, Hloud, Hloud2. cbn [List.map concat].
      rewrite <- Hscr. reflexivity.
    + intros k' Hk'. apply elem_of_app. apply elem_of_cons in Hk' as [-> | Hk'].
      * left. unfold job_line. rewrite Hjob, <- Hlast.
        apply last_elem_of. intros ->. discriminate.
      * right. apply Hjobs2, Hk'.
Qed.

(** The turns before [k] succeeding and the generator failing for [k], the
    loop stops there. *)
Lemma replica_loop_script_fails c1 c2 ks1 k ks2 folders s :
  NoDup (ks1 ++ [k]) ->
  ready w block c1 c2 (fs s) ->
  (forall j, j ∈ ks1 ++ [k] -> vacant (replica_workdir w j) (fs s)) ->
  (forall j, j ∈ ks1 -> replica_succeeds w block j) ->
  returncode (popen w (build_cmd block) (replica_workdir w k)) <> 0%Z ->
  exists s' evs,
    replica_loop w block (ks1 ++ k :: ks2) folders s
    = (Raise (script_failure w block k), s')
    /\ fs s' = loop_fs w block c1 c2 (ks1 ++ [k]) (fs s)
    /\ extraData s' = extraData s
    /\ outputs s' = outputs s
    /\ trace s' = trace s ++ evs
    /\ List.filter loud evs
       = concat (List.map (replica_interactions w block) ks1)
         ++ [EvPopen (build_cmd block) (replica_workdir w k)]
    /\ (forall j, j ∈ ks1 -> job_line w block j ∈ evs).
Proof.
  intros Hnd Hready Hvac Hok Hrc.
  apply NoDup_app in Hnd as (Hnd1 & Hk & _).
  destruct (replica_loop_ok c1 c2 ks1 folders s Hnd1 Hready) as
    (s1 & evs1 & Hrun & Hfs & Hex & Hout & Htr & Hloud & Hjobs).
  { intros j Hj. apply Hvac, elem_of_app. left. exact Hj. }
  { exact Hok. }
  destruct (replica_body_script_fails w block c1 c2 k
              (folders ++ concat (List.map (recorded_folder w block) ks1)) s1)
    as (s2 & evs2 & Hrun2 & Hfs2 & Hex2 & Hout2 & Htr2 & Hloud2).
  { rewrite Hfs. apply ready_loop_fs, Hready. }
  { rewrite Hfs. apply vacant_loop_fs.
    - intros Hin. apply (Hk k Hin). left.
    - apply Hvac, elem_of_app. right. left. }
  { exact Hrc. }
  exists s2, (evs1 ++ evs2).
  rewrite replica_loop_app, Hrun. cbn [replica_loop].
  rewrite (bind_Raise _ _ _ _ _ Hrun2).
  split; [reflexivity |].
  split.
  { rewrite Hfs2, Hfs. unfold loop_fs. rewrite foldl_app. reflexivity. }
  split; [congruence |]. split; [congruence |].
  split; [rewrite Htr2, Htr, app_assoc; reflexivity |].
  split.
  { rewrite List.filter_app, Hloud, Hloud2. reflexivity. }
  intros j Hj. apply elem_of_app. left. apply Hjobs, Hj.
Qed.

End ReplicaLoop.

(* ===================================================================== *)
(** * Preparing the workspace *)
(* ===================================================================== *)

Section Prepare.
Variable w : World.

Lemma parent_not_within_cwd : ~ within (parent_workdir w) (getcwd w).
Proof. apply not_within_parent. Qed.

Lemma lookup_fresh_workspace_root f :
  fresh_workspace w f !! parent_workdir w = Some Dir.
Proof. apply lookup_insert_eq. Qed.

Lemma lookup_fresh_workspace_below f q :
  within (parent_workdir w) q -> q <> parent_workdir w ->
  fresh_workspace w f !! q = None.
Proof.
  intros Hq Hne. unfold fresh_workspace.
  rewrite lookup_insert_ne by congruence.
  apply lookup_remove_tree_within, Hq.
Qed.

Lemma lookup_fresh_workspace_outside f q :
  ~ within (parent_workdir w) q -> fresh_workspace w f !! q = f !! q.
Proof.
  intros Hq. unfold fresh_workspace.
  rewrite lookup_insert_ne by (intros <-; apply Hq, within_refl).
  apply lookup_remove_tree_outside, Hq.
Qed.

Lemma fs_makedirs_parent f :
  dirs_exist (getcwd w) f ->
  f !! parent_workdir w = None ->
  fs_makedirs (parent_workdir w) f = Ok (<[parent_workdir w := Dir]> f).
Proof. apply fs_makedirs_child. Qed.

(** With the working directory in place and the root a directory or
    absent, the preparation empties and recreates the root. *)
Lemma prepare_workspace_ok s :
  dirs_exist (getcwd w) (fs s) ->
  fs s !! parent_workdir w = Some Dir \/ vacant (parent_workdir w) (fs s) ->
  exists s' evs,
    prepare_workspace w s = (Ok tt, s')
    /\ fs s' = fresh_workspace w (fs s)
    /\ extraData s' = extraData s
    /\ outputs s' = outputs s
    /\ trace s' = trace s ++ evs
    /\ List.filter loud evs = [].
Proof.
  intros Hcwd Hroot. destruct s as [f0 ex out tr]. cbn [fs] in *.
  cbv beta iota zeta delta
    [prepare_workspace bind print emit on_fs ret when path_exists
     fs set_fs add_event trace extraData outputs negb].
  destruct Hroot as [Hdir | Hvac].
  - rewrite Hdir.
    rewrite bool_decide_eq_true_2 by (eexists; reflexivity).
    cbv beta iota zeta delta [fs_rmtree]. rewrite Hdir.
    rewrite fs_makedirs_parent.
    + eexists; eexists. split; [reflexivity |]. cbn [fs extraData outputs trace].
      repeat split; reflexivity.
    + apply dirs_exist_remove_tree; [exact Hcwd | apply parent_not_within_cwd].
    + apply lookup_remove_tree_within, within_refl.
  - assert (Hnone : f0 !! parent_workdir w = None) by apply Hvac, within_refl.
    rewrite Hnone.
    rewrite bool_decide_eq_false_2 by (intros [? ?]; discriminate).
    rewrite fs_makedirs_parent by assumption.
    exists {| fs := fresh_workspace w f0; extraData := ex; outputs := out;
              trace := tr |}, [].
    unfold fresh_workspace. rewrite (remove_tree_vacant _ _ Hvac).
    cbn [fs extraData outputs trace]. rewrite app_nil_r.
    repeat split; reflexivity.
Qed.

Lemma ready_fresh_workspace block c1 c2 f :
  well_placed w block c1 c2 f -> ready w block c1 c2 (fresh_workspace w f).
Proof.
  intros [_ _ Hcwd _ Hp Hpo Hc Hco]. split; try assumption.
  - apply dirs_exist_pjoin; [| apply lookup_fresh_workspace_root].
    unfold fresh_workspace. apply dirs_exist_insert.
    + apply dirs_exist_remove_tree; [exact Hcwd | apply parent_not_within_cwd].
    + apply parent_not_within_cwd.
  - rewrite lookup_fresh_workspace_outside by exact Hpo. exact Hp.
  - rewrite lookup_fresh_workspace_outside by exact Hco. exact Hc.
Qed.

Lemma vacant_fresh_workspace k f :
  vacant (replica_workdir w k) (fresh_workspace w f).
Proof.
  intros q Hq. apply lookup_fresh_workspace_below.
  - eapply within_trans; [apply within_pjoin | exact Hq].
  - intros ->. exact (not_within_parent _ _ Hq).
Qed.

End Prepare.

(* ===================================================================== *)
(** * Submitting a batch *)
(* ===================================================================== *)

Section Submission.
Variable w : World.
Variable block : Block.

Lemma elem_of_range1 k n : k ∈ range1 n <-> (1 <= k <= Z.to_nat n)%nat.
Proof. unfold range1. rewrite elem_of_seq. lia. Qed.

Lemma NoDup_range1 n : NoDup (range1 n).
Proof. apply NoDup_seq. Qed.

(** The turns up to [k], [k] itself, and those after it. *)
Lemma range1_split k n :
  (1 <= k <= Z.to_nat n)%nat ->
  range1 n = seq 1 (k - 1) ++ k :: seq (S k) (Z.to_nat n - k).
Proof.
  intros Hk. unfold range1.
  replace (Z.to_nat n) with ((k - 1) + S (Z.to_nat n - k))%nat at 1 by lia.
  rewrite seq_app. cbn [seq]. repeat f_equal; lia.
Qed.

(** A batch all of whose replicas succeed. *)
Lemma run_script_ok c1 c2 s :
  well_placed w block c1 c2 (fs s) ->
  (forall k, k ∈ range1 (replicas block) -> replica_succeeds w block k) ->
  exists s' evs,
    run_script w block s = (Ok tt, s')
    /\ fs s'
       = loop_fs w block c1 c2 (range1 (replicas block))
           (fresh_workspace w (fs s))
    /\ extraData s'
       = (if bool_decide (all_recorded w block = []) then extraData s
          else <["remote_job_folders" := all_recorded w block]> (extraData s))
    /\ outputs s' = outputs s
    /\ trace s' = trace s ++ evs
    /\ List.filter loud evs
       = concat (List.map (replica_interactions w block)
                   (range1 (replicas block)))
    /\ (forall k, k ∈ range1 (replicas block) -> job_line w block k ∈ evs).
Proof.
  intros Hwp Hok.
  rewrite run_script_validated by apply Hwp.
  destruct (prepare_workspace_ok w s (wp_cwd _ _ _ _ _ Hwp)
              (wp_root _ _ _ _ _ Hwp))
    as (s1 & evs1 & Hrun1 & Hfs1 & Hex1 & Hout1 & Htr1 & Hloud1).
  destruct (replica_loop_ok w block c1 c2 (range1 (replicas block)) [] s1)
    as (s2 & evs2 & Hrun2 & Hfs2 & Hex2 & Hout2 & Htr2 & Hloud2 & Hjobs).
  { apply NoDup_range1. }
  { rewrite Hfs1. apply ready_fresh_workspace, Hwp. }
  { intros k _. rewrite Hfs1. apply vacant_fresh_workspace. }
  { exact Hok. }
  rewrite (bind_Ok _ _ _ _ _ Hrun1), (bind_Ok _ _ _ _ _ Hrun2).
  cbn [app]. fold (all_recorded w block).
  unfold when, store_folders, ret.
  destruct (bool_decide (all_recorded w block = [])); cbn [negb].
  - exists s2, (evs1 ++ evs2). split; [reflexivity |].
    split; [congruence |]. split; [congruence |]. split; [congruence |].
    split; [rewrite Htr2, Htr1, app_assoc; reflexivity |].
    split; [rewrite List.filter_app, Hloud1, Hloud2; reflexivity |].
    intros k Hk. apply elem_of_app. right. apply Hjobs, Hk.
  - eexists; exists (evs1 ++ evs2). split; [reflexivity |].
    cbn [fs extraData outputs trace set_extraData].
    split; [congruence |]. split; [congruence |]. split; [congruence |].
    split; [rewrite Htr2, Htr1, app_assoc; reflexivity |].
    split; [rewrite List.filter_app, Hloud1, Hloud2; reflexivity |].
    intros k Hk. apply elem_of_app. right. apply Hjobs, Hk.
Qed.

(** A batch whose generator fails at replica [k], the earlier replicas
    having succeeded. *)
Lemma run_script_script_fails c1 c2 s k :
  well_placed w block c1 c2 (fs s) ->
  (1 <= k <= Z.to_nat (replicas block))%nat ->
  (forall j, (1 <= j < k)%nat -> replica_succeeds w block j) ->
  returncode (popen w (build_cmd block) (replica_workdir w k)) <> 0%Z ->
  exists s' evs,
    run_script w block s = (Raise (script_failure w block k), s')
    /\ fs s'
       = loop_fs w block c1 c2 (seq 1 (k - 1) ++ [k])
           (fresh_workspace w (fs s))
    /\ extraData s' = extraData s
    /\ outputs s' = outputs s
    /\ trace s' = trace s ++ evs
    /\ List.filter loud evs
       = concat (List.map (replica_interactions w block) (seq 1 (k - 1)))
         ++ [EvPopen (build_cmd block) (replica_workdir w k)]
    /\ (forall j, (1 <= j < k)%nat -> job_line w block j ∈ evs).
Proof.
  intros Hwp Hk Hok Hrc.
  rewrite run_script_validated by apply Hwp.
  destruct (prepare_workspace_ok w s (wp_cwd _ _ _ _ _ Hwp)
              (wp_root _ _ _ _ _ Hwp))
    as (s1 & evs1 & Hrun1 & Hfs1 & Hex1 & Hout1 & Htr1 & Hloud1).
  destruct (replica_loop_script_fails w block c1 c2 (seq 1 (k - 1)) k
              (seq (S k) (Z.to_nat (replicas block) - k)) [] s1)
    as (s2 & evs2 & Hrun2 & Hfs2 & Hex2 & Hout2 & Htr2 & Hloud2 & Hjobs).
  { replace (seq 1 (k - 1) ++ [k]) with (seq 1 k); [apply NoDup_seq |].
    replace k with ((k - 1) + 1)%nat at 1 by lia.
    rewrite seq_app. cbn [seq]. repeat f_equal; lia. }
  { rewrite Hfs1. apply ready_fresh_workspace, Hwp. }
  { intros j _. rewrite Hfs1. apply vacant_fresh_workspace. }
  { intros j Hj%elem_of_seq. apply Hok. lia. }
  { exact Hrc. }
  rewrite (bind_Ok _ _ _ _ _ Hrun1).
  rewrite (range1_split k) by exact Hk.
  rewrite (bind_Raise _ _ _ _ _ Hrun2).
  exists s2, (evs1 ++ evs2). split; [reflexivity |].
  split; [congruence |]. split; [congruence |]. split; [congruence |].
  split; [rewrite Htr2, Htr1, app_assoc; reflexivity |].
  split; [rewrite List.filter_app, Hloud1, Hloud2; reflexivity |].
  intros j Hj. apply elem_of_app. right. apply Hjobs, elem_of_seq. lia.
Qed.

End Submission.

(* ===================================================================== *)
(** * Fail-fast submission *)
(* ===================================================================== *)

Section FailFast.
Variable w : World.
Variable block : Block.

Lemma loud_elem_of_filter e evs :
  e ∈ evs -> loud e = true -> e ∈ List.filter loud evs.
Proof.
  intros He Hl. apply list_elem_of_In, filter_In.
  split; [apply list_elem_of_In, He | exact Hl].
Qed.

Lemma elem_of_filter_loud e evs : e ∈ List.filter loud evs -> e ∈ evs.
Proof.
  intros He%list_elem_of_In%filter_In. apply list_elem_of_In, He.
Qed.

Lemma elem_of_interactions e ks :
  e ∈ concat (List.map (replica_interactions w block) ks) ->
  exists j, j ∈ ks
    /\ (e = EvPopen (build_cmd block) (replica_workdir w j)
        \/ e = EvSubmitJob (submitted_script w block j)).
Proof.
  intros He%list_elem_of_In%in_concat. destruct He as (l & Hl & He).
  apply in_map_iff in Hl as (j & <- & Hj).
  exists j. split; [apply list_elem_of_In, Hj |].
  destruct He as [<- | [<- | []]]; auto.
Qed.

Lemma interactions_elem_of j ks :
  j ∈ ks ->
  EvSubmitJob (submitted_script w block j)
    ∈ concat (List.map (replica_interactions w block) ks).
Proof.
  intros Hj. apply list_elem_of_In, in_concat.
  exists (replica_interactions w block j). split.
  - apply in_map, list_elem_of_In, Hj.
  - right. left. reflexivity.
Qed.

(** C1.  In a batch of [replicas block] replicas whose turns before [k]
    went through, a non-zero exit status of the generator script run for
    replica [k] makes [run_script] raise the [RuntimeError] that carries the
    captured standard error of that run.  The subprocesses started and the
    jobs submitted are, in this order, exactly those of replicas [1..k-1]
    followed by the failing script run: nothing is attempted for a later
    replica (its directory does not exist, no script is started in it, and
    every job submitted belongs to an earlier replica), and the jobs of
    replicas [1..k-1] stay submitted and announced. *)
Theorem failing_generator_aborts_batch c1 c2 s k :
  well_placed w block c1 c2 (fs s) ->
  (1 <= k <= Z.to_nat (replicas block))%nat ->
  (forall j, (1 <= j < k)%nat -> replica_succeeds w block j) ->
  returncode (popen w (build_cmd block) (replica_workdir w k)) <> 0%Z ->
  exists s' evs,
    run_script w block s
    = (Raise (RuntimeError
                ("Replica " +:+ str_nat k +:+ " script failed with error: "
                 +:+ stderr (popen w (build_cmd block)
                               (replica_workdir w k)))), s')
    /\ trace s' = trace s ++ evs
    /\ List.filter loud evs
       = concat (List.map (replica_interactions w block) (seq 1 (k - 1)))
         ++ [EvPopen (build_cmd block) (replica_workdir w k)]
    /\ (forall j, (k < j)%nat ->
          fs s' !! replica_workdir w j = None
          /\ forall cmd, EvPopen cmd (replica_workdir w j) ∉ evs)
    /\ (forall script, EvSubmitJob script ∈ evs ->
          exists j, (1 <= j < k)%nat /\ script = submitted_script w block j)
    /\ (forall j, (1 <= j < k)%nat ->
          EvSubmitJob (submitted_script w block j) ∈ evs
          /\ EvPrint ("Submitted job with ID: " +:+ submitted_job w block j)
               ∈ evs).
Proof.
  intros Hwp Hk Hok Hrc.
  destruct (run_script_script_fails w block c1 c2 s k Hwp Hk Hok Hrc)
    as (s' & evs & Hrun & Hfs & _ & _ & Htr & Hloud & Hjobs).
  exists s', evs. split; [exact Hrun |]. split; [exact Htr |].
  split; [exact Hloud |]. split; [| split].
  - intros j Hj. split.
    + rewrite Hfs, loop_fs_outside.
      * apply lookup_fresh_workspace_below; [apply within_pjoin |].
        apply pjoin_neq.
      * intros i Hi. apply (other_workdir_outside w i j); [| apply within_refl].
        apply elem_of_app in Hi as [Hi%elem_of_seq | Hi%list_elem_of_singleton];
          lia.
    + intros cmd Hin.
      apply loud_elem_of_filter in Hin; [| reflexivity].
      rewrite Hloud in Hin. apply elem_of_app in Hin as [Hin | Hin].
      * apply elem_of_interactions in Hin as (i & Hi%elem_of_seq & [E | E]);
          [| discriminate].
        injection E as _ E. apply replica_workdir_inj in E. lia.
      * apply list_elem_of_singleton in Hin. injection Hin as _ E.
        apply replica_workdir_inj in E. lia.
  - intros script Hin.
    apply loud_elem_of_filter in Hin; [| reflexivity].
    rewrite Hloud in Hin. apply elem_of_app in Hin as [Hin | Hin].
    + apply elem_of_interactions in Hin as (i & Hi%elem_of_seq & [E | E]);
        [discriminate |].
      injection E as ->. exists i. split; [lia | reflexivity].
    + apply list_elem_of_singleton in Hin. discriminate.
  - intros j Hj. split; [| apply Hjobs, Hj].
    apply elem_of_filter_loud. rewrite Hloud. apply elem_of_app. left.
    apply interactions_elem_of, elem_of_seq. lia.
Qed.

End FailFast.

(** Placement of the sample requests: the fields of [well_placed] are read
    off the sample filesystem. *)
Ltac sample_vacant :=
  let q := fresh "q" in let r := fresh "r" in
  intros q [r ->];
  cbv beta iota delta
    [Samples.fs_fresh initial fs parent_workdir pjoin getcwd app
     Samples.world_ok Samples.world_second_fails
     Samples.world_download_raises Samples.world_no_symlinks];
  repeat (rewrite lookup_insert_ne by discriminate);
  apply lookup_empty.

Ltac sample_placement :=
  constructor;
  [ reflexivity
  | vm_compute; repeat constructor
  | unfold dirs_exist; repeat (constructor; [vm_compute; reflexivity |]);
    constructor
  | first [ left; vm_compute; reflexivity | right; sample_vacant ]
  | vm_compute; reflexivity
  | intros [r Hr]; discriminate Hr
  | vm_compute; reflexivity
  | intros [r Hr]; discriminate Hr ].

Lemma failing_generator_aborts_batch_witness :
  exists s',
    run_script Samples.world_second_fails Samples.block_local
      (initial Samples.fs_fresh ∅)
    = (Raise (RuntimeError
                "Replica 2 script failed with error: tleap: command not found"),
       s').
Proof.
  destruct (failing_generator_aborts_batch Samples.world_second_fails
              Samples.block_local "TOPOLOGY" "COORDINATES"
              (initial Samples.fs_fresh ∅) 2) as (s' & _ & Hrun & _).
  - sample_placement.
  - vm_compute. lia.
  - intros j Hj. assert (j = 1) as -> by lia.
    split; [reflexivity | eexists; reflexivity].
  - vm_compute. discriminate.
  - exists s'. exact Hrun.
Defined.

(* ===================================================================== *)
(** * Job identifiers and recorded remote folders *)
(* ===================================================================== *)

Section Handles.
Variable w : World.
Variable block : Block.

Lemma backend_answer_local k answer :
  isLocal (remote block) = true ->
  backend_answer w block k = Ok answer ->
  submitJob w (str_path (pjoin (replica_workdir w k) "script.sh"))
  = Ok (submitted_job w block k)
  /\ submitted_script w block k
     = str_path (pjoin (replica_workdir w k) "script.sh")
  /\ recorded_folder w block k = [].
Proof.
  unfold submitted_job, submitted_script, recorded_folder, backend_answer.
  intros -> H.
  destruct (submitJob w _) as [job_id | e]; [| discriminate].
  repeat split.
Qed.

Lemma backend_answer_remote k answer :
  isLocal (remote block) = false ->
  backend_answer w block k = Ok answer ->
  sendData w (str_path (replica_workdir w k)) (remote_root block)
  = Ok (remote_workdir_of w block k)
  /\ submitJob w (os_path_join (remote_workdir_of w block k) "script.sh")
     = Ok (submitted_job w block k)
  /\ submitted_script w block k
     = os_path_join (remote_workdir_of w block k) "script.sh"
  /\ recorded_folder w block k = [remote_workdir_of w block k].
Proof.
  unfold submitted_job, submitted_script, recorded_folder, remote_workdir_of,
    backend_answer.
  intros -> H.
  destruct (command w _) as [[] | e]; [| discriminate].
  destruct (sendData w _ _) as [remote_workdir | e]; [| discriminate].
  destruct (submitJob w _) as [job_id | e]; [| discriminate].
  repeat split.
Qed.

Lemma concat_singletons {A B} (f : A -> B) (g : A -> list B) l :
  (forall x, x ∈ l -> g x = [f x]) ->
  concat (List.map g l) = List.map f l.
Proof.
  induction l as [| x l IH]; intros H; [reflexivity |].
  cbn. rewrite (H x) by left. cbn. f_equal.
  apply IH. intros y Hy. apply H. right. exact Hy.
Qed.

Lemma concat_empties {A B} (g : A -> list B) l :
  (forall x, x ∈ l -> g x = []) -> concat (List.map g l) = [].
Proof.
  induction l as [| x l IH]; intros H; [reflexivity |].
  cbn. rewrite (H x) by left. cbn.
  apply IH. intros y Hy. apply H. right. exact Hy.
Qed.

Lemma all_recorded_remote :
  isLocal (remote block) = false ->
  (forall k, k ∈ range1 (replicas block) -> replica_succeeds w block k) ->
  all_recorded w block
  = List.map (remote_workdir_of w block) (range1 (replicas block)).
Proof.
  intros Hrem Hok. apply concat_singletons. intros k Hk.
  destruct (Hok k Hk) as [_ [answer Ha]].
  apply (backend_answer_remote k answer Hrem Ha).
Qed.

Lemma all_recorded_local :
  isLocal (remote block) = true ->
  (forall k, k ∈ range1 (replicas block) -> replica_succeeds w block k) ->
  all_recorded w block = [].
Proof.
  intros Hloc Hok. apply concat_empties. intros k Hk.
  destruct (Hok k Hk) as [_ [answer Ha]].
  apply (backend_answer_local k answer Hloc Ha).
Qed.

(** C4 (amended).  When every generator run of a batch of
    [replicas block >= 1] replicas exits with status 0 and the backend
    accepts every job, [run_script] returns normally, and what it returns
    is nothing ([None]): the identifier the backend answered for the job
    of each replica [k] of [1..replicas] is only announced on the line
    ["Submitted job with ID: ..."]; no output of the block is set.  On a
    backend that is not local, [extraData] gains the one entry
    ["remote_job_folders"], which holds, in submission order, the folder
    [sendData] answered for each replica: one entry per replica, and the
    job of each replica is the one submitted with the [script.sh] of that
    folder.  [recorded_folders], which is how [download_data] reads the
    entry back, returns that list.  On the local backend [extraData] is
    left as it was. *)
Theorem successful_batch_prints_jobs_and_records_folders c1 c2 s :
  well_placed w block c1 c2 (fs s) ->
  (1 <= replicas block)%Z ->
  (forall k, k ∈ range1 (replicas block) -> replica_succeeds w block k) ->
  exists s' evs,
    run_script w block s = (Ok tt, s')
    /\ trace s' = trace s ++ evs
    /\ outputs s' = outputs s
    /\ List.filter loud evs
       = concat (List.map (replica_interactions w block)
                   (range1 (replicas block)))
    /\ (forall k, k ∈ range1 (replicas block) ->
          EvSubmitJob (submitted_script w block k) ∈ evs
          /\ submitJob w (submitted_script w block k)
             = Ok (submitted_job w block k)
          /\ EvPrint ("Submitted job with ID: " +:+ submitted_job w block k)
               ∈ evs)
    /\ (isLocal (remote block) = false ->
          extraData s'
          = <["remote_job_folders"
              := List.map (remote_workdir_of w block)
                   (range1 (replicas block))]> (extraData s)
          /\ extraData s' !! "remote_job_folders"
             = Some (List.map (remote_workdir_of w block)
                       (range1 (replicas block)))
          /\ recorded_folders s'
             = List.map (remote_workdir_of w block) (range1 (replicas block))
          /\ length (recorded_folders s') = Z.to_nat (replicas block)
          /\ forall k, k ∈ range1 (replicas block) ->
               sendData w (str_path (replica_workdir w k)) (remote_root block)
               = Ok (remote_workdir_of w block k)
               /\ submitted_script w block k
                  = os_path_join (remote_workdir_of w block k) "script.sh")
    /\ (isLocal (remote block) = true -> extraData s' = extraData s).
Proof.
  intros Hwp Hn Hok.
  destruct (run_script_ok w block c1 c2 s Hwp Hok)
    as (s' & evs & Hrun & _ & Hex & Hout & Htr & Hloud & Hjobs).
  exists s', evs. split; [exact Hrun |]. split; [exact Htr |].
  split; [exact Hout |].
  split; [exact Hloud |]. split; [| split].
  - intros k Hk. split; [| split; [| apply Hjobs, Hk]].
    + apply elem_of_filter_loud. rewrite Hloud.
      apply interactions_elem_of, Hk.
    + destruct (Hok k Hk) as [_ [answer Ha]].
      destruct (isLocal (remote block)) eqn:Hloc.
      * destruct (backend_answer_local k answer Hloc Ha) as (H1 & -> & _).
        exact H1.
      * destruct (backend_answer_remote k answer Hloc Ha)
          as (_ & H1 & -> & _).
        exact H1.
  - intros Hrem.
    assert (all_recorded w block <> []) as Hne.
    { rewrite (all_recorded_remote Hrem Hok). unfold range1.
      destruct (Z.to_nat (replicas block)) as [| n] eqn:E; [lia |].
      discriminate. }
    rewrite bool_decide_eq_false_2 in Hex by exact Hne.
    rewrite (all_recorded_remote Hrem Hok) in Hex.
    assert (extraData s' !! "remote_job_folders"
            = Some (List.map (remote_workdir_of w block)
                      (range1 (replicas block)))) as Hentry.
    { rewrite Hex, lookup_insert_eq. reflexivity. }
    assert (recorded_folders s'
            = List.map (remote_workdir_of w block) (range1 (replicas block)))
      as Hrec.
    { unfold recorded_folders. rewrite Hentry. reflexivity. }
    split; [exact Hex |].
    split; [exact Hentry |]. split; [exact Hrec |]. split.
    + rewrite Hrec, length_map. unfold range1. apply length_seq.
    + intros k Hk. destruct (Hok k Hk) as [_ [answer Ha]].
      destruct (backend_answer_remote k answer Hrem Ha) as (H1 & _ & H2 & _).
      split; assumption.
  - intros Hloc. rewrite Hex, (all_recorded_local Hloc Hok).
    rewrite bool_decide_eq_true_2; reflexivity.
Qed.

End Handles.

Lemma successful_batch_prints_jobs_and_records_folders_witness :
  exists s',
    run_script Samples.world_ok Samples.block_picard
      (initial Samples.fs_fresh ∅) = (Ok tt, s')
    /\ recorded_folders s'
       = ["/scratch/run/home/md_custom_workdir/replica_01";
          "/scratch/run/home/md_custom_workdir/replica_02"].
Proof.
  destruct (successful_batch_prints_jobs_and_records_folders
              Samples.world_ok Samples.block_picard "TOPOLOGY" "COORDINATES"
              (initial Samples.fs_fresh ∅))
    as (s' & _ & Hrun & _ & _ & _ & _ & Hremote & _).
  - sample_placement.
  - vm_compute. discriminate.
  - intros k Hk. split; [reflexivity | eexists; reflexivity].
  - exists s'. split; [exact Hrun |].
    destruct (Hremote eq_refl) as (_ & _ & Hrec & _). exact Hrec.
Defined.

(** C4, as stated, fails: [run_script] hands no job identifier back.
    After a batch of two replicas that went through on the local backend,
    the backend having answered an identifier for each job, the value
    returned is [None], no output of the block is set and [extraData] is
    empty: the identifiers were printed and nothing else. *)
Lemma job_identifiers_are_not_returned :
  let run :=
    run_script Samples.world_ok Samples.block_local
      (initial Samples.fs_fresh ∅) in
  run.1 = Ok tt
  /\ submitJob Samples.world_ok "/home/md_custom_workdir/replica_01/script.sh"
     = Ok "job:/home/md_custom_workdir/replica_01/script.sh"
  /\ EvSubmitJob "/home/md_custom_workdir/replica_01/script.sh"
       ∈ trace run.2
  /\ EvPrint
       "Submitted job with ID: job:/home/md_custom_workdir/replica_01/script.sh"
       ∈ trace run.2
  /\ outputs run.2 = ∅
  /\ extraData run.2 = ∅.
Proof.
  cbv zeta. split; [vm_compute; reflexivity |].
  split; [reflexivity |].
  split; [apply (bool_decide_unpack _); vm_compute; exact I |].
  split; [apply (bool_decide_unpack _); vm_compute; exact I |].
  split; vm_compute; reflexivity.
Qed.


(* ===================================================================== *)
(** * Clean slate *)
(* ===================================================================== *)

Section CleanSlate.
Variable w : World.
Variable block : Block.

Lemma fresh_workspace_agree f g :
  (forall q, ~ within (parent_workdir w) q -> f !! q = g !! q) ->
  fresh_workspace w f = fresh_workspace w g.
Proof.
  intros Hfg. apply map_eq. intros q.
  destruct (decide (q = parent_workdir w)) as [-> | Hne].
  - rewrite !lookup_fresh_workspace_root. reflexivity.
  - destruct (decide (parent_workdir w `prefix_of` q)) as [Hin | Hout].
    + rewrite !lookup_fresh_workspace_below by assumption. reflexivity.
    + rewrite !lookup_fresh_workspace_outside by exact Hout.
      apply Hfg, Hout.
Qed.

Lemma dirs_exist_agree p f g :
  ~ within (parent_workdir w) p ->
  (forall q, ~ within (parent_workdir w) q -> f !! q = g !! q) ->
  dirs_exist p f -> dirs_exist p g.
Proof.
  intros Hp Hfg Hd. unfold dirs_exist in *.
  rewrite Forall_forall in *. intros q Hq.
  rewrite <- Hfg; [apply Hd, Hq |].
  intros Hin. apply Hp. eapply within_trans; [exact Hin |].
  apply ancestors_are_prefixes, Hq.
Qed.

Lemma well_placed_agree c1 c2 f g :
  (forall q, ~ within (parent_workdir w) q -> f !! q = g !! q) ->
  g !! parent_workdir w = Some Dir \/ vacant (parent_workdir w) g ->
  well_placed w block c1 c2 f -> well_placed w block c1 c2 g.
Proof.
  intros Hfg Hroot [Hr Hm Hcwd _ Hp Hpo Hc Hco].
  split; try assumption.
  - apply (dirs_exist_agree _ f); [apply parent_not_within_cwd | | ];
      assumption.
  - rewrite <- Hfg by exact Hpo. exact Hp.
  - rewrite <- Hfg by exact Hco. exact Hc.
Qed.

(** C3.  A submission that passes the two checks and finds the workspace
    root [md_custom_workdir] as a directory first removes the whole tree
    and creates the root again, whatever the root holds, and only then
    enters the replica loop: the root is then an empty directory (no entry
    of the earlier run is left below it) and nothing outside of it has
    changed.  When every replica goes through, the filesystem the batch
    ends with is the same for every prior content of the root: it equals
    the one obtained from any other starting filesystem that agrees with
    this one outside of the root. *)
Theorem resubmission_starts_from_clean_slate c1 c2 s :
  well_placed w block c1 c2 (fs s) ->
  fs s !! parent_workdir w = Some Dir ->
  exists s0,
    prepare_workspace w s = (Ok tt, s0)
    /\ run_script w block s
       = (remote_job_folders <-
            replica_loop w block (range1 (replicas block)) [] ;;
          when (negb (bool_decide (remote_job_folders = [])))
            (store_folders remote_job_folders)) s0
    /\ fs s0 !! parent_workdir w = Some Dir
    /\ (forall q, within (parent_workdir w) q -> q <> parent_workdir w ->
          fs s0 !! q = None)
    /\ (forall q, ~ within (parent_workdir w) q -> fs s0 !! q = fs s !! q)
    /\ ((forall k, k ∈ range1 (replicas block) -> replica_succeeds w block k) ->
        forall t,
          (forall q, ~ within (parent_workdir w) q -> fs s !! q = fs t !! q) ->
          fs t !! parent_workdir w = Some Dir
          \/ vacant (parent_workdir w) (fs t) ->
          exists s' t',
            run_script w block s = (Ok tt, s')
            /\ run_script w block t = (Ok tt, t')
            /\ fs s' = fs t').
Proof.
  intros Hwp Hdir.
  destruct (prepare_workspace_ok w s (wp_cwd _ _ _ _ _ Hwp) (or_introl Hdir))
    as (s0 & evs & Hprep & Hfs & _).
  exists s0. split; [exact Hprep |]. split; [| split; [| split; [| split]]].
  - rewrite (run_script_validated w block s
               (wp_residue _ _ _ _ _ Hwp) (wp_machine _ _ _ _ _ Hwp)).
    unfold bind at 1. rewrite Hprep. reflexivity.
  - rewrite Hfs. apply lookup_fresh_workspace_root.
  - intros q Hq Hne. rewrite Hfs.
    apply lookup_fresh_workspace_below; assumption.
  - intros q Hq. rewrite Hfs. apply lookup_fresh_workspace_outside, Hq.
  - intros Hok t Hagree Hroot.
    destruct (run_script_ok w block c1 c2 s Hwp Hok)
      as (s' & evs1 & Hrun1 & Hfs1 & _).
    destruct (run_script_ok w block c1 c2 t
                (well_placed_agree c1 c2 _ _ Hagree Hroot Hwp) Hok)
      as (t' & evs2 & Hrun2 & Hfs2 & _).
    exists s', t'. split; [exact Hrun1 |]. split; [exact Hrun2 |].
    rewrite Hfs1, Hfs2, (fresh_workspace_agree _ _ Hagree). reflexivity.
Qed.

End CleanSlate.

Lemma resubmission_starts_from_clean_slate_witness :
  exists s0,
    prepare_workspace Samples.world_ok (initial Samples.fs_stale ∅)
    = (Ok tt, s0)
    /\ fs s0 !! ["home"; "md_custom_workdir"; "replica_03"; "old.log"] = None
    /\ fs s0 !! ["home"; "md_custom_workdir"; "replica_03"] = None.
Proof.
  destruct (resubmission_starts_from_clean_slate Samples.world_ok
              Samples.block_local "TOPOLOGY" "COORDINATES"
              (initial Samples.fs_stale ∅))
    as (s0 & Hprep & _ & _ & Hbelow & _).
  - sample_placement.
  - vm_compute. reflexivity.
  - exists s0. split; [exact Hprep |]. split.
    + apply Hbelow; [eexists; reflexivity | discriminate].
    + apply Hbelow; [eexists; reflexivity | discriminate].
Defined.

(* ===================================================================== *)
(** * Replica workspaces *)
(* ===================================================================== *)

Section Workspaces.
Variable w : World.
Variable block : Block.

(** A turn settles what its own directory holds, whatever came before. *)
Lemma loop_fs_inside c1 c2 ks k f q n :
  NoDup ks -> k ∈ ks -> within (replica_workdir w k) q ->
  (forall g, replica_fs w block c1 c2 k g !! q = Some n) ->
  loop_fs w block c1 c2 ks f !! q = Some n.
Proof.
  intros Hnd Hk Hq Hn. revert f.
  induction ks as [| j ks IH]; intros f; [inversion Hk |].
  change (loop_fs w block c1 c2 (j :: ks) f)
    with (loop_fs w block c1 c2 ks (replica_fs w block c1 c2 j f)).
  apply NoDup_cons in Hnd as [Hj Hnd].
  destruct (decide (k = j)) as [-> | Hne].
  - rewrite loop_fs_outside; [apply Hn |].
    intros i Hi. apply (other_workdir_outside w i j); [| exact Hq].
    intros ->. exact (Hj Hi).
  - apply IH; [exact Hnd |].
    apply elem_of_cons in Hk as [Hk | Hk]; [contradiction | exact Hk].
Qed.

Lemma replica_fs_prmtop c1 c2 k g :
  inputs_kept w block k ->
  replica_fs w block c1 c2 k g
    !! pjoin (replica_workdir w k) (pname (parameters_file block))
  = Some (File c1).
Proof.
  intros (Hne & Hp & _). unfold replica_fs.
  rewrite lookup_leave_products_other by exact Hp.
  rewrite lookup_insert_ne by (intros E%pjoin_inj; congruence).
  apply lookup_insert_eq.
Qed.

Lemma replica_fs_inpcrd c1 c2 k g :
  inputs_kept w block k ->
  replica_fs w block c1 c2 k g
    !! pjoin (replica_workdir w k) (pname (coordinates_file block))
  = Some (File c2).
Proof.
  intros (_ & _ & Hc). unfold replica_fs.
  rewrite lookup_leave_products_other by exact Hc.
  apply lookup_insert_eq.
Qed.

(** The entries directly below the root after the loop: one directory per
    turn. *)
Lemma loop_fs_children c1 c2 ks f name n :
  NoDup ks ->
  loop_fs w block c1 c2 ks (fresh_workspace w f)
    !! pjoin (parent_workdir w) name = Some n
  <-> n = Dir /\ exists k, k ∈ ks /\ name = replica_tag k.
Proof.
  intros Hnd. split.
  - intros H.
    destruct (decide (Exists (fun k => name = replica_tag k) ks)) as [He | He].
    + apply Exists_exists in He as (k & Hk & ->).
      rewrite (loop_fs_inside c1 c2 ks k _ _ Dir Hnd Hk) in H.
      * split; [congruence | eauto].
      * apply within_refl.
      * intros g. apply replica_fs_workdir.
    + rewrite loop_fs_outside in H.
      * rewrite lookup_fresh_workspace_below in H; [discriminate | |].
        -- apply within_pjoin.
        -- apply pjoin_neq.
      * intros k Hk Hin. apply He, Exists_exists. exists k.
        split; [exact Hk |].
        exact (within_siblings _ _ _ _ (within_refl _) Hin).
  - intros (-> & k & Hk & ->).
    apply (loop_fs_inside c1 c2 ks k _ _ Dir Hnd Hk).
    + apply within_refl.
    + intros g. apply replica_fs_workdir.
Qed.

Lemma format_02d_two_digits k :
  (k <= 99)%nat -> String.length (format_02d k) = 2%nat.
Proof.
  intros Hk. do 100 (destruct k as [| k]; [reflexivity |]). lia.
Qed.

(** C2 (amended).  Take a request the two checks let through (the last
    residue resolves, the backend is supported), submitted from a working
    directory that exists, with [md_custom_workdir] a directory or absent,
    both inputs regular files that lie outside of [md_custom_workdir] and
    differ in their file names, and at least one replica.  If every
    generator run exits with status 0 without writing over the copied
    inputs, and the backend accepts every job (on a backend that is not
    local: the remote command, the transfer and the submission all
    answer), then [run_script] returns normally and the entries directly
    below the workspace root are exactly the directories
    ["replica_" ++ format_02d k] for [k] in [1..replicas]: one per replica,
    pairwise distinct since the digits of [format_02d k] read back as [k].
    Each of them holds a copy of the topology file and a copy of the
    coordinates file under their original file names.  The index has two
    digits up to replica 99; from replica 100 on it is wider. *)
Theorem batch_creates_replica_workspaces c1 c2 s :
  well_placed w block c1 c2 (fs s) ->
  (1 <= replicas block)%Z ->
  (forall k, k ∈ range1 (replicas block) -> replica_succeeds w block k) ->
  (forall k, k ∈ range1 (replicas block) -> inputs_kept w block k) ->
  exists s',
    run_script w block s = (Ok tt, s')
    /\ (forall name n,
          fs s' !! pjoin (parent_workdir w) name = Some n
          <-> n = Dir
              /\ exists k, (1 <= k <= Z.to_nat (replicas block))%nat
                           /\ name = "replica_" +:+ format_02d k)
    /\ (forall k,
          option_map Nat.of_uint (NilEmpty.uint_of_string (format_02d k))
          = Some k)
    /\ (forall k, (k <= 99)%nat -> String.length (format_02d k) = 2%nat)
    /\ (forall k, (1 <= k <= Z.to_nat (replicas block))%nat ->
          let workdir :=
            pjoin (parent_workdir w) ("replica_" +:+ format_02d k) in
          fs s' !! pjoin workdir (pname (parameters_file block))
          = Some (File c1)
          /\ fs s' !! pjoin workdir (pname (coordinates_file block))
             = Some (File c2)).
Proof.
  intros Hwp _ Hok Hkept.
  destruct (run_script_ok w block c1 c2 s Hwp Hok)
    as (s' & evs & Hrun & Hfs & _).
  exists s'. split; [exact Hrun |]. split; [| split; [| split]].
  - intros name n. rewrite Hfs, loop_fs_children by apply NoDup_range1.
    split; intros (-> & k & Hk & ->); (split; [reflexivity |]); exists k.
    + split; [apply elem_of_range1, Hk | reflexivity].
    + split; [apply elem_of_range1, Hk | reflexivity].
  - apply format_02d_parse.
  - apply format_02d_two_digits.
  - intros k Hk%elem_of_range1. cbv zeta.
    change (pjoin (parent_workdir w) ("replica_" +:+ format_02d k))
      with (replica_workdir w k).
    rewrite Hfs. split.
    + apply (loop_fs_inside c1 c2 _ k); [apply NoDup_range1 | exact Hk | |].
      * apply within_pjoin.
      * intros g. apply replica_fs_prmtop, Hkept, Hk.
    + apply (loop_fs_inside c1 c2 _ k); [apply NoDup_range1 | exact Hk | |].
      * apply within_pjoin.
      * intros g. apply replica_fs_inpcrd, Hkept, Hk.
Qed.

End Workspaces.

Lemma batch_creates_replica_workspaces_witness :
  exists s',
    run_script Samples.world_ok Samples.block_local
      (initial Samples.fs_fresh ∅) = (Ok tt, s')
    /\ fs s' !! ["home"; "md_custom_workdir"; "replica_02"; "sys.prmtop"]
       = Some (File "TOPOLOGY")
    /\ fs s' !! ["home"; "md_custom_workdir"; "replica_02"; "sys.inpcrd"]
       = Some (File "COORDINATES").
Proof.
  destruct (batch_creates_replica_workspaces Samples.world_ok
              Samples.block_local "TOPOLOGY" "COORDINATES"
              (initial Samples.fs_fresh ∅))
    as (s' & Hrun & _ & _ & _ & Hcopies).
  - sample_placement.
  - vm_compute. discriminate.
  - intros k Hk. split; [reflexivity | eexists; reflexivity].
  - intros k Hk. vm_compute. repeat split.
    + discriminate.
    + intros H. repeat (apply elem_of_cons in H as [H | H];
                        [discriminate H |]).
      inversion H.
    + intros H. repeat (apply elem_of_cons in H as [H | H];
                        [discriminate H |]).
      inversion H.
  - exists s'. split; [exact Hrun |].
    apply (Hcopies 2). vm_compute. lia.
Defined.

(** C2, as stated, fails from the hundredth replica on: a batch of 100
    replicas succeeds and creates the directory [replica_100], whose index
    has three digits. *)
Lemma replica_100_has_three_digit_index :
  let block := Samples.with_replicas 100 Samples.block_local in
  let run := run_script Samples.world_ok block (initial Samples.fs_fresh ∅) in
  run.1 = Ok tt
  /\ fs run.2 !! pjoin (parent_workdir Samples.world_ok) (replica_tag 100)
     = Some Dir
  /\ replica_tag 100 = "replica_100"
  /\ forall d1 d2 : ascii,
       replica_tag 100 <> "replica_" +:+ String d1 (String d2 EmptyString).
Proof.
  cbv zeta. split; [vm_compute; reflexivity |].
  split; [vm_compute; reflexivity |].
  split; [reflexivity |]. intros d1 d2. discriminate.
Qed.

(** The conditions of C2 on the inputs and on the backend are needed as
    well.  An input kept below the workspace root is deleted with it
    before the first copy, which then raises; no generator is started. *)
Lemma input_below_workspace_root_is_deleted :
  let run :=
    run_script Samples.world_ok Samples.block_inside
      (initial Samples.fs_inside ∅) in
  Samples.fs_inside !! parameters_file Samples.block_inside
  = Some (File "TOPOLOGY")
  /\ within (parent_workdir Samples.world_ok)
       (parameters_file Samples.block_inside)
  /\ run.1 = Raise (FileNotFoundError "/home/md_custom_workdir/sys.prmtop")
  /\ fs run.2 !! parameters_file Samples.block_inside = None
  /\ List.filter loud (trace run.2) = [].
Proof.
  cbv zeta. split; [vm_compute; reflexivity |].
  split; [exists ["sys.prmtop"]; reflexivity |].
  repeat split; vm_compute; reflexivity.
Qed.

(** Inputs of the same file name are copied to the same place: the batch
    goes through and the replica directory holds the coordinates under
    that name, the copy of the topology being overwritten. *)
Lemma same_named_inputs_leave_one_copy :
  let run :=
    run_script Samples.world_ok Samples.block_twins
      (initial Samples.fs_twins ∅) in
  pname (parameters_file Samples.block_twins)
  = pname (coordinates_file Samples.block_twins)
  /\ Samples.fs_twins !! parameters_file Samples.block_twins
     = Some (File "TOPOLOGY")
  /\ run.1 = Ok tt
  /\ fs run.2 !! pjoin (replica_workdir Samples.world_ok 1) "system.dat"
     = Some (File "COORDINATES").
Proof. cbv zeta. repeat split; vm_compute; reflexivity. Qed.

(** A job the backend refuses ends the batch although every generator run
    succeeds: the directory of the third replica is never created. *)
Lemma refused_job_stops_later_workspaces :
  let block := Samples.with_replicas 3 Samples.block_local in
  let run :=
    run_script Samples.world_queue_closed block
      (initial Samples.fs_fresh ∅) in
  (forall k,
     returncode (popen Samples.world_queue_closed (build_cmd block)
                   (replica_workdir Samples.world_queue_closed k)) = 0%Z)
  /\ run.1 = Raise (RuntimeError "sbatch: queue is closed")
  /\ fs run.2 !! replica_workdir Samples.world_queue_closed 2 = Some Dir
  /\ fs run.2 !! replica_workdir Samples.world_queue_closed 3 = None.
Proof.
  cbv zeta. split; [intros k; reflexivity |].
  repeat split; vm_compute; reflexivity.
Qed.

(* ===================================================================== *)
(** * Downloaded entries *)
(* ===================================================================== *)

Section StoreFetched.
Implicit Types (f g : FS) (q : path).

Lemma lookup_store_fetched_other ls got f q :
  (forall kv, kv ∈ got -> q <> ls ++ kv.1) ->
  store_fetched ls got f !! q = f !! q.
Proof.
  unfold store_fetched. revert f.
  induction got as [| kv got IH]; intros f H; [reflexivity |].
  cbn. rewrite IH by (intros kv' Hkv; apply H; right; exact Hkv).
  apply lookup_insert_ne. intros E. apply (H kv); [left | auto].
Qed.

Lemma lookup_store_fetched_outside ls got f q :
  ~ within ls q -> store_fetched ls got f !! q = f !! q.
Proof.
  intros Hq. apply lookup_store_fetched_other.
  intros kv _ ->. apply Hq. exists kv.1. reflexivity.
Qed.

Lemma store_fetched_is_Some ls got f q :
  is_Some (f !! q) -> is_Some (store_fetched ls got f !! q).
Proof.
  unfold store_fetched. revert f.
  induction got as [| kv got IH]; intros f H; [exact H |].
  cbn. apply IH. destruct (decide (ls ++ kv.1 = q)) as [<- | Hne].
  - rewrite lookup_insert_eq. eauto.
  - rewrite lookup_insert_ne by exact Hne. exact H.
Qed.



End StoreFetched.

(* ===================================================================== *)
(** * Actions that keep what is there *)
(* ===================================================================== *)

Section Keeping.
Implicit Types (f g : FS) (q : path) (P : path -> Prop).

Lemma kept_refl P f : kept P f f.
Proof. split; auto. Qed.

Lemma kept_trans P f g h : kept P f g -> kept P g h -> kept P f h.
Proof. intros [H1 H2] [H3 H4]. split; eauto. Qed.

Lemma kept_weaken P Q f g :
  (forall q, Q q -> P q) -> kept P f g -> kept Q f g.
Proof. intros HPQ [H1 H2]. split; eauto. Qed.

Lemma kept_insert_vacant P f q n : f !! q = None -> kept P f (<[q := n]> f).
Proof.
  intros Hq. split.
  - intros p [m Hp]. exists m. rewrite lookup_insert_ne; congruence.
  - intros p m _ Hp. rewrite lookup_insert_ne; congruence.
Qed.

Lemma kept_all_dirs_exist p f g :
  kept (fun _ => True) f g -> dirs_exist p f -> dirs_exist p g.
Proof.
  intros [_ H]. unfold dirs_exist. rewrite !Forall_forall. eauto.
Qed.

Lemma kept_store_fetched ls got f :
  kept (fun q => ~ within ls q) f (store_fetched ls got f).
Proof.
  split.
  - intros q. apply store_fetched_is_Some.
  - intros q n Hq Hf. rewrite lookup_store_fetched_outside; assumption.
Qed.

Lemma makedirs_go_kept ps f g :
  makedirs_go ps f = Ok g -> kept (fun _ => True) f g.
Proof.
  revert f. induction ps as [| p ps IH]; intros f H; cbn in H.
  - injection H as <-. apply kept_refl.
  - destruct (f !! p) as [[] |] eqn:Hp; try (destruct ps; discriminate).
    + apply IH, H.
    + eapply kept_trans; [| apply IH, H]. apply kept_insert_vacant, Hp.
Qed.

Lemma fs_makedirs_kept p f g :
  fs_makedirs p f = Ok g -> kept (fun _ => True) f g.
Proof. apply makedirs_go_kept. Qed.

(** When [os.makedirs] returns, the directory and the directories on the
    way to it are there. *)
Lemma makedirs_go_dirs_exist ps f g :
  makedirs_go ps f = Ok g -> Forall (fun q => g !! q = Some Dir) ps.
Proof.
  revert f. induction ps as [| p ps IH]; intros f H; cbn in H.
  - constructor.
  - destruct (f !! p) as [[] |] eqn:Hp; try (destruct ps; discriminate).
    + constructor; [| apply (IH _ H)].
      apply (makedirs_go_kept _ _ _ H); [exact I | exact Hp].
    + constructor; [| apply (IH _ H)].
      apply (makedirs_go_kept _ _ _ H); [exact I |]. apply lookup_insert_eq.
Qed.

Lemma fs_makedirs_dirs_exist p f g :
  fs_makedirs p f = Ok g -> dirs_exist p g.
Proof. apply makedirs_go_dirs_exist. Qed.



Lemma keeps_raise {A} P e : keeps P (raise (A := A) e).
Proof. intros s r s' [= <- <-]. split; [apply kept_refl | reflexivity]. Qed.






Lemma keeps_path_exists P p : keeps P (path_exists p).
Proof. intros s r s' [= <- <-]. split; [apply kept_refl | reflexivity]. Qed.

Lemma keeps_setOutput P id value : keeps P (setOutput id value).
Proof. intros s r s' [= <- <-]. split; [apply kept_refl | reflexivity]. Qed.



End Keeping.

(* ===================================================================== *)
(** * The download loop *)
(* ===================================================================== *)

Section Fetch.
Variable w : World.





Lemma aggregated_outside_stage_dir j sub q :
  within (aggregated_preprod w) q \/ within (aggregated_prod w) q ->
  ~ within (stage_dir w j sub) q.
Proof.
  intros Hagg Hq.
  assert (within (replica_workdir w j) q) as Hr
    by (eapply within_trans; [apply within_pjoin | exact Hq]).
  destruct Hagg as [Ha | Ha];
    pose proof (within_siblings _ _ _ _ Hr Ha) as E; discriminate E.
Qed.

Lemma stage_dir_outside_aggregated k sub :
  ~ within (aggregated_preprod w) (stage_dir w k sub)
  /\ ~ within (aggregated_prod w) (stage_dir w k sub).
Proof.
  split; intros H;
    apply (aggregated_outside_stage_dir k sub (stage_dir w k sub));
    auto using within_refl.
Qed.



Lemma bind_Ok_inv {A B} (m : M A) (k : A -> M B) s b s' :
  bind m k s = (Ok b, s') ->
  exists a s1, m s = (Ok a, s1) /\ k a s1 = (Ok b, s').
Proof.
  unfold bind. destruct (m s) as [[a | e] s1]; [eauto | discriminate].
Qed.




End Fetch.

(* ===================================================================== *)
(** * Aggregation links *)
(* ===================================================================== *)

Section Links.
Variable w : World.

(** A link turn either changes nothing, or adds one entry at the name of
    the link, which was free. *)
Lemma link_stage_run k sub agg s r s' :
  link_stage w k sub agg s = (r, s') ->
  (s' = s
   /\ (r = Ok tt -> is_Some (fs s !! stage_dir w k sub) ->
       is_Some (fs s !! link_name agg k sub)))
  \/ (r = Ok tt
      /\ fs s !! link_name agg k sub = None
      /\ exists n, s' = set_fs (<[link_name agg k sub := n]> (fs s)) s).
Proof.
  destruct s as [f0 ex out tr].
  cbv beta iota zeta delta
    [link_stage bind when path_exists try_except_OSError on_fs ret
     fs_symlink fs_write_text fs set_fs extraData outputs trace].
  fold (stage_dir w k sub). fold (link_name agg k sub).
  intros H.
  destruct (decide (is_Some (f0 !! stage_dir w k sub))) as [Hs | Hs].
  - rewrite bool_decide_eq_true_2 in H by exact Hs.
    destruct (decide (is_Some (f0 !! link_name agg k sub))) as [Hl | Hl].
    + rewrite bool_decide_eq_true_2 in H by exact Hl. cbn [negb] in H.
      injection H as <- <-. left. split; auto.
    + rewrite bool_decide_eq_false_2 in H by exact Hl. cbn [negb] in H.
      assert (f0 !! link_name agg k sub = None) as Hnone
        by (apply eq_None_not_Some, Hl).
      rewrite Hnone in H.
      destruct (missing_parent (link_name agg k sub) f0) as [e |] eqn:Hp.
      * left. destruct (is_OSError e);
          cbv beta iota delta [fs] in H; rewrite ?Hp in H;
          injection H as <- <-; (split; [reflexivity | discriminate]).
      * right. destruct (symlink_refused w (link_name agg k sub));
          cbv beta iota delta [fs is_OSError] in H;
          rewrite ?Hp, ?Hnone in H; injection H as <- <-; eauto.
  - rewrite bool_decide_eq_false_2 in H by exact Hs.
    injection H as <- <-. left. split; [reflexivity |]. intros _ Hs'.
    contradiction.
Qed.

Lemma links_added_refl s : links_added w s s.
Proof. repeat split; auto. Qed.

Lemma links_added_trans s1 s2 s3 :
  links_added w s1 s2 -> links_added w s2 s3 -> links_added w s1 s3.
Proof.
  intros (E1 & O1 & T1 & K1 & U1) (E2 & O2 & T2 & K2 & U2).
  repeat split; try congruence; [auto |].
  intros q H1 H2. rewrite U2, U1; auto.
Qed.

Lemma links_added_stage_dir s s' k sub :
  links_added w s s' ->
  fs s' !! stage_dir w k sub = fs s !! stage_dir w k sub.
Proof.
  intros (_ & _ & _ & _ & U). apply U; apply stage_dir_outside_aggregated.
Qed.

Lemma stage_linked_stable k sa s s' :
  links_added w s s' -> stage_linked w k sa s -> stage_linked w k sa s'.
Proof.
  intros Hadd Hs Hsrc. rewrite (links_added_stage_dir _ _ _ _ Hadd) in Hsrc.
  destruct (Hs Hsrc) as [n Hn]. destruct Hadd as (_ & _ & _ & K & _).
  exists n. apply K, Hn.
Qed.

Lemma link_stage_step k sa s r s' :
  sa ∈ stage_links w ->
  link_stage w k sa.1 sa.2 s = (r, s') ->
  links_added w s s' /\ (r = Ok tt -> stage_linked w k sa s').
Proof.
  intros Hsa H.
  destruct (link_stage_run _ _ _ _ _ _ H) as [[-> Hl] | (-> & Hnone & n & ->)].
  - split; [apply links_added_refl | exact Hl].
  - split.
    + repeat split; cbn [fs set_fs extraData outputs trace].
      * intros q m Hq. rewrite lookup_insert_ne; congruence.
      * intros q H1 H2. apply lookup_insert_ne. intros <-.
        unfold stage_links in Hsa.
        apply elem_of_cons in Hsa as [-> | Hsa];
          [apply H1, within_pjoin |].
        apply list_elem_of_singleton in Hsa as ->. apply H2, within_pjoin.
    + intros _ _. cbn [fs set_fs]. rewrite lookup_insert_eq. eauto.
Qed.

(** A loop of turns that only add links and establish a condition the
    links added afterwards do not disturb. *)
Lemma for_each_links_added {A} (Post : A -> State -> Prop) l body s r s' :
  (forall x t t', links_added w t t' -> Post x t -> Post x t') ->
  (forall x t r' t', x ∈ l -> body x t = (r', t') ->
     links_added w t t' /\ (r' = Ok tt -> Post x t')) ->
  for_each l body s = (r, s') ->
  links_added w s s' /\ (r = Ok tt -> forall x, x ∈ l -> Post x s').
Proof.
  intros Hstable. revert s.
  induction l as [| x l IH]; intros s Hbody H; cbn in H.
  - injection H as <- <-. split; [apply links_added_refl |].
    intros _ x Hx. inversion Hx.
  - unfold bind in H. destruct (body x s) as [[[] | e] s1] eqn:E.
    + destruct (Hbody _ _ _ _ ltac:(left) E) as [H1 P1].
      destruct (IH s1 (fun y t r' t' Hy => Hbody y t r' t' ltac:(right; exact Hy)) H)
        as [H2 P2].
      split; [eapply links_added_trans; eauto |].
      intros -> y Hy. apply elem_of_cons in Hy as [-> | Hy].
      * apply (Hstable _ s1); auto.
      * apply P2; auto.
    + injection H as <- <-.
      destruct (Hbody _ _ _ _ ltac:(left) E) as [H1 _].
      split; [exact H1 | discriminate].
Qed.

Lemma aggregate_run n s r s' :
  aggregate w n (aggregated_preprod w) (aggregated_prod w) s = (r, s') ->
  links_added w s s' /\ (r = Ok tt -> all_linked w (range1 n) (fs s')).
Proof.
  intros H. unfold aggregate in H.
  apply (for_each_links_added
           (fun k t => forall sa, sa ∈ stage_links w -> stage_linked w k sa t))
    in H.
  - destruct H as [H1 H2]. split; [exact H1 |].
    intros Hr k sa Hk Hsa. apply (H2 Hr k Hk sa Hsa).
  - intros k t t' Hadd Hk sa Hsa.
    apply (stage_linked_stable _ _ t); auto.
  - intros k t r' t' _ Hk.
    apply (for_each_links_added (fun sa t => stage_linked w k sa t)) in Hk.
    + exact Hk.
    + intros sa u u'. apply stage_linked_stable.
    + intros sa u r'' u' Hsa. apply link_stage_step, Hsa.
Qed.




End Links.

(* ===================================================================== *)
(** * Collecting a batch *)
(* ===================================================================== *)

Section Collect.
Variable w : World.
Variable block : Block.

Lemma on_fs_Ok_inv op s s' :
  on_fs op s = (Ok tt, s') -> exists f, op (fs s) = Ok f /\ s' = set_fs f s.
Proof.
  unfold on_fs. destruct (op (fs s)) as [f | e]; [| discriminate].
  intros [= <-]. eauto.
Qed.

Lemma download_data_phases s :
  download_data w block s
  = if bool_decide (is_Some (fs s !! parent_workdir w))
    then (fetch_phase w block ;; link_phase w block) s
    else (Raise (FileNotFoundError
                   "Parent workdir not found; nothing to download."), s).
Proof.
  unfold download_data. unfold bind at 1. unfold path_exists.
  destruct (bool_decide (is_Some (fs s !! parent_workdir w))); reflexivity.
Qed.



Lemma link_phase_Ok a s1 :
  link_phase w block a = (Ok tt, s1) ->
  (forall q n, fs a !! q = Some n -> fs s1 !! q = Some n)
  /\ extraData s1 = extraData a
  /\ outputs s1 = collected_outputs w (outputs a)
  /\ dirs_exist (aggregated_preprod w) (fs s1)
  /\ dirs_exist (aggregated_prod w) (fs s1)
  /\ all_linked w (range1 (replicas block)) (fs s1).
Proof.
  unfold link_phase. intros H.
  apply bind_Ok_inv in H as ([] & a1 & H1 & H).
  apply bind_Ok_inv in H as ([] & a2 & H2 & H).
  apply bind_Ok_inv in H as ([] & a3 & H3 & H).
  apply bind_Ok_inv in H as ([] & a4 & H4 & H).
  apply on_fs_Ok_inv in H1 as (f1 & Hf1 & ->).
  apply on_fs_Ok_inv in H2 as (f2 & Hf2 & ->).
  cbn [fs set_fs] in Hf2.
  injection H4 as <-. injection H as <-.
  destruct (aggregate_run w _ _ _ _ H3) as [(E & O & _ & K & _) Hl].
  cbn [fs set_fs set_output extraData outputs] in *.
  pose proof (fs_makedirs_kept _ _ _ Hf1) as [_ K1].
  pose proof (fs_makedirs_kept _ _ _ Hf2) as [_ K2].
  split; [intros q n Hq; apply K, K2, K1; auto |].
  split; [exact E |].
  split; [unfold collected_outputs; rewrite O; reflexivity |].
  split; [| split; [| apply Hl; reflexivity]].
  - apply (kept_all_dirs_exist _ f1).
    + split; [intros q [n Hq]; exists n |]; intros; apply K, K2; auto.
    + apply (fs_makedirs_dirs_exist _ _ _ Hf1).
  - apply (kept_all_dirs_exist _ f2).
    + split; [intros q [n Hq]; exists n |]; intros; apply K; auto.
    + apply (fs_makedirs_dirs_exist _ _ _ Hf2).
Qed.



End Collect.


(** [download_data] looks at the world through the working directory,
    [getData] and the refusal of symbolic links only. *)
Section SameAnswers.
Variables w w' : World.
Hypothesis same_cwd : getcwd w' = getcwd w.












End SameAnswers.

(* ===================================================================== *)
(** * Collecting twice *)
(* ===================================================================== *)

Section CollectTwice.
Variable w : World.
Variable block : Block.



End CollectTwice.



(* ===================================================================== *)
(** * The MM-PBSA block, case by case *)
(* ===================================================================== *)

Section MmPbsaRuns.
Variable w : World.
Variable block : MmPbsa.Block.

Let workdir := MmPbsa.pluginDir block.
Let setup := popen w (MmPbsa.build_cmd block) workdir.
Let script_file := pjoin workdir "script_mmpbsa.sh".
Let execution := popen w ["bash"; str_path script_file] workdir.

Ltac run_mmpbsa :=
  cbv beta iota zeta delta
    [MmPbsa.run_script bind print emit run_process on_fs ret raise when
     path_exists setOutput
     fs set_fs add_event set_output trace extraData outputs];
  fold workdir; fold setup; fold script_file; fold execution.

(** X1.  A setup script that exits with a non-zero status ends the block with
    the [RuntimeError] that carries its standard error.  The setup script
    is the only subprocess started, even with [run_now] set, and no output
    is set. *)
Theorem mmpbsa_setup_failure_raises s :
  returncode setup <> 0%Z ->
  exists s',
    MmPbsa.run_script w block s
    = (Raise (RuntimeError ("MM-PBSA setup failed: " +:+ stderr setup)), s')
    /\ trace s'
       = trace s
         ++ [EvPopen (MmPbsa.build_cmd block) workdir;
             EvPrint ("- Error executing setup script: " +:+ stderr setup)]
    /\ outputs s' = outputs s
    /\ fs s' = leave_products workdir setup (fs s).
Proof.
  intros Hrc%Z.eqb_neq. destruct s as [f0 ex out tr]. run_mmpbsa.
  rewrite Hrc. cbn [negb].
  eexists. split; [reflexivity |]. cbn [fs outputs trace].
  rewrite <- app_assoc. repeat split; reflexivity.
Qed.

(** X2.  With [run_now] set, a setup that succeeds and leaves
    [script_mmpbsa.sh] as a regular file is followed by
    [bash script_mmpbsa.sh] in the plugin directory; when that run exits
    with status 0 the block returns, having started exactly these two
    subprocesses in this order, and sets both outputs. *)
Theorem mmpbsa_runs_generated_script s script :
  MmPbsa.run_now block = true ->
  returncode setup = 0%Z ->
  leave_products workdir setup (fs s) !! script_file = Some (File script) ->
  returncode execution = 0%Z ->
  exists s',
    MmPbsa.run_script w block s = (Ok tt, s')
    /\ trace s'
       = trace s
         ++ [EvPopen (MmPbsa.build_cmd block) workdir;
             EvPrint ("Setup stdout:" +:+ nl +:+ stdout setup +:+ nl
                      +:+ "Setup stderr:" +:+ nl +:+ stderr setup);
             EvPopen ["bash"; str_path script_file] workdir;
             EvPrint ("Execution stdout:" +:+ nl +:+ stdout execution +:+ nl
                      +:+ "Execution stderr:" +:+ nl +:+ stderr execution)]
    /\ outputs s'
       = <["submission_script" := str_path script_file]>
           (<["mmpbsa_input_file" := str_path (pjoin workdir "mmpbsa.in")]>
              (outputs s))
    /\ fs s'
       = leave_products workdir execution
           (leave_products workdir setup (fs s)).
Proof.
  intros Hnow Hrc Hscript Hrc'. destruct s as [f0 ex out tr].
  cbn [fs] in Hscript. run_mmpbsa.
  rewrite Hrc, Hnow. cbn [negb Z.eqb].
  rewrite bool_decide_eq_true_2 by (rewrite Hscript; eauto). cbn [andb].
  rewrite Hrc'. cbn [negb Z.eqb].
  eexists. split; [reflexivity |]. cbn [fs outputs trace].
  repeat rewrite <- app_assoc. repeat split; reflexivity.
Qed.

(** X3.  With [run_now] set and [script_mmpbsa.sh] left as a regular file
    by a setup that succeeded, a generated script that exits with a
    non-zero status makes the block raise the [RuntimeError] that carries
    its standard error and set no output, although the setup succeeded and
    both files are in place. *)
Theorem mmpbsa_execution_failure_raises s script :
  MmPbsa.run_now block = true ->
  returncode setup = 0%Z ->
  leave_products workdir setup (fs s) !! script_file = Some (File script) ->
  returncode execution <> 0%Z ->
  exists s',
    MmPbsa.run_script w block s
    = (Raise (RuntimeError
                ("MM-PBSA execution failed: " +:+ stderr execution)), s')
    /\ List.filter loud (drop (length (trace s)) (trace s'))
       = [EvPopen (MmPbsa.build_cmd block) workdir;
          EvPopen ["bash"; str_path script_file] workdir]
    /\ outputs s' = outputs s.
Proof.
  intros Hnow Hrc Hscript Hrc'%Z.eqb_neq. destruct s as [f0 ex out tr].
  cbn [fs] in Hscript. run_mmpbsa.
  rewrite Hrc, Hnow. cbn [negb Z.eqb].
  rewrite bool_decide_eq_true_2 by (rewrite Hscript; eauto). cbn [andb].
  rewrite Hrc'. cbn [negb].
  eexists. split; [reflexivity |]. cbn [fs outputs trace].
  repeat rewrite <- app_assoc. rewrite drop_app_length.
  split; reflexivity.
Qed.

(** X4.  Without [run_now] the generated script is never run, whether it exists
    or not: a setup that succeeds is the only subprocess and both outputs
    are set. *)
Theorem mmpbsa_without_run_now s :
  MmPbsa.run_now block = false ->
  returncode setup = 0%Z ->
  exists s',
    MmPbsa.run_script w block s = (Ok tt, s')
    /\ List.filter loud (drop (length (trace s)) (trace s'))
       = [EvPopen (MmPbsa.build_cmd block) workdir]
    /\ outputs s'
       = <["submission_script" := str_path script_file]>
           (<["mmpbsa_input_file" := str_path (pjoin workdir "mmpbsa.in")]>
              (outputs s))
    /\ fs s' = leave_products workdir setup (fs s).
Proof.
  intros Hnow Hrc. destruct s as [f0 ex out tr]. run_mmpbsa.
  rewrite Hrc, Hnow. cbn [negb Z.eqb andb].
  eexists. split; [reflexivity |]. cbn [fs outputs trace].
  repeat rewrite <- app_assoc. rewrite drop_app_length.
  repeat split; reflexivity.
Qed.

(** X5.  Whatever happens, the block starts at most two subprocesses, all of
    them in the plugin directory, calls no backend, leaves [extraData]
    alone, and sets its outputs exactly when it returns: on an error the
    outputs are those it started with. *)
Theorem mmpbsa_run_script_confined s r s' :
  MmPbsa.run_script w block s = (r, s') ->
  exists evs,
    trace s' = trace s ++ evs
    /\ Forall (fun e => match e with
                        | EvPrint _ => True
                        | EvPopen _ cwd => cwd = workdir
                        | _ => False
                        end) evs
    /\ (length (List.filter loud evs) <= 2)%nat
    /\ extraData s' = extraData s
    /\ match r with
       | Ok _ =>
           outputs s'
           = <["submission_script" := str_path script_file]>
               (<["mmpbsa_input_file"
                  := str_path (pjoin workdir "mmpbsa.in")]> (outputs s))
       | Raise _ => outputs s' = outputs s
       end.
Proof.
  destruct s as [f0 ex out tr]. run_mmpbsa.
  destruct (returncode setup =? 0)%Z; cbn [negb].
  - destruct (MmPbsa.run_now block
              && bool_decide
                   (is_Some (leave_products workdir setup f0 !! script_file))).
    + destruct (returncode execution =? 0)%Z; cbn [negb];
        intros [= <- <-]; cbn [fs outputs trace extraData];
        eexists; (split; [repeat rewrite <- app_assoc; reflexivity |]);
        (split; [repeat constructor |]); cbn; auto.
    + intros [= <- <-]; cbn [fs outputs trace extraData].
      eexists. split; [repeat rewrite <- app_assoc; reflexivity |].
      split; [repeat constructor |]. cbn. auto.
  - intros [= <- <-]; cbn [fs outputs trace extraData].
    eexists. split; [repeat rewrite <- app_assoc; reflexivity |].
    split; [repeat constructor |]. cbn. auto.
Qed.

End MmPbsaRuns.

Lemma mmpbsa_setup_failure_raises_witness :
  exists s',
    MmPbsa.run_script Samples.world_scripts_fail (Samples.mmpbsa_block true)
      (initial Samples.fs_fresh ∅)
    = (Raise (RuntimeError "MM-PBSA setup failed: tleap: command not found"),
       s')
    /\ outputs s' = ∅.
Proof.
  destruct (mmpbsa_setup_failure_raises Samples.world_scripts_fail
              (Samples.mmpbsa_block true) (initial Samples.fs_fresh ∅))
    as (s' & Hrun & _ & Hout & _).
  - vm_compute. discriminate.
  - exists s'. split; [exact Hrun | exact Hout].
Defined.

Lemma mmpbsa_runs_generated_script_witness :
  exists s',
    MmPbsa.run_script (Samples.world_mmpbsa true) (Samples.mmpbsa_block true)
      (initial Samples.fs_fresh ∅) = (Ok tt, s')
    /\ fs s' !! ["opt"; "molbiomed"; "results.dat"] = Some (File "-32.1").
Proof.
  destruct (mmpbsa_runs_generated_script (Samples.world_mmpbsa true)
              (Samples.mmpbsa_block true) (initial Samples.fs_fresh ∅)
              "#!/bin/bash")
    as (s' & Hrun & _ & _ & Hfs).
  - reflexivity.
  - reflexivity.
  - vm_compute. reflexivity.
  - reflexivity.
  - exists s'. split; [exact Hrun |]. rewrite Hfs. vm_compute. reflexivity.
Defined.

Lemma mmpbsa_execution_failure_raises_witness :
  exists s',
    MmPbsa.run_script (Samples.world_mmpbsa false)
      (Samples.mmpbsa_block true) (initial Samples.fs_fresh ∅)
    = (Raise (RuntimeError
                "MM-PBSA execution failed: MMPBSA.py: not found"), s')
    /\ outputs s' = ∅.
Proof.
  destruct (mmpbsa_execution_failure_raises (Samples.world_mmpbsa false)
              (Samples.mmpbsa_block true) (initial Samples.fs_fresh ∅)
              "#!/bin/bash")
    as (s' & Hrun & _ & Hout).
  - reflexivity.
  - reflexivity.
  - vm_compute. reflexivity.
  - vm_compute. discriminate.
  - exists s'. split; [exact Hrun | exact Hout].
Defined.

Lemma mmpbsa_without_run_now_witness :
  exists s',
    MmPbsa.run_script (Samples.world_mmpbsa true)
      (Samples.mmpbsa_block false) (initial Samples.fs_fresh ∅) = (Ok tt, s')
    /\ fs s' !! ["opt"; "molbiomed"; "script_mmpbsa.sh"]
       = Some (File "#!/bin/bash")
    /\ fs s' !! ["opt"; "molbiomed"; "results.dat"] = None.
Proof.
  destruct (mmpbsa_without_run_now (Samples.world_mmpbsa true)
              (Samples.mmpbsa_block false) (initial Samples.fs_fresh ∅))
    as (s' & Hrun & _ & _ & Hfs).
  - reflexivity.
  - reflexivity.
  - exists s'. split; [exact Hrun |]. rewrite Hfs.
    split; vm_compute; reflexivity.
Defined.

Lemma mmpbsa_run_script_confined_witness :
  exists s',
    (MmPbsa.run_script (Samples.world_mmpbsa false)
       (Samples.mmpbsa_block true) (initial Samples.fs_fresh ∅)).2 = s'
    /\ outputs s' = ∅ /\ extraData s' = ∅.
Proof.
  eexists. split; [reflexivity |].
  destruct (mmpbsa_run_script_confined (Samples.world_mmpbsa false)
              (Samples.mmpbsa_block true) (initial Samples.fs_fresh ∅)
              (Raise (RuntimeError
                        "MM-PBSA execution failed: MMPBSA.py: not found"))
              (MmPbsa.run_script (Samples.world_mmpbsa false)
                 (Samples.mmpbsa_block true) (initial Samples.fs_fresh ∅)).2)
    as (evs & _ & _ & _ & Hex & Hout).
  - apply run_raised. vm_compute. reflexivity.
  - split; [exact Hout | exact Hex].
Defined.

(* ===================================================================== *)
(** * Reasoning on every run of an action *)
(* ===================================================================== *)

Section Yields.
Variable R : State -> State -> Prop.
Hypothesis R_refl : forall s, R s s.
Hypothesis R_trans : forall s1 s2 s3, R s1 s2 -> R s2 s3 -> R s1 s3.

Lemma yields_ret {A} (Q : A -> Prop) a : Q a -> yields R Q (ret a).
Proof. intros Ha s r s' [= <- <-]. auto. Qed.

Lemma yields_raise {A} (Q : A -> Prop) e : yields R Q (raise e).
Proof. intros s r s' [= <- <-]. auto. Qed.

Lemma yields_bind {A B} (P : A -> Prop) (Q : B -> Prop) m k :
  yields R P m -> (forall a, P a -> yields R Q (k a)) ->
  yields R Q (bind m k).
Proof.
  intros Hm Hk s r s' H. unfold bind in H.
  destruct (m s) as [[a | e] s1] eqn:E.
  - destruct (Hm _ _ _ E) as [H1 Ha]. destruct (Hk a Ha _ _ _ H) as [H2 Hr].
    eauto.
  - injection H as <- <-. destruct (Hm _ _ _ E) as [H1 _]. auto.
Qed.

Lemma yields_weaken {A} (P Q : A -> Prop) m :
  (forall a, P a -> Q a) -> yields R P m -> yields R Q m.
Proof.
  intros HPQ Hm s r s' H. destruct (Hm _ _ _ H) as [H1 H2].
  split; [exact H1 |]. destruct r; auto.
Qed.

Lemma yields_when c m :
  yields R (fun _ => True) m -> yields R (fun _ => True) (when c m).
Proof. intros Hm. destruct c; [exact Hm | apply yields_ret; exact I]. Qed.

Lemma yields_for_each {A} (l : list A) body :
  (forall x, yields R (fun _ => True) (body x)) ->
  yields R (fun _ => True) (for_each l body).
Proof.
  intros Hb. induction l as [| x l IH]; cbn.
  - apply yields_ret. exact I.
  - eapply yields_bind; [apply Hb | intros _ _; exact IH].
Qed.

Lemma yields_pure {A} (Q : A -> Prop) (f : State -> A) :
  (forall s, Q (f s)) -> yields R Q (fun s => (Ok (f s), s)).
Proof. intros Hf s r s' [= <- <-]. auto. Qed.

Lemma yields_try_except_OSError {A} (Q : A -> Prop) m h :
  yields R Q m -> yields R Q h -> yields R Q (try_except_OSError m h).
Proof.
  intros Hm Hh s r s' H. unfold try_except_OSError in H.
  destruct (m s) as [[a | e] s1] eqn:E.
  - injection H as <- <-. exact (Hm _ _ _ E).
  - destruct (Hm _ _ _ E) as [H1 _]. destruct (is_OSError e).
    + destruct (Hh _ _ _ H) as [H2 Hr]. eauto.
    + injection H as <- <-. auto.
Qed.

End Yields.

(* ===================================================================== *)
(** * What a submission can do *)
(* ===================================================================== *)

Section SubmissionConfined.
Variable w : World.
Variable block : Block.

Lemma submission_step_refl s : submission_step w block s s.
Proof.
  split; [reflexivity |]. split; [exists []; rewrite app_nil_r; auto |].
  repeat split; auto.
Qed.

Lemma submission_step_trans s1 s2 s3 :
  submission_step w block s1 s2 -> submission_step w block s2 s3 ->
  submission_step w block s1 s3.
Proof.
  intros (O1 & (ev1 & T1 & F1) & E1 & L1 & D1)
         (O2 & (ev2 & T2 & F2) & E2 & L2 & D2).
  split; [congruence |]. split.
  { exists (ev1 ++ ev2). rewrite T2, T1, app_assoc.
    split; [reflexivity | apply Forall_app; auto]. }
  split; [intros k Hk; rewrite E2, E1; auto |].
  split; [intros Hl; rewrite L2, L1; auto |].
  intros Hd. destruct (D1 Hd) as [Hd2 Fr1]. destruct (D2 Hd2) as [Hd3 Fr2].
  split; [exact Hd3 |]. intros q Hq. rewrite Fr2, Fr1; auto.
Qed.

Lemma submission_emit e :
  submit_event w block e ->
  yields (submission_step w block) (fun _ => True) (emit e).
Proof.
  intros He s r s' [= <- <-]. split; [| exact I].
  split; [reflexivity |]. split; [exists [e]; auto |].
  repeat split; auto.
Qed.

Lemma submission_call {A} e (answer : result A) :
  submit_event w block e ->
  yields (submission_step w block) (fun _ => True) (call e answer).
Proof.
  intros He s r s' [= <- <-]. split; [| destruct answer; exact I].
  split; [reflexivity |]. split; [exists [e]; auto |].
  repeat split; auto.
Qed.

Lemma submission_on_fs op :
  (forall f g, op f = Ok g -> dirs_exist (getcwd w) f ->
     dirs_exist (getcwd w) g
     /\ forall q, ~ within (parent_workdir w) q -> g !! q = f !! q) ->
  yields (submission_step w block) (fun _ => True) (on_fs op).
Proof.
  intros Hop s r s' H. unfold on_fs in H.
  destruct (op (fs s)) as [g | e] eqn:E; injection H as <- <-.
  - split; [| exact I]. split; [reflexivity |].
    split; [exists []; rewrite app_nil_r; auto |].
    split; [auto |]. split; [auto |]. apply (Hop _ _ E).
  - split; [apply submission_step_refl | exact I].
Qed.

(** [os.makedirs] touches nothing but the directories on the way. *)
Lemma makedirs_go_within (P : path -> Prop) ps f g :
  (forall p, p ∈ ps -> P p) ->
  makedirs_go ps f = Ok g ->
  forall q, ~ P q -> g !! q = f !! q.
Proof.
  revert f. induction ps as [| p ps IH]; intros f HP H q Hq; cbn in H.
  - injection H as <-. reflexivity.
  - assert (forall p', p' ∈ ps -> P p') as HP'
      by (intros p' Hp'; apply HP; right; exact Hp').
    destruct (f !! p) as [[] |] eqn:Hp; try (destruct ps; discriminate).
    + apply (IH _ HP' H q Hq).
    + rewrite (IH _ HP' H q Hq). apply lookup_insert_ne.
      intros <-. apply Hq, HP. left.
Qed.

Lemma makedirs_below_root_frame p f g :
  within (parent_workdir w) p ->
  p = parent_workdir w \/ (exists x, p = pjoin (parent_workdir w) x) ->
  fs_makedirs p f = Ok g ->
  dirs_exist (getcwd w) f ->
  dirs_exist (getcwd w) g
  /\ forall q, ~ within (parent_workdir w) q -> g !! q = f !! q.
Proof.
  intros Hin Hp Hmk Hcwd. split.
  - apply (kept_all_dirs_exist _ f); [| exact Hcwd].
    apply (fs_makedirs_kept _ _ _ Hmk).
  - unfold fs_makedirs in Hmk.
    assert (exists l, ancestors_and_self p = ancestors_and_self (getcwd w) ++ l
                      /\ forall r, r ∈ l -> within (parent_workdir w) r)
      as (l & El & Hl).
    { destruct Hp as [-> | [x ->]].
      - exists [parent_workdir w]. split.
        + apply (ancestors_and_self_pjoin (getcwd w)).
        + intros r ->%list_elem_of_singleton. apply within_refl.
      - exists [parent_workdir w; pjoin (parent_workdir w) x]. split.
        + rewrite ancestors_and_self_pjoin.
          unfold parent_workdir at 1. rewrite ancestors_and_self_pjoin.
          rewrite <- app_assoc. reflexivity.
        + intros r Hr. apply elem_of_cons in Hr as [-> | Hr];
            [apply within_refl |].
          apply list_elem_of_singleton in Hr as ->. apply within_pjoin. }
    rewrite El, (makedirs_go_dirs _ _ _ Hcwd) in Hmk.
    apply (makedirs_go_within _ _ _ _ Hl Hmk).
Qed.

Lemma rmtree_root_frame f g :
  fs_rmtree (parent_workdir w) f = Ok g ->
  dirs_exist (getcwd w) f ->
  dirs_exist (getcwd w) g
  /\ forall q, ~ within (parent_workdir w) q -> g !! q = f !! q.
Proof.
  unfold fs_rmtree. intros H Hcwd.
  destruct (f !! parent_workdir w) as [[] |]; try discriminate.
  injection H as <-. split.
  - apply dirs_exist_remove_tree; [exact Hcwd | apply parent_not_within_cwd].
  - intros q Hq. apply lookup_remove_tree_outside, Hq.
Qed.

Lemma copy2_below_root_frame src dst f g :
  within (parent_workdir w) dst ->
  fs_copy2 src dst f = Ok g ->
  dirs_exist (getcwd w) f ->
  dirs_exist (getcwd w) g
  /\ forall q, ~ within (parent_workdir w) q -> g !! q = f !! q.
Proof.
  unfold fs_copy2. intros Hdst H Hcwd.
  destruct (f !! src) as [[c | | t] |]; try discriminate.
  assert (g = <[dst := File c]> f) as ->
    by (destruct (f !! dst) as [[] |]; congruence).
  split.
  - apply dirs_exist_insert; [exact Hcwd |].
    intros Hd. apply (parent_not_within_cwd w).
    eapply within_trans; [exact Hdst | exact Hd].
  - intros q Hq. apply lookup_insert_ne. intros <-. exact (Hq Hdst).
Qed.

Lemma leave_products_frame k c f :
  dirs_exist (getcwd w) f ->
  dirs_exist (getcwd w) (leave_products (replica_workdir w k) c f)
  /\ forall q, ~ within (parent_workdir w) q ->
       leave_products (replica_workdir w k) c f !! q = f !! q.
Proof.
  intros Hcwd. split.
  - apply dirs_exist_leave_products; [exact Hcwd |]. left.
    intros Hd. apply (parent_not_within_cwd w).
    eapply within_trans; [apply workdir_within_parent | exact Hd].
  - intros q Hq. apply lookup_leave_products_outside.
    intros x ->. apply Hq, workdir_child_within_parent.
Qed.

Lemma submission_path_exists p :
  yields (submission_step w block) (fun _ => True) (path_exists p).
Proof. intros s r s' [= <- <-]. split; [apply submission_step_refl | exact I]. Qed.

Lemma submission_path_is_dir p :
  yields (submission_step w block) (fun _ => True) (path_is_dir p).
Proof. intros s r s' [= <- <-]. split; [apply submission_step_refl | exact I]. Qed.

Ltac submission_bind :=
  eapply (yields_bind _ submission_step_trans).

Ltac submission_leaf :=
  first
    [ apply submission_emit; cbn; solve [auto | eauto]
    | apply submission_call; cbn; solve [auto | eauto]
    | apply submission_path_exists
    | apply submission_path_is_dir
    | apply (yields_ret _ submission_step_refl); exact I
    | apply (yields_raise _ submission_step_refl) ].

Lemma submission_run_process k :
  yields (submission_step w block) (fun _ => True)
    (run_process w (build_cmd block) (replica_workdir w k)).
Proof.
  unfold run_process.
  submission_bind; [apply submission_emit; cbn; eauto | intros _ _].
  submission_bind; [| intros _ _; submission_leaf].
  apply submission_on_fs. intros f g [= <-]. apply leave_products_frame.
Qed.

Lemma submission_replica_body k folders :
  yields (submission_step w block)
    (fun out => isLocal (remote block) = true -> out = folders)
    (replica_body w block k folders).
Proof.
  unfold replica_body. fold (replica_workdir w k).
  submission_bind.
  { apply submission_on_fs. intros f g. apply makedirs_below_root_frame.
    - apply workdir_within_parent.
    - right. eexists. reflexivity. }
  intros _ _. submission_bind.
  { apply submission_on_fs. intros f g. apply copy2_below_root_frame.
    apply workdir_child_within_parent. }
  intros _ _. submission_bind.
  { apply submission_on_fs. intros f g. apply copy2_below_root_frame.
    apply workdir_child_within_parent. }
  intros _ _. submission_bind; [apply submission_emit; exact I |].
  intros _ _. submission_bind; [apply submission_run_process |].
  intros process _. submission_bind.
  { instantiate (1 := fun _ => True).
    destruct (negb (returncode process =? 0)%Z).
    - submission_bind; [apply submission_emit; exact I |].
      intros _ _. submission_leaf.
    - submission_bind.
      + apply (yields_when _ submission_step_refl).
        apply submission_emit. exact I.
      + intros _ _. apply (yields_when _ submission_step_refl).
        apply submission_emit. exact I. }
  intros _ _. submission_bind.
  { apply (yields_for_each _ submission_step_refl
             submission_step_trans).
    intros folder_path. submission_bind; [submission_leaf |].
    intros d _. destruct d; apply submission_emit; exact I. }
  intros _ _. submission_bind; [submission_leaf |].
  intros e _. submission_bind.
  { apply (yields_when _ submission_step_refl).
    apply submission_emit. exact I. }
  intros _ _. submission_bind.
  { instantiate (1 := fun res =>
                        isLocal (remote block) = true -> res.2 = folders).
    destruct (isLocal (remote block)) eqn:Hloc.
    - submission_bind; [apply submission_call; exact I |].
      intros job_id _.
      apply (yields_ret _ submission_step_refl). reflexivity.
    - submission_bind; [apply submission_emit; exact I |].
      intros _ _. submission_bind; [apply submission_call; cbn; auto |].
      intros _ _. submission_bind; [apply submission_emit; exact I |].
      intros _ _. submission_bind; [apply submission_call; cbn; auto |].
      intros remote_workdir _.
      submission_bind; [apply submission_emit; exact I |].
      intros _ _. submission_bind; [apply submission_call; exact I |].
      intros job_id _.
      apply (yields_ret _ submission_step_refl). discriminate. }
  intros res Hres. submission_bind; [apply submission_emit; exact I |].
  intros _ _. apply (yields_ret _ submission_step_refl). exact Hres.
Qed.

Lemma submission_replica_loop todo folders :
  yields (submission_step w block)
    (fun out => isLocal (remote block) = true -> out = folders)
    (replica_loop w block todo folders).
Proof.
  revert folders. induction todo as [| k todo IH]; intros folders; cbn.
  - apply (yields_ret _ submission_step_refl). reflexivity.
  - submission_bind; [apply submission_replica_body |].
    intros out Hout.
    apply (yields_weaken _ (fun out' =>
             isLocal (remote block) = true -> out' = out)); [| apply IH].
    intros out' H Hloc. rewrite (H Hloc). apply Hout, Hloc.
Qed.

Lemma submission_prepare_workspace :
  yields (submission_step w block) (fun _ => True) (prepare_workspace w).
Proof.
  unfold prepare_workspace.
  submission_bind; [submission_leaf |]. intros e _.
  submission_bind.
  - apply (yields_when _ submission_step_refl).
    submission_bind; [apply submission_emit; exact I |].
    intros _ _. apply submission_on_fs. intros f g. apply rmtree_root_frame.
  - intros _ _. apply submission_on_fs. intros f g.
    apply makedirs_below_root_frame; [apply within_refl | left; reflexivity].
Qed.

Lemma submission_store_folders folders :
  (isLocal (remote block) = true -> folders = []) ->
  yields (submission_step w block) (fun _ => True)
    (when (negb (bool_decide (folders = []))) (store_folders folders)).
Proof.
  intros Hloc. case_bool_decide; cbn [negb when].
  - apply (yields_ret _ submission_step_refl). exact I.
  - intros s r s' [= <- <-]. split; [| exact I].
    split; [reflexivity |].
    split; [exists []; rewrite app_nil_r; auto |].
    split; [intros k Hk; cbn; apply lookup_insert_ne; congruence |].
    split; [intros Hl; specialize (Hloc Hl); contradiction |].
    cbn. auto.
Qed.

Lemma run_script_step s r s' :
  run_script w block s = (r, s') -> submission_step w block s s'.
Proof.
  intros H.
  assert (yields (submission_step w block) (fun _ => True)
            (run_script w block)) as Hy; [| exact (proj1 (Hy _ _ _ H))].
  unfold run_script.
  submission_bind.
  { instantiate (1 := fun _ => True). unfold check_last_residue.
    destruct (negb (truthy (last_residue_value block))); submission_leaf. }
  intros _ _. submission_bind.
  { instantiate (1 := fun _ => True). unfold check_machine.
    destruct (negb (bool_decide (name (remote block) ∈ allowed_machines)));
      submission_leaf. }
  intros _ _. submission_bind; [apply submission_prepare_workspace |].
  intros _ _. submission_bind; [apply submission_replica_loop |].
  intros folders Hf. apply submission_store_folders, Hf.
Qed.


(** X7.  Whatever the request and however the run ends, the only subprocesses
    [run_script] starts are the generator command, each in a replica
    directory; it never downloads anything; it runs a remote command
    ([mkdir -p] of the remote root) and transfers data (into the remote
    root) only on a backend that is not local; and the only entry of
    [extraData] it can change is ["remote_job_folders"], which it leaves
    alone as well on the local backend. *)
Theorem run_script_interactions s r s' :
  run_script w block s = (r, s') ->
  exists evs,
    trace s' = trace s ++ evs
    /\ (forall cmd cwd, EvPopen cmd cwd ∈ evs ->
          cmd = build_cmd block /\ exists k, cwd = replica_workdir w k)
    /\ (forall rem loc, EvGetData rem loc ∉ evs)
    /\ (forall c, EvCommand c ∈ evs ->
          isLocal (remote block) = false
          /\ c = "mkdir -p " +:+ remote_root block)
    /\ (forall loc rem, EvSendData loc rem ∈ evs ->
          isLocal (remote block) = false /\ rem = remote_root block)
    /\ (isLocal (remote block) = true -> extraData s' = extraData s)
    /\ (forall k, k <> "remote_job_folders" ->
          extraData s' !! k = extraData s !! k).
Proof.
  intros H.
  destruct (run_script_step _ _ _ H)
    as (_ & (evs & Htr & Hev) & Hkeys & Hloc & _).
  rewrite Forall_forall in Hev.
  exists evs. split; [exact Htr |].
  split; [intros cmd cwd Hin; exact (Hev _ Hin) |].
  split; [intros rem loc Hin; exact (Hev _ Hin) |].
  split; [intros c Hin; exact (Hev _ Hin) |].
  split; [intros loc rem Hin; exact (Hev _ Hin) |].
  split; assumption.
Qed.

End SubmissionConfined.


Lemma run_script_interactions_witness :
  exists s',
    (run_script Samples.world_ok Samples.block_local
       (initial Samples.fs_fresh ∅)).2 = s'
    /\ extraData s' = ∅.
Proof.
  eexists. split; [reflexivity |].
  destruct (run_script_interactions Samples.world_ok Samples.block_local
              (initial Samples.fs_fresh ∅) (Ok tt)
              (run_script Samples.world_ok Samples.block_local
                 (initial Samples.fs_fresh ∅)).2)
    as (evs & _ & _ & _ & _ & _ & Hloc & _).
  - apply run_returned. vm_compute. reflexivity.
  - apply Hloc. reflexivity.
Defined.

(* ===================================================================== *)
(** * What a collection can do *)
(* ===================================================================== *)

Section CollectConfined.
Variable w : World.
Variable block : Block.

Lemma collect_step_refl s : collect_step w block s s.
Proof.
  split; [reflexivity |]. split; [exists []; rewrite app_nil_r; auto |].
  split; [auto | apply kept_refl].
Qed.

Lemma collect_step_trans s1 s2 s3 :
  collect_step w block s1 s2 -> collect_step w block s2 s3 ->
  collect_step w block s1 s3.
Proof.
  intros (E1 & (ev1 & T1 & F1) & O1 & K1) (E2 & (ev2 & T2 & F2) & O2 & K2).
  split; [congruence |]. split.
  { exists (ev1 ++ ev2). rewrite T2, T1, app_assoc.
    split; [reflexivity | apply Forall_app; auto]. }
  split; [intros k H1 H2; rewrite O2, O1; auto |].
  eapply kept_trans; eauto.
Qed.

Lemma collect_emit e :
  collect_event block e ->
  yields (collect_step w block) (fun _ => True) (emit e).
Proof.
  intros He s r s' [= <- <-]. split; [| exact I].
  split; [reflexivity |]. split; [exists [e]; auto |].
  split; [auto | apply kept_refl].
Qed.

Lemma collect_call {A} e (answer : result A) :
  collect_event block e ->
  yields (collect_step w block) (fun _ => True) (call e answer).
Proof.
  intros He s r s' [= <- <-]. split; [| destruct answer; exact I].
  split; [reflexivity |]. split; [exists [e]; auto |].
  split; [auto | apply kept_refl].
Qed.

Lemma collect_on_fs op :
  (forall f g, op f = Ok g -> kept (undownloaded w) f g) ->
  yields (collect_step w block) (fun _ => True) (on_fs op).
Proof.
  intros Hop s r s' H. unfold on_fs in H.
  destruct (op (fs s)) as [g | e] eqn:E; injection H as <- <-.
  - split; [| exact I]. split; [reflexivity |].
    split; [exists []; rewrite app_nil_r; auto |].
    split; [auto | apply Hop, E].
  - split; [apply collect_step_refl | exact I].
Qed.

Lemma collect_makedirs p :
  yields (collect_step w block) (fun _ => True) (on_fs (fs_makedirs p)).
Proof.
  apply collect_on_fs. intros f g H.
  apply (kept_weaken (fun _ => True)); [auto |].
  apply (fs_makedirs_kept _ _ _ H).
Qed.

Lemma collect_setOutput id value :
  id = "preprod_folder" \/ id = "prod_folder" ->
  yields (collect_step w block) (fun _ => True) (setOutput id value).
Proof.
  intros Hid s r s' [= <- <-]. split; [| exact I].
  split; [reflexivity |]. split; [exists []; rewrite app_nil_r; auto |].
  split; [| apply kept_refl].
  intros k H1 H2. cbn. apply lookup_insert_ne. destruct Hid; congruence.
Qed.

Lemma collect_link_stage k sub agg :
  yields (collect_step w block) (fun _ => True) (link_stage w k sub agg).
Proof.
  intros s r s' H. split; [| destruct r; exact I].
  destruct (link_stage_run _ _ _ _ _ _ _ H) as [[-> _] | (_ & Hnone & n & ->)].
  - apply collect_step_refl.
  - split; [reflexivity |]. split; [exists []; rewrite app_nil_r; auto |].
    split; [auto |]. cbn. apply kept_insert_vacant, Hnone.
Qed.

Ltac collect_bind := eapply (yields_bind _ collect_step_trans).

Lemma collect_download_loop idx folders :
  isLocal (remote block) = false ->
  yields (collect_step w block) (fun _ => True)
    (download_loop w idx folders).
Proof.
  intros Hrem. revert idx.
  induction folders as [| folder rest IH]; intros idx; cbn [download_loop].
  - apply (yields_ret _ collect_step_refl). exact I.
  - collect_bind; [| intros _ _; apply IH].
    unfold download_one. collect_bind; [apply collect_makedirs |].
    intros _ _. apply (yields_for_each _ collect_step_refl collect_step_trans).
    intros sub. collect_bind; [apply collect_emit, Hrem |].
    intros _ _. collect_bind; [apply collect_call, Hrem |].
    intros got _. apply collect_on_fs. intros f g [= <-].
    eapply kept_weaken; [| apply kept_store_fetched].
    intros q Hq. apply Hq.
Qed.

Lemma download_data_step s r s' :
  download_data w block s = (r, s') -> collect_step w block s s'.
Proof.
  intros H.
  assert (yields (collect_step w block) (fun _ => True)
            (download_data w block)) as Hy; [| exact (proj1 (Hy _ _ _ H))].
  unfold download_data.
  collect_bind.
  { instantiate (1 := fun _ => True). intros t r0 t' [= <- <-].
    split; [apply collect_step_refl | exact I]. }
  intros e _. destruct (negb e).
  { apply (yields_raise _ collect_step_refl). }
  collect_bind.
  { instantiate (1 := fun _ => True).
    destruct (isLocal (remote block)) eqn:Hloc; cbn [negb when].
    - apply (yields_ret _ collect_step_refl). exact I.
    - collect_bind.
      + instantiate (1 := fun _ => True). intros t r0 t' [= <- <-].
        split; [apply collect_step_refl | exact I].
      + intros folders _. collect_bind.
        * apply (yields_when _ collect_step_refl).
          apply collect_emit, Hloc.
        * intros _ _. apply collect_download_loop, Hloc. }
  intros _ _. collect_bind; [apply collect_makedirs |].
  intros _ _. collect_bind; [apply collect_makedirs |].
  intros _ _. collect_bind.
  { unfold aggregate.
    apply (yields_for_each _ collect_step_refl collect_step_trans).
    intros k. apply (yields_for_each _ collect_step_refl collect_step_trans).
    intros sa. apply collect_link_stage. }
  intros _ _. collect_bind; [apply collect_setOutput; auto |].
  intros _ _. apply collect_setOutput. auto.
Qed.


(** X16.  Whatever the request and however the run ends, [download_data] starts
    no subprocess, submits no job, runs no remote command and uploads
    nothing: all it does besides printing is [getData].  On the local
    backend it has no interaction at all, not even a printed line.  It
    never writes to [extraData]. *)
Theorem download_data_interactions s r s' :
  download_data w block s = (r, s') ->
  extraData s' = extraData s
  /\ exists evs,
       trace s' = trace s ++ evs
       /\ Forall (fun e => match e with
                           | EvPrint _ | EvGetData _ _ => True
                           | _ => False
                           end) evs
       /\ (isLocal (remote block) = true -> evs = []).
Proof.
  intros H.
  destruct (download_data_step _ _ _ H) as (Hex & (evs & Htr & Hev) & _).
  split; [exact Hex |]. exists evs. split; [exact Htr |]. split.
  - eapply Forall_impl; [exact Hev |]. intros [] He; cbn in *; auto.
  - intros Hloc. destruct evs as [| e evs]; [reflexivity |].
    apply Forall_cons in Hev as [He _].
    destruct e; cbn in He; first [contradiction | congruence].
Qed.

End CollectConfined.


Lemma download_data_interactions_witness :
  exists s',
    (download_data Samples.world_ok Samples.block_local Samples.submitted).2
    = s'
    /\ trace s' = [].
Proof.
  eexists. split; [reflexivity |].
  destruct (download_data_interactions Samples.world_ok Samples.block_local
              Samples.submitted (Ok tt)
              (download_data Samples.world_ok Samples.block_local
                 Samples.submitted).2)
    as (_ & evs & Htr & _ & Hloc).
  - apply run_returned. vm_compute. reflexivity.
  - rewrite Htr, (Hloc eq_refl). reflexivity.
Defined.

(* ===================================================================== *)
(** * The ends of a collection *)
(* ===================================================================== *)

Section CollectEnds.
Variable w : World.
Variable block : Block.

(** X13.  Without a workspace root there is nothing to collect:
    [download_data] raises [FileNotFoundError] before anything else, for
    every backend and whatever folders are recorded; nothing is
    downloaded, no directory is created and no output is set. *)
Theorem download_data_without_workspace s :
  fs s !! parent_workdir w = None ->
  download_data w block s
  = (Raise (FileNotFoundError
              "Parent workdir not found; nothing to download."), s).
Proof.
  intros Hroot. rewrite download_data_phases.
  rewrite bool_decide_eq_false_2; [reflexivity |].
  rewrite Hroot. intros [? ?]. discriminate.
Qed.

(** X14.  When [download_data] returns, the outputs [preprod_folder] and
    [prod_folder] hold the paths of [preprod_replicas] and [prod_replicas]
    inside the workspace root, and both are directories that exist, even
    when no replica had anything to link. *)
Theorem download_data_outputs_are_directories s s' :
  download_data w block s = (Ok tt, s') ->
  outputs s' !! "preprod_folder"
  = Some (str_path (pjoin (parent_workdir w) "preprod_replicas"))
  /\ outputs s' !! "prod_folder"
     = Some (str_path (pjoin (parent_workdir w) "prod_replicas"))
  /\ fs s' !! pjoin (parent_workdir w) "preprod_replicas" = Some Dir
  /\ fs s' !! pjoin (parent_workdir w) "prod_replicas" = Some Dir.
Proof.
  intros H. rewrite download_data_phases in H.
  destruct (bool_decide (is_Some (fs s !! parent_workdir w)));
    [| discriminate].
  apply bind_Ok_inv in H as ([] & a & _ & Hlink).
  destruct (link_phase_Ok w block _ _ Hlink) as (_ & _ & O & Hp & Hq & _).
  rewrite O. unfold collected_outputs.
  split; [rewrite lookup_insert_ne by discriminate; apply lookup_insert_eq |].
  split; [apply lookup_insert_eq |].
  unfold dirs_exist, aggregated_preprod, aggregated_prod in *.
  rewrite ancestors_and_self_pjoin in Hp, Hq.
  apply Forall_app in Hp as [_ Hp]. apply Forall_app in Hq as [_ Hq].
  apply Forall_inv in Hp, Hq. auto.
Qed.

End CollectEnds.

Lemma download_data_without_workspace_witness :
  download_data Samples.world_ok Samples.block_picard
    (initial Samples.fs_fresh {[ "remote_job_folders" := Samples.handles ]})
  = (Raise (FileNotFoundError
              "Parent workdir not found; nothing to download."),
     initial Samples.fs_fresh {[ "remote_job_folders" := Samples.handles ]}).
Proof.
  apply (download_data_without_workspace Samples.world_ok
           Samples.block_picard).
  vm_compute. reflexivity.
Defined.

Lemma download_data_outputs_are_directories_witness :
  exists s',
    (download_data Samples.world_ok (Samples.with_replicas 0
                                       Samples.block_local)
       Samples.submitted).2 = s'
    /\ outputs s' !! "prod_folder"
       = Some "/home/md_custom_workdir/prod_replicas"
    /\ fs s' !! ["home"; "md_custom_workdir"; "prod_replicas"] = Some Dir.
Proof.
  eexists. split; [reflexivity |].
  destruct (download_data_outputs_are_directories Samples.world_ok
              (Samples.with_replicas 0 Samples.block_local)
              Samples.submitted
              (download_data Samples.world_ok
                 (Samples.with_replicas 0 Samples.block_local)
                 Samples.submitted).2)
    as (_ & Hout & _ & Hdir).
  - apply run_returned. vm_compute. reflexivity.
  - split; [exact Hout | exact Hdir].
Defined.

(* ===================================================================== *)
(** * The last residue at submission *)
(* ===================================================================== *)

Section Marks.
Variable w : World.
Variable block : Block.
Variable e : event.

Lemma marks_ret {A} (a : A) : marks e false (ret a).
Proof.
  intros s r s' [= <- <-]. exists []. rewrite app_nil_r.
  split; [reflexivity |]. split; discriminate.
Qed.

Lemma marks_raise {A} b ex :
  ex <> ValueError missing_residue_msg -> marks (A := A) e b (raise ex).
Proof.
  intros Hex s r s' [= <- <-]. exists []. rewrite app_nil_r.
  split; [reflexivity |]. split.
  - intros [= E]. contradiction.
  - intros _ [a [=]].
Qed.

Lemma marks_emit b e' : (b = true -> e = e') -> marks e b (emit e').
Proof.
  intros Hb s r s' [= <- <-]. exists [e']. split; [reflexivity |].
  split; [discriminate |]. intros E _. rewrite (Hb E). apply list_elem_of_singleton.
  reflexivity.
Qed.

Lemma marks_print line : marks e false (print line).
Proof. apply marks_emit. discriminate. Qed.

Lemma marks_call {A} e' (answer : result A) : marks e false (call e' answer).
Proof.
  intros s r s' [= <- <-]. exists [e']. split; [reflexivity |].
  split; discriminate.
Qed.

Lemma marks_path_exists p : marks e false (path_exists p).
Proof.
  intros s r s' [= <- <-]. exists []. rewrite app_nil_r.
  split; [reflexivity |]. split; discriminate.
Qed.

Lemma marks_path_is_dir p : marks e false (path_is_dir p).
Proof.
  intros s r s' [= <- <-]. exists []. rewrite app_nil_r.
  split; [reflexivity |]. split; discriminate.
Qed.

Lemma marks_store_folders folders : marks e false (store_folders folders).
Proof.
  intros s r s' [= <- <-]. exists []. rewrite app_nil_r.
  split; [reflexivity |]. split; discriminate.
Qed.

Lemma marks_on_fs op :
  (forall f ex, op f = Raise ex -> is_OSError ex = true) ->
  marks e false (on_fs op).
Proof.
  intros Hop s r s' H. unfold on_fs in H.
  destruct (op (fs s)) as [f | ex] eqn:E; injection H as <- <-;
    exists []; rewrite app_nil_r; (split; [reflexivity |]);
    (split; [| discriminate]).
  - discriminate.
  - intros [= ->]. specialize (Hop _ _ E). discriminate.
Qed.

Lemma marks_bind_l {A B} b (m : M A) (k : A -> M B) :
  marks e b m -> (forall a, marks e false (k a)) -> marks e b (bind m k).
Proof.
  intros Hm Hk s r s' H. unfold bind in H.
  destruct (m s) as [[a | ex] s1] eqn:E.
  - destruct (Hm _ _ _ E) as (evs1 & T1 & _ & M1).
    destruct (Hk a _ _ _ H) as (evs2 & T2 & L2 & _).
    exists (evs1 ++ evs2). rewrite T2, T1, app_assoc.
    split; [reflexivity |]. split.
    + intros Hr Hnil. apply app_eq_nil in Hnil as [_ Hnil]. exact (L2 Hr Hnil).
    + intros Hb _. apply elem_of_app. left. apply M1; eauto.
  - injection H as <- <-. destruct (Hm _ _ _ E) as (evs1 & T1 & L1 & _).
    exists evs1. split; [exact T1 |]. split.
    + intros [= ->]. apply L1. reflexivity.
    + intros _ [a [=]].
Qed.

Lemma marks_bind_r {A B} b (m : M A) (k : A -> M B) :
  marks e false m -> (forall a, marks e b (k a)) -> marks e b (bind m k).
Proof.
  intros Hm Hk s r s' H. unfold bind in H.
  destruct (m s) as [[a | ex] s1] eqn:E.
  - destruct (Hm _ _ _ E) as (evs1 & T1 & _ & _).
    destruct (Hk a _ _ _ H) as (evs2 & T2 & L2 & M2).
    exists (evs1 ++ evs2). rewrite T2, T1, app_assoc.
    split; [reflexivity |]. split.
    + intros Hr Hnil. apply app_eq_nil in Hnil as [_ Hnil]. exact (L2 Hr Hnil).
    + intros Hb Hok. apply elem_of_app. right. exact (M2 Hb Hok).
  - injection H as <- <-. destruct (Hm _ _ _ E) as (evs1 & T1 & L1 & _).
    exists evs1. split; [exact T1 |]. split.
    + intros [= ->]. apply L1. reflexivity.
    + intros _ [a [=]].
Qed.

Lemma marks_when c m : marks e false m -> marks e false (when c m).
Proof. intros Hm. destruct c; [exact Hm | apply marks_ret]. Qed.

Lemma marks_for_each {A} (l : list A) body :
  (forall x, marks e false (body x)) -> marks e false (for_each l body).
Proof.
  intros Hb. induction l as [| x l IH]; cbn.
  - apply marks_ret.
  - apply marks_bind_r; [apply Hb | intros _; exact IH].
Qed.

Lemma makedirs_go_raises_OSError ps f ex :
  makedirs_go ps f = Raise ex -> is_OSError ex = true.
Proof.
  revert f. induction ps as [| q ps IH]; intros f; cbn; [discriminate |].
  destruct (f !! q) as [[| |] |]; eauto;
    destruct ps; intros [= <-]; reflexivity.
Qed.

Lemma fs_makedirs_raises_OSError p f ex :
  fs_makedirs p f = Raise ex -> is_OSError ex = true.
Proof. apply makedirs_go_raises_OSError. Qed.

Lemma fs_copy2_raises_OSError src dst f ex :
  fs_copy2 src dst f = Raise ex -> is_OSError ex = true.
Proof.
  unfold fs_copy2.
  destruct (f !! src) as [[| |] |]; try (intros [= <-]; reflexivity).
  destruct (f !! dst) as [[| |] |]; intros [= <-]; reflexivity.
Qed.

Lemma fs_rmtree_raises_OSError p f ex :
  fs_rmtree p f = Raise ex -> is_OSError ex = true.
Proof.
  unfold fs_rmtree.
  destruct (f !! p) as [[| |] |]; intros [= <-]; reflexivity.
Qed.

Lemma marks_run_process b cmd cwd :
  (b = true -> e = EvPopen cmd cwd) -> marks e b (run_process w cmd cwd).
Proof.
  intros Hb. unfold run_process.
  apply marks_bind_l; [apply marks_emit, Hb | intros _].
  apply marks_bind_r; [| intros _; apply marks_ret].
  apply marks_on_fs. discriminate.
Qed.

Lemma marks_replica_body k folders b :
  (b = true -> e = EvPopen (build_cmd block) (replica_workdir w k)) ->
  marks e b (replica_body w block k folders).
Proof.
  intros Hb. unfold replica_body. fold (replica_workdir w k).
  apply marks_bind_r;
    [apply marks_on_fs; intros f ex; apply fs_makedirs_raises_OSError
    | intros _].
  apply marks_bind_r;
    [apply marks_on_fs; intros f ex; apply fs_copy2_raises_OSError
    | intros _].
  apply marks_bind_r;
    [apply marks_on_fs; intros f ex; apply fs_copy2_raises_OSError
    | intros _].
  apply marks_bind_r; [apply marks_print | intros _].
  apply marks_bind_l; [apply marks_run_process, Hb | intros process].
  apply marks_bind_r.
  { destruct (negb (returncode process =? 0)%Z).
    - apply marks_bind_r; [apply marks_print | intros _].
      apply marks_raise. discriminate.
    - apply marks_bind_r; [apply marks_when, marks_print | intros _].
      apply marks_when, marks_print. }
  intros _. apply marks_bind_r.
  { apply marks_for_each. intros folder_path.
    apply marks_bind_r; [apply marks_path_is_dir |].
    intros d. destruct d; apply marks_print. }
  intros _. apply marks_bind_r; [apply marks_path_exists | intros ex].
  apply marks_bind_r;
    [apply marks_when, marks_emit; discriminate | intros _].
  apply marks_bind_r.
  { destruct (isLocal (remote block)).
    - apply marks_bind_r; [apply marks_call | intros job_id].
      apply marks_ret.
    - apply marks_bind_r; [apply marks_print | intros _].
      apply marks_bind_r; [apply marks_call | intros _].
      apply marks_bind_r; [apply marks_print | intros _].
      apply marks_bind_r; [apply marks_call | intros remote_workdir].
      apply marks_bind_r; [apply marks_print | intros _].
      apply marks_bind_r; [apply marks_call | intros job_id].
      apply marks_ret. }
  intros res. apply marks_bind_r; [apply marks_print | intros _].
  apply marks_ret.
Qed.

Lemma marks_replica_loop todo folders b :
  (b = true ->
   exists k, k ∈ todo /\ e = EvPopen (build_cmd block) (replica_workdir w k)) ->
  marks e b (replica_loop w block todo folders).
Proof.
  revert b folders.
  induction todo as [| x todo IH]; intros b folders Hb; cbn.
  - destruct b; [| apply marks_ret].
    destruct (Hb eq_refl) as (k & Hk & _). inversion Hk.
  - destruct b.
    + destruct (Hb eq_refl) as (k & Hk & He).
      destruct (decide (k = x)) as [-> | Hne].
      * apply marks_bind_l; [apply marks_replica_body; intros _; exact He |].
        intros out. apply IH. discriminate.
      * apply marks_bind_r; [apply marks_replica_body; discriminate |].
        intros out. apply IH. intros _. exists k. split; [| exact He].
        apply elem_of_cons in Hk as [-> | Hk]; [contradiction | exact Hk].
    + apply marks_bind_r; [apply marks_replica_body; discriminate |].
      intros out. apply IH. discriminate.
Qed.

Lemma marks_prepare_workspace : marks e false (prepare_workspace w).
Proof.
  unfold prepare_workspace.
  apply marks_bind_r; [apply marks_path_exists | intros ex].
  apply marks_bind_r.
  - apply marks_when. apply marks_bind_r; [apply marks_print | intros _].
    apply marks_on_fs. intros f x. apply fs_rmtree_raises_OSError.
  - intros _. apply marks_on_fs. intros f x. apply fs_makedirs_raises_OSError.
Qed.

Lemma unsupported_is_not_missing machine :
  ValueError (unsupported_machine_msg machine)
  <> ValueError missing_residue_msg.
Proof. intros [=]. Qed.

(** Past the residue check, every run of [run_script] that raises the
    missing-residue error has interacted before, and every run that
    returns has started the generator in each replica directory. *)
Lemma run_script_marks b :
  truthy (last_residue_value block) = true ->
  (b = true ->
   exists k, k ∈ range1 (replicas block)
             /\ e = EvPopen (build_cmd block) (replica_workdir w k)) ->
  marks e b (run_script w block).
Proof.
  intros Hr Hb. unfold run_script, check_last_residue. rewrite Hr. cbn [negb].
  apply marks_bind_r; [apply marks_ret | intros _].
  apply marks_bind_r.
  { unfold check_machine.
    destruct (negb (bool_decide (name (remote block) ∈ allowed_machines)));
      [apply marks_raise, unsupported_is_not_missing | apply marks_ret]. }
  intros _. apply marks_bind_r; [apply marks_prepare_workspace | intros _].
  apply marks_bind_l; [apply marks_replica_loop, Hb | intros folders].
  apply marks_when, marks_store_folders.
Qed.

End Marks.

Section ResidueAtSubmission.
Variable w : World.

Lemma last_residue_value_explicit block :
  truthy (last_residue block) = true ->
  last_residue_value block = last_residue block.
Proof.
  intros H. rewrite last_residue_value_unfold. unfold py_or. rewrite H.
  reflexivity.
Qed.

Lemma last_residue_value_interactive block :
  truthy (last_residue block) = false ->
  last_residue_value block = interactive_residue block.
Proof.
  intros H. rewrite last_residue_value_unfold. unfold py_or. rewrite H.
  reflexivity.
Qed.

Lemma last_residue_value_falsy block :
  truthy (last_residue_value block) = false
  <-> truthy (last_residue block) = false
      /\ truthy (interactive_residue block) = false.
Proof.
  rewrite last_residue_value_unfold. unfold py_or.
  destruct (truthy (last_residue block)) eqn:E.
  - rewrite E. split; [discriminate | intros [? _]; discriminate].
  - split; [intros H; split; [reflexivity | exact H] | intros [_ H]; exact H].
Qed.

(** [run_script] ends on the missing-residue error with nothing done
    exactly when both sources of the last residue are falsy. *)
Lemma run_script_residue_error_iff block s :
  run_script w block s = (Raise (ValueError missing_residue_msg), s)
  <-> truthy (last_residue block) = false
      /\ truthy (interactive_residue block) = false.
Proof.
  rewrite <- last_residue_value_falsy. split.
  - intros H. destruct (truthy (last_residue_value block)) eqn:Hr;
      [| reflexivity].
    destruct (run_script_marks w block (EvPrint "x") false Hr
                ltac:(discriminate) _ _ _ H) as (evs & T & L & _).
    exfalso. apply L; [reflexivity |].
    rewrite <- (app_nil_r (trace s)) in T at 1.
    apply app_inv_head in T. congruence.
  - intros Hr. unfold run_script. apply bind_Raise.
    apply check_last_residue_falsy, Hr.
Qed.

(** The generator command lines of a run of [run_script]: nothing else is
    started, each carries the resolved last residue after [-r], and a run
    that returns has started one in the directory of every replica. *)
Lemma run_script_generator_runs block s r s' :
  run_script w block s = (r, s') ->
  exists evs,
    trace s' = trace s ++ evs
    /\ (forall cmd cwd, EvPopen cmd cwd ∈ evs ->
          cmd = build_cmd block
          /\ cmd !! 6%nat = Some "-r"
          /\ cmd !! 7%nat = Some (str (last_residue_value block)))
    /\ (r = Ok tt ->
        forall k, k ∈ range1 (replicas block) ->
          EvPopen (build_cmd block) (replica_workdir w k) ∈ evs).
Proof.
  intros H.
  destruct (run_script_step _ _ _ _ _ H) as (_ & (evs & T & Hev) & _).
  rewrite Forall_forall in Hev.
  exists evs. split; [exact T |]. split.
  - intros cmd cwd Hin. destruct (Hev _ Hin) as [-> _].
    split; [reflexivity |]. split; reflexivity.
  - intros -> k Hk.
    destruct (truthy (last_residue_value block)) eqn:Hr.
    + destruct (run_script_marks w block
                  (EvPopen (build_cmd block) (replica_workdir w k)) true Hr
                  ltac:(intros _; exists k; split; [exact Hk | reflexivity])
                  _ _ _ H) as (evs' & T' & _ & Hm).
      rewrite T in T'. apply app_inv_head in T'. subst evs'.
      apply Hm; eauto.
    + unfold run_script in H.
      rewrite (bind_Raise _ _ s (ValueError missing_residue_msg) s) in H
        by (apply check_last_residue_falsy, Hr).
      discriminate.
Qed.

(** C9 (amended).  An explicit last-residue index other than [0] is the
    value resolved, whatever the interactive selection holds.  Every
    generator command line that [run_script] starts for such a request
    carries it after [-r], and a run that returns has started the
    generator in the directory of every replica; the run never ends on
    the missing-residue error with nothing done.  For every request,
    [run_script] ends on the missing-residue error with nothing done
    exactly when both sources are falsy ([None], [0] or empty); and when
    the explicit index is falsy (so also when it is [0]), the value
    resolved, and carried after [-r] by every generator command line of
    the run, is the interactive selection. *)
Theorem explicit_nonzero_index_reaches_generator block i :
  last_residue block = PyInt i ->
  i <> 0%Z ->
  last_residue_value block = PyInt i
  /\ build_cmd block !! 6%nat = Some "-r"
  /\ build_cmd block !! 7%nat = Some (str_int i)
  /\ (forall s, check_last_residue block s = (Ok tt, s))
  /\ (forall s,
        run_script w block s <> (Raise (ValueError missing_residue_msg), s))
  /\ (forall s r s', run_script w block s = (r, s') ->
        exists evs,
          trace s' = trace s ++ evs
          /\ (forall cmd cwd, EvPopen cmd cwd ∈ evs ->
                cmd !! 6%nat = Some "-r" /\ cmd !! 7%nat = Some (str_int i))
          /\ (r = Ok tt ->
              forall k, k ∈ range1 (replicas block) ->
                exists cmd, EvPopen cmd (replica_workdir w k) ∈ evs))
  /\ (forall block' s,
        check_last_residue block' s
        = (Raise (ValueError missing_residue_msg), s)
        <-> truthy (last_residue block') = false
            /\ truthy (interactive_residue block') = false)
  /\ (forall block' s,
        run_script w block' s = (Raise (ValueError missing_residue_msg), s)
        <-> truthy (last_residue block') = false
            /\ truthy (interactive_residue block') = false)
  /\ (forall block',
        truthy (last_residue block') = false ->
        last_residue_value block' = interactive_residue block'
        /\ forall s r s', run_script w block' s = (r, s') ->
             exists evs,
               trace s' = trace s ++ evs
               /\ forall cmd cwd, EvPopen cmd cwd ∈ evs ->
                    cmd !! 6%nat = Some "-r"
                    /\ cmd !! 7%nat
                       = Some (str (interactive_residue block'))).
Proof.
  intros He Hi.
  assert (Ht : truthy (last_residue block) = true).
  { rewrite He. cbn. destruct (Z.eqb_spec i 0); [contradiction | reflexivity]. }
  assert (Hv : last_residue_value block = PyInt i).
  { rewrite (last_residue_value_explicit _ Ht). exact He. }
  split; [exact Hv |].
  split; [reflexivity |].
  split; [cbn; rewrite Hv; reflexivity |].
  split.
  { intros s. apply check_last_residue_truthy. rewrite Hv, <- He. exact Ht. }
  split.
  { intros s H. apply run_script_residue_error_iff in H as [H _].
    congruence. }
  split.
  { intros s r s' H.
    destruct (run_script_generator_runs _ _ _ _ H) as (evs & T & Hall & Hex).
    exists evs. split; [exact T |]. split.
    - intros cmd cwd Hin. destruct (Hall _ _ Hin) as (_ & H6 & H7).
      rewrite Hv in H7. auto.
    - intros Hr k Hk. eexists. exact (Hex Hr k Hk). }
  split; [intros block' s; apply check_last_residue_raises_iff |].
  split; [intros block' s; apply run_script_residue_error_iff |].
  intros block' Hf.
  pose proof (last_residue_value_interactive _ Hf) as Hv'.
  split; [exact Hv' |].
  intros s r s' H.
  destruct (run_script_generator_runs _ _ _ _ H) as (evs & T & Hall & _).
  exists evs. split; [exact T |].
  intros cmd cwd Hin. destruct (Hall _ _ Hin) as (_ & H6 & H7).
  rewrite Hv' in H7. auto.
Qed.

End ResidueAtSubmission.

Lemma explicit_nonzero_index_reaches_generator_witness :
  let block :=
    Samples.with_residues (PyInt 150) (Samples.picked 42) Samples.block_local in
  let run := run_script Samples.world_ok block (initial Samples.fs_fresh ∅) in
  last_residue_value block = PyInt 150
  /\ build_cmd block !! 7%nat = Some "150"
  /\ run.1 = Ok tt
  /\ exists evs,
       trace run.2 = evs
       /\ (forall cmd cwd, EvPopen cmd cwd ∈ evs -> cmd !! 7%nat = Some "150")
       /\ exists cmd,
            EvPopen cmd (replica_workdir Samples.world_ok 1) ∈ evs.
Proof.
  cbv zeta.
  pose proof (explicit_nonzero_index_reaches_generator Samples.world_ok
                (Samples.with_residues (PyInt 150) (Samples.picked 42)
                   Samples.block_local) 150 eq_refl) as H.
  destruct H as (Hv & _ & Hc & _ & _ & Hrun & _); [discriminate |].
  split; [exact Hv |]. split; [exact Hc |].
  assert (Hok : (run_script Samples.world_ok
                   (Samples.with_residues (PyInt 150) (Samples.picked 42)
                      Samples.block_local)
                   (initial Samples.fs_fresh ∅)).1 = Ok tt)
    by (vm_compute; reflexivity).
  split; [exact Hok |].
  destruct (Hrun _ _ _ (run_returned _ _ Hok)) as (evs & T & Hall & Hex).
  exists evs. split; [exact T |]. split.
  - intros cmd cwd Hin. exact (proj2 (Hall cmd cwd Hin)).
  - apply (Hex eq_refl 1%nat). vm_compute. left.
Defined.

(* ===================================================================== *)
(** * Mismatches and failures while collecting *)
(* ===================================================================== *)

Section DownloadsOnly.
Variable w : World.

Lemma downloads_only_refl s : downloads_only w s s.
Proof. repeat split. Qed.

Lemma downloads_only_trans s1 s2 s3 :
  downloads_only w s1 s2 -> downloads_only w s2 s3 -> downloads_only w s1 s3.
Proof.
  intros (E1 & O1 & F1) (E2 & O2 & F2).
  split; [congruence |]. split; [congruence |].
  intros q Hq. rewrite (F2 q Hq). apply F1, Hq.
Qed.

Lemma downloads_only_emit e :
  yields (downloads_only w) (fun _ => True) (emit e).
Proof.
  intros s r s' [= <- <-]. split; [repeat split | exact I].
Qed.

Lemma downloads_only_call {A} e (answer : result A) :
  yields (downloads_only w) (fun _ => True) (call e answer).
Proof.
  intros s r s' [= <- <-].
  split; [repeat split | destruct answer; exact I].
Qed.

Lemma downloads_only_on_fs op :
  (forall f g, op f = Ok g ->
     forall q, within (aggregated_preprod w) q \/ within (aggregated_prod w) q ->
       g !! q = f !! q) ->
  yields (downloads_only w) (fun _ => True) (on_fs op).
Proof.
  intros Hop s r s' H. unfold on_fs in H.
  destruct (op (fs s)) as [g | e] eqn:E; injection H as <- <-.
  - split; [| exact I]. split; [reflexivity |]. split; [reflexivity |].
    exact (Hop _ _ E).
  - split; [apply downloads_only_refl | exact I].
Qed.

Lemma aggregated_not_ancestor idx q :
  within (aggregated_preprod w) q \/ within (aggregated_prod w) q ->
  q ∉ ancestors_and_self (replica_workdir w idx).
Proof.
  intros Hagg Hq%ancestors_are_prefixes.
  assert (within (replica_workdir w idx) (replica_workdir w idx)) as Hr
    by apply within_refl.
  destruct Hagg as [Ha | Ha];
    pose proof (within_siblings _ _ _ _ Hr (within_trans _ _ _ Ha Hq)) as E;
    discriminate E.
Qed.

(** A download turn, however it ends, leaves the outputs, [extraData]
    and the aggregated folders as they were. *)
Lemma downloads_only_download_one idx remote_folder :
  yields (downloads_only w) (fun _ => True)
    (download_one w idx remote_folder).
Proof.
  unfold download_one. fold (replica_workdir w idx).
  eapply (yields_bind _ downloads_only_trans).
  { apply downloads_only_on_fs. intros f g H q Hq.
    apply (makedirs_go_within
             (fun p => p ∈ ancestors_and_self (replica_workdir w idx))
             _ _ _ (fun p Hp => Hp) H).
    apply aggregated_not_ancestor, Hq. }
  intros _ _.
  apply (yields_for_each _ downloads_only_refl downloads_only_trans).
  intros sub.
  eapply (yields_bind _ downloads_only_trans);
    [apply downloads_only_emit | intros _ _].
  eapply (yields_bind _ downloads_only_trans);
    [apply downloads_only_call | intros got _].
  apply downloads_only_on_fs. intros f g [= <-] q Hq.
  apply lookup_store_fetched_outside.
  apply (aggregated_outside_stage_dir w idx sub q Hq).
Qed.

Lemma downloads_only_download_loop idx folders :
  yields (downloads_only w) (fun _ => True) (download_loop w idx folders).
Proof.
  revert idx. induction folders as [| folder rest IH]; intros idx; cbn.
  - apply (yields_ret _ downloads_only_refl). exact I.
  - eapply (yields_bind _ downloads_only_trans);
      [apply downloads_only_download_one | intros _ _; apply IH].
Qed.

Lemma downloads_only_note_mismatch block folders :
  yields (downloads_only w) (fun _ => True) (note_mismatch block folders).
Proof.
  unfold note_mismatch.
  apply (yields_when _ downloads_only_refl), downloads_only_emit.
Qed.

End DownloadsOnly.

Section CollectFailures.
Variable w : World.
Variable block : Block.

Lemma download_loop_app idx done rest s :
  download_loop w idx (done ++ rest) s
  = (download_loop w idx done ;;
     download_loop w (idx + length done) rest) s.
Proof.
  revert idx s. induction done as [| folder done IH]; intros idx s.
  - cbn. rewrite Nat.add_0_r. reflexivity.
  - cbn [app download_loop length]. unfold bind.
    destruct (download_one w idx folder s) as [[[] | e] s1];
      [| reflexivity].
    rewrite IH. unfold bind.
    replace (S idx + length done)%nat
      with (idx + S (length done))%nat by lia.
    reflexivity.
Qed.

Lemma missing_parent_pjoin agg x f :
  f !! agg = Some Dir -> missing_parent (pjoin agg x) f = None.
Proof.
  intros H. unfold missing_parent, pjoin. rewrite removelast_last.
  destruct agg; [reflexivity |]. unfold path in *. rewrite H. reflexivity.
Qed.

(** C6 (amended).  On a backend that is not local, with the workspace root
    in place (an entry that is not a symbolic link): (1) when the number
    of recorded folders differs from [replicas], [download_data] prints
    the warning and goes on with the downloads of the folders it has, then
    with the links; the mismatch raises nothing.  (2) A download turn that
    raises ends [download_data] with that exception in the state the turn
    left: the folders after it are not downloaded and the link phase is
    not run, so that the outputs, [extraData] and everything at or below
    the two aggregated folders are as they were when [download_data] was
    called.  (3, 4) This is what happens when [getData] raises for a
    stage: the exception comes out of the turn right after the call.
    (5) A refused symbolic link, for a stage folder that is there and is
    not itself a link, is replaced by a text file holding the path of the
    stage folder, and the turn returns normally. *)
Theorem collect_tolerates_mismatch_not_failed_download s :
  is_Some (fs s !! parent_workdir w) ->
  not_a_link (fs s) (parent_workdir w) ->
  isLocal (remote block) = false ->
  (Z.of_nat (length (recorded_folders s)) <> replicas block ->
   download_data w block s
   = (download_loop w 1 (recorded_folders s) ;; link_phase w block)
       (add_event
          (EvPrint "Warning: remote job folders count does not match replicas; attempting partial download.")
          s))
  /\ (forall done folder rest a e a',
        recorded_folders s = done ++ folder :: rest ->
        (note_mismatch block (recorded_folders s) ;;
         download_loop w 1 done) s = (Ok tt, a) ->
        download_one w (S (length done)) folder a = (Raise e, a') ->
        download_data w block s = (Raise e, a')
        /\ outputs a' = outputs s
        /\ extraData a' = extraData s
        /\ (forall q,
              within (aggregated_preprod w) q \/ within (aggregated_prod w) q ->
              fs a' !! q = fs s !! q))
  /\ (forall idx folder a f1 e,
        fs_makedirs (replica_workdir w idx) (fs a) = Ok f1 ->
        getData w (os_path_join folder "preprod")
          (str_path (stage_dir w idx "preprod")) = Raise e ->
        download_one w idx folder a
        = (Raise e,
           add_event
             (EvGetData (os_path_join folder "preprod")
                (str_path (stage_dir w idx "preprod")))
             (add_event
                (EvPrint ("Downloading preprod for " +:+ replica_tag idx
                          +:+ "..."))
                (set_fs f1 a))))
  /\ (forall idx folder a f1 got e,
        fs_makedirs (replica_workdir w idx) (fs a) = Ok f1 ->
        getData w (os_path_join folder "preprod")
          (str_path (stage_dir w idx "preprod")) = Ok got ->
        getData w (os_path_join folder "prod")
          (str_path (stage_dir w idx "prod")) = Raise e ->
        exists a',
          download_one w idx folder a = (Raise e, a')
          /\ fs a' = store_fetched (stage_dir w idx "preprod") got f1
          /\ outputs a' = outputs a)
  /\ (forall k sa t,
        sa ∈ stage_links w ->
        is_Some (fs t !! stage_dir w k sa.1) ->
        not_a_link (fs t) (stage_dir w k sa.1) ->
        fs t !! link_name sa.2 k sa.1 = None ->
        fs t !! sa.2 = Some Dir ->
        symlink_refused w (link_name sa.2 k sa.1) = true ->
        link_stage w k sa.1 sa.2 t
        = (Ok tt,
           set_fs (<[link_name sa.2 k sa.1
                     := File (str_path (stage_dir w k sa.1))]> (fs t)) t)).
Proof.
  intros Hroot _ Hremote.
  assert (forall t, fetch_phase w block t
                    = (note_mismatch block (recorded_folders t) ;;
                       download_loop w 1 (recorded_folders t)) t) as Hfetch.
  { intros t. unfold fetch_phase. rewrite Hremote. reflexivity. }
  split; [| split; [| split; [| split]]].
  - intros Hne. rewrite download_data_phases.
    rewrite bool_decide_eq_true_2 by exact Hroot.
    unfold bind at 1. rewrite Hfetch. unfold note_mismatch.
    destruct (Z.eqb_spec (Z.of_nat (length (recorded_folders s)))
                (replicas block)) as [E | _]; [contradiction |].
    reflexivity.
  - intros done folder rest a e a' Hrec Hdone Hone.
    assert (downloads_only w s a') as (HE & HO & HF).
    { apply (downloads_only_trans w s a a').
      - assert (yields (downloads_only w) (fun _ => True)
                  (note_mismatch block (recorded_folders s) ;;
                   download_loop w 1 done)) as Hy.
        { eapply (yields_bind _ (downloads_only_trans w));
            [apply downloads_only_note_mismatch |].
          intros _ _. apply downloads_only_download_loop. }
        exact (proj1 (Hy _ _ _ Hdone)).
      - exact (proj1 (downloads_only_download_one w _ _ _ _ _ Hone)). }
    split; [| auto].
    rewrite download_data_phases.
    rewrite bool_decide_eq_true_2 by exact Hroot.
    unfold bind at 1. rewrite Hfetch.
    unfold bind at 1. unfold bind at 1 in Hdone.
    destruct (note_mismatch block (recorded_folders s) s)
      as [[[] | e0] s0]; [| discriminate].
    rewrite Hrec, download_loop_app. unfold bind at 1. rewrite Hdone.
    cbn [download_loop Nat.add]. unfold bind at 1. rewrite Hone.
    reflexivity.
  - intros idx folder [f0 ex out tr] f1 e Hmk Hget. cbn [fs] in Hmk.
    cbv beta iota zeta delta
      [download_one stages for_each bind print emit on_fs ret call
       fs set_fs add_event trace extraData outputs].
    fold (replica_workdir w idx). fold (stage_dir w idx "preprod").
    rewrite Hmk, Hget. reflexivity.
  - intros idx folder [f0 ex out tr] f1 got e Hmk Hpre Hprod.
    cbn [fs] in Hmk.
    cbv beta iota zeta delta
      [download_one stages for_each bind print emit on_fs ret call
       fs set_fs add_event trace extraData outputs].
    fold (replica_workdir w idx).
    fold (stage_dir w idx "preprod"). fold (stage_dir w idx "prod").
    rewrite Hmk, Hpre, Hprod. eexists. split; [reflexivity |].
    split; reflexivity.
  - intros k sa [f0 ex out tr] Hsa Hsrc _ Hfree Hagg Hrefused.
    cbn [fs] in *.
    cbv beta iota zeta delta
      [link_stage bind when path_exists try_except_OSError on_fs ret
       fs_symlink fs_write_text fs set_fs extraData outputs trace].
    fold (stage_dir w k sa.1). fold (link_name sa.2 k sa.1).
    rewrite bool_decide_eq_true_2 by exact Hsrc.
    rewrite bool_decide_eq_false_2
      by (rewrite Hfree; intros [? ?]; discriminate).
    cbn [negb].
    assert (missing_parent (link_name sa.2 k sa.1) f0 = None) as Hmp
      by apply missing_parent_pjoin, Hagg.
    rewrite Hmp, Hfree, Hrefused.
    cbv beta iota delta [is_OSError fs].
    rewrite Hmp, Hfree. reflexivity.
Qed.

End CollectFailures.

Lemma collect_tolerates_mismatch_not_failed_download_witness :
  exists s',
    download_data Samples.world_download_raises Samples.block_picard
      Samples.submitted
    = (Raise (OSError "connection lost"), s')
    /\ outputs s' = outputs Samples.submitted
    /\ fs s' !! aggregated_preprod Samples.world_download_raises
       = fs Samples.submitted
         !! aggregated_preprod Samples.world_download_raises.
Proof.
  destruct (collect_tolerates_mismatch_not_failed_download
              Samples.world_download_raises Samples.block_picard
              Samples.submitted) as (_ & Hstop & _).
  - vm_compute. eexists. reflexivity.
  - intros t. vm_compute. discriminate.
  - reflexivity.
  - eexists.
    destruct (Hstop [] "/scratch/run/replica_01" ["/scratch/run/replica_02"]
                Samples.submitted (OSError "connection lost")
                (download_one Samples.world_download_raises 1
                   "/scratch/run/replica_01" Samples.submitted).2)
      as (Hrun & Hout & _ & Hagg).
    + vm_compute. reflexivity.
    + reflexivity.
    + apply run_raised. vm_compute. reflexivity.
    + split; [exact Hrun |]. split; [exact Hout |].
      apply Hagg. left. apply within_refl.
Defined.

(** C6, as stated, fails for downloads: with two folders recorded and the
    backend raising on the first download, [download_data] raises that
    error; the second replica is never downloaded, no aggregated folder is
    created and no output is set. *)
Lemma failed_download_aborts_collection :
  let run :=
    download_data Samples.world_download_raises Samples.block_picard
      Samples.submitted in
  run.1 = Raise (OSError "connection lost")
  /\ recorded_folders Samples.submitted
     = ["/scratch/run/replica_01"; "/scratch/run/replica_02"]
  /\ (forall rem loc,
        EvGetData rem loc ∈ trace run.2 ->
        rem = "/scratch/run/replica_01/preprod")
  /\ fs run.2 !! replica_workdir Samples.world_download_raises 2 = None
  /\ fs run.2 !! aggregated_preprod Samples.world_download_raises = None
  /\ outputs run.2 !! "preprod_folder" = None.
Proof.
  cbv zeta. split; [vm_compute; reflexivity |].
  split; [vm_compute; reflexivity |]. split.
  - intros rem loc.
    assert (trace (download_data Samples.world_download_raises
                     Samples.block_picard Samples.submitted).2
            = [EvPrint "Downloading preprod for replica_01...";
               EvGetData "/scratch/run/replica_01/preprod"
                 "/home/md_custom_workdir/replica_01/preprod"]) as ->
      by (vm_compute; reflexivity).
    intros H. apply elem_of_cons in H as [H | H]; [discriminate H |].
    apply list_elem_of_singleton in H. injection H as -> _. reflexivity.
  - repeat split; vm_compute; reflexivity.
Qed.

(* ===================================================================== *)
(** * Batches that stop early, batches of nothing *)
(* ===================================================================== *)

Section BackendFailure.
Variable w : World.
Variable block : Block.

Ltac flatten_trace :=
  repeat rewrite <- app_assoc; cbn [app].

Ltac split_branch :=
  match goal with
  | |- context [if ?b then _ else _] => destruct b
  end.

Ltac run_action f :=
  cbv beta iota zeta delta
    [f bind print emit run_process on_fs ret raise when for_each
     path_is_dir path_exists call setOutput
     fs set_fs add_event set_extraData set_output trace extraData outputs
     fst snd negb Z.eqb].

(** A turn whose generator succeeds and whose hand-over to the backend
    raises. *)
Lemma replica_body_backend_fails c1 c2 k folders s e :
  ready w block c1 c2 (fs s) ->
  vacant (replica_workdir w k) (fs s) ->
  returncode (popen w (build_cmd block) (replica_workdir w k)) = 0%Z ->
  backend_answer w block k = Raise e ->
  exists s' evs,
    replica_body w block k folders s = (Raise e, s')
    /\ fs s' = replica_fs w block c1 c2 k (fs s)
    /\ extraData s' = extraData s
    /\ outputs s' = outputs s
    /\ trace s' = trace s ++ evs
    /\ EvPopen (build_cmd block) (replica_workdir w k) ∈ evs.
Proof.
  intros Hready Hvac Hrc Hans.
  destruct (stage_inputs w block c1 c2 k (fs s) Hready Hvac)
    as (H1 & H2 & H3).
  unfold backend_answer in Hans.
  destruct s as [f0 ex out tr]. cbn [fs] in *.
  unfold replica_workdir in *.
  run_action replica_body.
  rewrite H1. run_action replica_body.
  rewrite H2. run_action replica_body.
  rewrite H3. run_action replica_body.
  rewrite Hrc. run_action replica_body.
  destruct (isLocal (remote block)).
  - destruct (submitJob w _) as [j | e'] eqn:Hj; [discriminate |].
    injection Hans as ->.
    repeat (split_branch; run_action replica_body).
    all: rewrite ?Hj; run_action replica_body.
    all: eexists; eexists; split; [reflexivity |].
    all: cbn [fs extraData outputs trace].
    all: split; [reflexivity |]; split; [reflexivity |];
      split; [reflexivity |]; flatten_trace.
    all: split; [reflexivity |].
    all: repeat first [left | right].
  - destruct (command w _) as [[] | e1] eqn:Hcmd.
    + destruct (sendData w _ _) as [rw | e2] eqn:Hsend.
      * destruct (submitJob w _) as [j | e3] eqn:Hj; [discriminate |].
        injection Hans as ->.
        repeat (split_branch; run_action replica_body).
        all: rewrite ?Hcmd; run_action replica_body.
        all: rewrite ?Hsend; run_action replica_body.
        all: rewrite ?pname_pjoin.
        all: rewrite ?Hj; run_action replica_body.
        all: eexists; eexists; split; [reflexivity |].
        all: cbn [fs extraData outputs trace].
        all: split; [reflexivity |]; split; [reflexivity |];
          split; [reflexivity |]; flatten_trace.
        all: split; [reflexivity |].
        all: repeat first [left | right].
      * injection Hans as ->.
        repeat (split_branch; run_action replica_body).
        all: rewrite ?Hcmd; run_action replica_body.
        all: rewrite ?Hsend; run_action replica_body.
        all: eexists; eexists; split; [reflexivity |].
        all: cbn [fs extraData outputs trace].
        all: split; [reflexivity |]; split; [reflexivity |];
          split; [reflexivity |]; flatten_trace.
        all: split; [reflexivity |].
        all: repeat first [left | right].
    + injection Hans as ->.
      repeat (split_branch; run_action replica_body).
      all: rewrite ?Hcmd; run_action replica_body.
      all: eexists; eexists; split; [reflexivity |].
      all: cbn [fs extraData outputs trace].
      all: split; [reflexivity |]; split; [reflexivity |];
        split; [reflexivity |]; flatten_trace.
      all: split; [reflexivity |].
      all: repeat first [left | right].
Qed.

End BackendFailure.

Section EarlyStops.
Variable w : World.
Variable block : Block.

Lemma seq_snoc_upto k : (1 <= k)%nat -> seq 1 (k - 1) ++ [k] = seq 1 k.
Proof.
  intros Hk. replace k with ((k - 1) + 1)%nat at 3 by lia.
  rewrite seq_app. cbn [seq]. repeat f_equal; lia.
Qed.

(** X8.  An exception raised by the backend while replica [k] is handed over
    ([submitJob], or on a remote backend [command] and [sendData]) comes
    out of [run_script] as it is, the earlier replicas having gone
    through: the batch stops there.  The generator has run for replica
    [k], whose directory stays in place; the jobs of the earlier replicas
    stay submitted; no later replica is touched; nothing is recorded in
    [extraData] and no output is set. *)
Theorem backend_failure_aborts_batch c1 c2 s k e :
  well_placed w block c1 c2 (fs s) ->
  (1 <= k <= Z.to_nat (replicas block))%nat ->
  (forall j, (1 <= j < k)%nat -> replica_succeeds w block j) ->
  returncode (popen w (build_cmd block) (replica_workdir w k)) = 0%Z ->
  backend_answer w block k = Raise e ->
  exists s' evs,
    run_script w block s = (Raise e, s')
    /\ trace s' = trace s ++ evs
    /\ extraData s' = extraData s
    /\ outputs s' = outputs s
    /\ fs s' !! replica_workdir w k = Some Dir
    /\ (forall j, (k < j)%nat -> fs s' !! replica_workdir w j = None)
    /\ EvPopen (build_cmd block) (replica_workdir w k) ∈ evs
    /\ (forall j, (1 <= j < k)%nat ->
          EvSubmitJob (submitted_script w block j) ∈ evs).
Proof.
  intros Hwp Hk Hok Hrc Hans.
  rewrite run_script_validated by apply Hwp.
  destruct (prepare_workspace_ok w s (wp_cwd _ _ _ _ _ Hwp)
              (wp_root _ _ _ _ _ Hwp))
    as (s1 & evs1 & Hrun1 & Hfs1 & Hex1 & Hout1 & Htr1 & _).
  destruct (replica_loop_ok w block c1 c2 (seq 1 (k - 1)) [] s1)
    as (s2 & evs2 & Hrun2 & Hfs2 & Hex2 & Hout2 & Htr2 & Hloud2 & _).
  { apply NoDup_seq. }
  { rewrite Hfs1. apply ready_fresh_workspace, Hwp. }
  { intros j _. rewrite Hfs1. apply vacant_fresh_workspace. }
  { intros j Hj%elem_of_seq. apply Hok. lia. }
  destruct (replica_body_backend_fails w block c1 c2 k
              ([] ++ concat (List.map (recorded_folder w block)
                               (seq 1 (k - 1)))) s2 e)
    as (s3 & evs3 & Hrun3 & Hfs3 & Hex3 & Hout3 & Htr3 & Hpopen).
  { rewrite Hfs2, Hfs1. apply ready_loop_fs, ready_fresh_workspace, Hwp. }
  { rewrite Hfs2, Hfs1. apply vacant_loop_fs.
    - intros Hin%elem_of_seq. lia.
    - apply vacant_fresh_workspace. }
  { exact Hrc. }
  { exact Hans. }
  exists s3, (evs1 ++ evs2 ++ evs3).
  rewrite (bind_Ok _ _ _ _ _ Hrun1).
  rewrite (range1_split k) by exact Hk.
  unfold bind at 1. rewrite replica_loop_app, Hrun2.
  cbn [replica_loop]. unfold bind at 1. rewrite Hrun3.
  split; [reflexivity |].
  split; [rewrite Htr3, Htr2, Htr1, <- !app_assoc; reflexivity |].
  split; [congruence |]. split; [congruence |].
  assert (fs s3 = loop_fs w block c1 c2 (seq 1 (k - 1) ++ [k])
                    (fresh_workspace w (fs s))) as Hfs.
  { rewrite Hfs3, Hfs2, Hfs1. unfold loop_fs. rewrite foldl_app.
    reflexivity. }
  split; [| split; [| split]].
  - rewrite Hfs. apply (loop_fs_inside w block c1 c2 _ k).
    + rewrite seq_snoc_upto by lia. apply NoDup_seq.
    + apply elem_of_app. right. left.
    + apply within_refl.
    + intros g. apply replica_fs_workdir.
  - intros j Hj. rewrite Hfs, loop_fs_outside.
    + apply lookup_fresh_workspace_below; [apply within_pjoin |].
      apply pjoin_neq.
    + intros i Hi. apply (other_workdir_outside w i j); [| apply within_refl].
      rewrite seq_snoc_upto in Hi by lia. apply elem_of_seq in Hi. lia.
  - apply elem_of_app. right. apply elem_of_app. right. exact Hpopen.
  - intros j Hj. apply elem_of_app. right. apply elem_of_app. left.
    apply elem_of_filter_loud. rewrite Hloud2.
    apply interactions_elem_of, elem_of_seq. lia.
Qed.

(** X9.  A generator failure on a remote backend loses the folders of the
    replicas already submitted: the work directories of replicas [1..k-1]
    were transferred and their jobs submitted, yet [extraData] is left as
    it was, since the folders are only recorded once the whole loop is
    through; a later [download_data] finds the folders it knew before. *)
Theorem aborted_batch_records_no_folder c1 c2 s k :
  well_placed w block c1 c2 (fs s) ->
  isLocal (remote block) = false ->
  (1 <= k <= Z.to_nat (replicas block))%nat ->
  (forall j, (1 <= j < k)%nat -> replica_succeeds w block j) ->
  returncode (popen w (build_cmd block) (replica_workdir w k)) <> 0%Z ->
  exists s' e evs,
    run_script w block s = (Raise e, s')
    /\ trace s' = trace s ++ evs
    /\ extraData s' = extraData s
    /\ recorded_folders s' = recorded_folders s
    /\ (forall j, (1 <= j < k)%nat ->
          sendData w (str_path (replica_workdir w j)) (remote_root block)
          = Ok (remote_workdir_of w block j)
          /\ EvSubmitJob
               (os_path_join (remote_workdir_of w block j) "script.sh")
               ∈ evs).
Proof.
  intros Hwp Hrem Hk Hok Hrc.
  destruct (run_script_script_fails w block c1 c2 s k Hwp Hk Hok Hrc)
    as (s' & evs & Hrun & _ & Hex & _ & Htr & Hloud & _).
  exists s', (script_failure w block k), evs.
  split; [exact Hrun |]. split; [exact Htr |]. split; [exact Hex |].
  split; [unfold recorded_folders; rewrite Hex; reflexivity |].
  intros j Hj. destruct (Hok j Hj) as [_ [answer Ha]].
  destruct (backend_answer_remote w block j answer Hrem Ha)
    as (Hsend & _ & Hscript & _).
  split; [exact Hsend |]. rewrite <- Hscript.
  apply elem_of_filter_loud. rewrite Hloud. apply elem_of_app. left.
  apply interactions_elem_of, elem_of_seq. lia.
Qed.

(** X10.  With a replica count of zero or less the loop body never runs: a
    request that passes the two checks gets its workspace root emptied and
    recreated, and [run_script] returns without having started a
    subprocess, submitted a job or recorded anything. *)
Theorem run_script_without_replicas s :
  truthy (last_residue_value block) = true ->
  name (remote block) ∈ allowed_machines ->
  dirs_exist (getcwd w) (fs s) ->
  fs s !! parent_workdir w = Some Dir \/ vacant (parent_workdir w) (fs s) ->
  (replicas block <= 0)%Z ->
  exists s' evs,
    run_script w block s = (Ok tt, s')
    /\ fs s' = <[parent_workdir w := Dir]> (remove_tree (parent_workdir w) (fs s))
    /\ trace s' = trace s ++ evs
    /\ List.filter loud evs = []
    /\ extraData s' = extraData s
    /\ outputs s' = outputs s.
Proof.
  intros Hres Hm Hcwd Hroot Hn.
  rewrite run_script_validated by assumption.
  destruct (prepare_workspace_ok w s Hcwd Hroot)
    as (s1 & evs1 & Hrun1 & Hfs1 & Hex1 & Hout1 & Htr1 & Hloud1).
  exists s1, evs1. rewrite (bind_Ok _ _ _ _ _ Hrun1).
  unfold range1. replace (Z.to_nat (replicas block)) with 0%nat by lia.
  split; [reflexivity |]. auto.
Qed.

End EarlyStops.

Lemma backend_failure_aborts_batch_witness :
  exists s',
    run_script Samples.world_queue_closed Samples.block_local
      (initial Samples.fs_fresh ∅)
    = (Raise (RuntimeError "sbatch: queue is closed"), s')
    /\ fs s' !! ["home"; "md_custom_workdir"; "replica_02"] = Some Dir.
Proof.
  destruct (backend_failure_aborts_batch Samples.world_queue_closed
              Samples.block_local "TOPOLOGY" "COORDINATES"
              (initial Samples.fs_fresh ∅) 2
              (RuntimeError "sbatch: queue is closed"))
    as (s' & evs & Hrun & _ & _ & _ & Hdir & _).
  - sample_placement.
  - vm_compute. lia.
  - intros j Hj. assert (j = 1) as -> by lia.
    split; [reflexivity | eexists; reflexivity].
  - reflexivity.
  - reflexivity.
  - exists s'. split; [exact Hrun | exact Hdir].
Defined.

Lemma aborted_batch_records_no_folder_witness :
  exists s',
    (run_script Samples.world_second_fails Samples.block_picard
       (initial Samples.fs_fresh ∅)).2 = s'
    /\ recorded_folders s' = [].
Proof.
  eexists. split; [reflexivity |].
  destruct (aborted_batch_records_no_folder Samples.world_second_fails
              Samples.block_picard "TOPOLOGY" "COORDINATES"
              (initial Samples.fs_fresh ∅) 2)
    as (s' & e & evs & Hrun & _ & _ & Hrec & _).
  - sample_placement.
  - reflexivity.
  - vm_compute. lia.
  - intros j Hj. assert (j = 1) as -> by lia.
    split; [reflexivity | eexists; reflexivity].
  - vm_compute. discriminate.
  - rewrite Hrun. cbn [snd]. rewrite Hrec. reflexivity.
Defined.

Lemma run_script_without_replicas_witness :
  exists s',
    run_script Samples.world_ok
      (Samples.with_replicas 0 Samples.block_local)
      (initial Samples.fs_stale ∅) = (Ok tt, s')
    /\ fs s' !! ["home"; "md_custom_workdir"; "replica_03"] = None.
Proof.
  destruct (run_script_without_replicas Samples.world_ok
              (Samples.with_replicas 0 Samples.block_local)
              (initial Samples.fs_stale ∅))
    as (s' & evs & Hrun & Hfs & _).
  - reflexivity.
  - vm_compute. repeat constructor.
  - unfold dirs_exist. repeat (constructor; [vm_compute; reflexivity |]).
    constructor.
  - left. vm_compute. reflexivity.
  - vm_compute. discriminate.
  - exists s'. split; [exact Hrun |]. rewrite Hfs.
    rewrite lookup_insert_ne by discriminate.
    apply lookup_remove_tree_within. eexists. reflexivity.
Defined.

Section OddWorkspaces.
Variable w : World.
Variable block : Block.

(** X11.  When [md_custom_workdir] exists as a regular file, a request that
    passes the two checks prints the warning about the existing workspace
    and then fails in [shutil.rmtree] with [NotADirectoryError]: the file
    is not removed, no directory is created and no subprocess is
    started. *)
Theorem workspace_root_is_a_file s content :
  truthy (last_residue_value block) = true ->
  name (remote block) ∈ allowed_machines ->
  fs s !! parent_workdir w = Some (File content) ->
  run_script w block s
  = (Raise (NotADirectoryError (str_path (parent_workdir w))),
     add_event
       (EvPrint ("WARNING: existing parent workdir found at "
                 +:+ str_path (parent_workdir w)
                 +:+ "; removing it now. All prior contents will be permanently deleted."))
       s).
Proof.
  intros Hres Hm Hroot.
  rewrite run_script_validated by assumption.
  destruct s as [f0 ex out tr]. cbn [fs] in Hroot.
  cbv beta iota zeta delta
    [prepare_workspace bind print emit on_fs ret when path_exists
     fs_rmtree fs set_fs add_event trace extraData outputs].
  rewrite bool_decide_eq_true_2 by (rewrite Hroot; eexists; reflexivity).
  cbv beta iota zeta delta [when bind emit on_fs fs add_event trace
                            extraData outputs].
  rewrite Hroot. reflexivity.
Qed.


End OddWorkspaces.

Lemma workspace_root_is_a_file_witness :
  (run_script Samples.world_ok Samples.block_local
     (initial Samples.fs_blocked ∅)).1
  = Raise (NotADirectoryError "/home/md_custom_workdir").
Proof.
  rewrite (workspace_root_is_a_file Samples.world_ok Samples.block_local
             (initial Samples.fs_blocked ∅) "notes").
  - reflexivity.
  - reflexivity.
  - vm_compute. repeat constructor.
  - vm_compute. reflexivity.
Defined.


(* ===================================================================== *)
(** * What the aggregation adds *)
(* ===================================================================== *)

Section OwnLinks.
Variable w : World.

Lemma yields_for_each_in {A} (R : State -> State -> Prop) (l : list A) body :
  (forall s, R s s) ->
  (forall s1 s2 s3, R s1 s2 -> R s2 s3 -> R s1 s3) ->
  (forall x, x ∈ l -> yields R (fun _ => True) (body x)) ->
  yields R (fun _ => True) (for_each l body).
Proof.
  intros Hrefl Htrans. induction l as [| x l IH]; intros Hb; cbn.
  - apply (yields_ret _ Hrefl). exact I.
  - eapply (yields_bind _ Htrans); [apply Hb; left |].
    intros _ _. apply IH. intros y Hy. apply Hb. right. exact Hy.
Qed.

(** The entry a link turn adds, if any. *)
Lemma link_stage_adds k sub agg s r s' :
  link_stage w k sub agg s = (r, s') ->
  s' = s
  \/ (is_Some (fs s !! stage_dir w k sub)
      /\ fs s !! link_name agg k sub = None
      /\ exists m,
           (m = Symlink (stage_dir w k sub)
            \/ m = File (str_path (stage_dir w k sub)))
           /\ s' = set_fs (<[link_name agg k sub := m]> (fs s)) s).
Proof.
  destruct s as [f0 ex out tr].
  cbv beta iota zeta delta
    [link_stage bind when path_exists try_except_OSError on_fs ret
     fs_symlink fs_write_text fs set_fs extraData outputs trace].
  fold (stage_dir w k sub). fold (link_name agg k sub).
  intros H.
  destruct (decide (is_Some (f0 !! stage_dir w k sub))) as [Hs | Hs].
  - rewrite bool_decide_eq_true_2 in H by exact Hs.
    destruct (decide (is_Some (f0 !! link_name agg k sub))) as [Hl | Hl].
    + rewrite bool_decide_eq_true_2 in H by exact Hl. cbn [negb] in H.
      injection H as <- <-. left. reflexivity.
    + rewrite bool_decide_eq_false_2 in H by exact Hl. cbn [negb] in H.
      assert (f0 !! link_name agg k sub = None) as Hnone
        by (apply eq_None_not_Some, Hl).
      rewrite Hnone in H.
      destruct (missing_parent (link_name agg k sub) f0) as [e |] eqn:Hp.
      * left. destruct (is_OSError e);
          cbv beta iota delta [fs] in H; rewrite ?Hp in H;
          injection H as <- <-; reflexivity.
      * right. split; [exact Hs |]. split; [exact Hnone |].
        destruct (symlink_refused w (link_name agg k sub));
          cbv beta iota delta [fs is_OSError] in H;
          rewrite ?Hp, ?Hnone in H; injection H as <- <-; eauto.
  - rewrite bool_decide_eq_false_2 in H by exact Hs.
    injection H as <- <-. left. reflexivity.
Qed.

Lemma link_name_not_stage_dir agg k sub j sub' :
  agg = aggregated_preprod w \/ agg = aggregated_prod w ->
  link_name agg k sub <> stage_dir w j sub'.
Proof.
  intros Hagg E.
  apply (aggregated_outside_stage_dir w j sub' (link_name agg k sub)).
  - destruct Hagg as [-> | ->]; [left | right]; apply within_pjoin.
  - rewrite E. apply within_refl.
Qed.

Lemma own_links_refl todo s : own_links w todo s s.
Proof.
  repeat split; auto. intros q m H1 H2. congruence.
Qed.

Lemma own_links_trans todo s1 s2 s3 :
  own_links w todo s1 s2 -> own_links w todo s2 s3 ->
  own_links w todo s1 s3.
Proof.
  intros (E1 & O1 & T1 & K1 & N1) (E2 & O2 & T2 & K2 & N2).
  split; [congruence |]. split; [congruence |]. split; [congruence |].
  split; [auto |].
  intros q m Hq Hm. destruct (fs s2 !! q) as [m' |] eqn:Hq2.
  - rewrite (K2 _ _ Hq2) in Hm. injection Hm as <-. apply (N1 _ _ Hq Hq2).
  - destruct (N2 _ _ Hq2 Hm) as (k & sa & Hk & Hsa & -> & Hsrc & Hm').
    exists k, sa. repeat split; try assumption.
    destruct (fs s1 !! stage_dir w k sa.1) as [n |] eqn:Hs1; [eauto |].
    destruct Hsrc as [n Hn].
    destruct (N1 _ _ Hs1 Hn) as (k' & sa' & _ & Hsa' & E & _).
    exfalso. symmetry in E. revert E. apply link_name_not_stage_dir.
    unfold stage_links in Hsa'.
    apply elem_of_cons in Hsa' as [-> | Hsa']; [left; reflexivity |].
    apply list_elem_of_singleton in Hsa' as ->. right. reflexivity.
Qed.

(** X17.  Started where no symbolic link sits at a stage folder, at the
    name of a link or at an aggregated folder of the replicas [1..n], the
    aggregation loops add nothing but links, and only the links of the
    replicas [1..n] whose stage folder is there: every entry they add
    sits at [<replica tag>_<stage>] in the aggregated folder of its stage
    and points at the stage folder of that same replica, as a symbolic
    link or, where links are refused, as a text file holding the path.
    Nothing that existed is changed, and nothing is printed, recorded or
    set, whether the loops run to their end or raise. *)
Theorem aggregate_adds_only_own_links n s r s' :
  plain_stages w (range1 n) (fs s) ->
  aggregate w n (aggregated_preprod w) (aggregated_prod w) s = (r, s') ->
  (forall q m, fs s !! q = Some m -> fs s' !! q = Some m)
  /\ (forall q m, fs s !! q = None -> fs s' !! q = Some m ->
        exists k sub agg,
          (1 <= k <= Z.to_nat n)%nat
          /\ (sub = "preprod" /\ agg = pjoin (parent_workdir w) "preprod_replicas"
              \/ sub = "prod" /\ agg = pjoin (parent_workdir w) "prod_replicas")
          /\ q = pjoin agg ("replica_" +:+ format_02d k +:+ "_" +:+ sub)
          /\ is_Some (fs s !! pjoin (replica_workdir w k) sub)
          /\ (m = Symlink (pjoin (replica_workdir w k) sub)
              \/ m = File (str_path (pjoin (replica_workdir w k) sub))))
  /\ trace s' = trace s
  /\ extraData s' = extraData s
  /\ outputs s' = outputs s.
Proof.
  intros _ H.
  assert (yields (own_links w (range1 n)) (fun _ => True)
            (aggregate w n (aggregated_preprod w) (aggregated_prod w)))
    as Hy.
  { unfold aggregate.
    apply yields_for_each_in;
      [apply own_links_refl | apply own_links_trans |].
    intros k Hk.
    apply (yields_for_each_in _ (stage_links w));
      [apply own_links_refl | apply own_links_trans |].
    intros sa Hsa t r0 t' Hrun. split; [| destruct r0; exact I].
    destruct (link_stage_adds _ _ _ _ _ _ Hrun)
      as [-> | (Hsrc & Hfree & m & Hm & ->)];
      [apply own_links_refl |].
    split; [reflexivity |]. split; [reflexivity |]. split; [reflexivity |].
    cbn [fs set_fs]. split.
    - intros q m' Hq. rewrite lookup_insert_ne; congruence.
    - intros q m' Hq Hm'.
      destruct (decide (q = link_name sa.2 k sa.1)) as [-> | Hne].
      + rewrite lookup_insert_eq in Hm'. injection Hm' as <-.
        exists k, sa. repeat split; assumption.
      + rewrite lookup_insert_ne in Hm' by congruence. congruence. }
  destruct (Hy _ _ _ H) as [(E & O & T & K & N) _].
  split; [exact K |]. split; [| auto].
  intros q m Hq Hm.
  destruct (N _ _ Hq Hm) as (k & sa & Hk & Hsa & -> & Hsrc & Hm').
  apply elem_of_range1 in Hk. exists k, sa.1, sa.2.
  split; [exact Hk |]. split; [| repeat split; assumption].
  unfold stage_links in Hsa.
  apply elem_of_cons in Hsa as [-> | Hsa]; [left; split; reflexivity |].
  apply list_elem_of_singleton in Hsa as ->. right. split; reflexivity.
Qed.

End OwnLinks.

Lemma aggregate_adds_only_own_links_witness :
  exists s',
    (aggregate Samples.world_no_symlinks 1
       (aggregated_preprod Samples.world_no_symlinks)
       (aggregated_prod Samples.world_no_symlinks)
       (initial Samples.fs_collected ∅)).2 = s'
    /\ fs s' !! ["home"; "md_custom_workdir"; "replica_01"; "prod"]
       = Some Dir
    /\ trace s' = [].
Proof.
  eexists. split; [reflexivity |].
  destruct (aggregate_adds_only_own_links Samples.world_no_symlinks 1
              (initial Samples.fs_collected ∅) (Ok tt)
              (aggregate Samples.world_no_symlinks 1
                 (aggregated_preprod Samples.world_no_symlinks)
                 (aggregated_prod Samples.world_no_symlinks)
                 (initial Samples.fs_collected ∅)).2)
    as (Hkept & _ & Htr & _).
  - intros k sa Hk%elem_of_range1 Hsa.
    assert (k = 1) as -> by (revert Hk; vm_compute; lia).
    apply elem_of_cons in Hsa as [-> | Hsa];
      [| apply list_elem_of_singleton in Hsa as ->];
      repeat split; intros t; vm_compute; discriminate.
  - apply run_returned. vm_compute. reflexivity.
  - split; [| exact Htr]. apply Hkept. vm_compute. reflexivity.
Defined.

(* ===================================================================== *)
(** * What a collection asks the backend for *)
(* ===================================================================== *)

Section FetchTrace.
Variable w : World.
Variable block : Block.

Lemma download_one_trace idx remote_folder s s' :
  download_one w idx remote_folder s = (Ok tt, s') ->
  trace s' = trace s ++ download_events w idx [remote_folder].
Proof.
  destruct s as [f0 ex out tr].
  cbv beta iota zeta delta
    [download_one stages for_each bind print emit on_fs ret call
     fs set_fs add_event trace extraData outputs].
  fold (replica_workdir w idx).
  fold (stage_dir w idx "preprod"). fold (stage_dir w idx "prod").
  destruct (fs_makedirs (replica_workdir w idx) f0) as [f1 | e];
    [| discriminate].
  destruct (getData w (os_path_join remote_folder "preprod") _)
    as [got1 | e]; [| discriminate].
  destruct (getData w (os_path_join remote_folder "prod") _)
    as [got2 | e]; [| discriminate].
  intros [= <-]. cbn [trace download_events].
  repeat rewrite <- app_assoc. reflexivity.
Qed.

Lemma download_loop_trace idx folders s s' :
  download_loop w idx folders s = (Ok tt, s') ->
  trace s' = trace s ++ download_events w idx folders.
Proof.
  revert idx s. induction folders as [| folder rest IH]; intros idx s.
  - intros [= <-]. cbn. rewrite app_nil_r. reflexivity.
  - cbn [download_loop]. intros H.
    apply bind_Ok_inv in H as ([] & s1 & Hone & Hrest).
    rewrite (IH _ _ Hrest), (download_one_trace _ _ _ _ Hone).
    cbn [download_events]. rewrite <- app_assoc. reflexivity.
Qed.

Lemma link_phase_silent a r s1 :
  link_phase w block a = (r, s1) -> trace s1 = trace a.
Proof.
  intros H.
  assert (yields (fun s s' => trace s' = trace s) (fun _ => True)
            (link_phase w block)) as Hy; [| exact (proj1 (Hy _ _ _ H))].
  assert (forall s, trace s = trace s) as Hrefl by reflexivity.
  assert (forall s1 s2 s3 : State,
            trace s2 = trace s1 -> trace s3 = trace s2 ->
            trace s3 = trace s1) as Htrans by (intros; congruence).
  assert (forall op, yields (fun s s' => trace s' = trace s)
                       (fun _ => True) (on_fs op)) as Hfs.
  { intros op s r0 s' H0. unfold on_fs in H0.
    destruct (op (fs s)); injection H0 as <- <-; auto. }
  assert (forall id v, yields (fun s s' => trace s' = trace s)
                         (fun _ => True) (setOutput id v)) as Hout.
  { intros id v s r0 s' [= <- <-]. auto. }
  unfold link_phase.
  eapply (yields_bind _ Htrans); [apply Hfs | intros _ _].
  eapply (yields_bind _ Htrans); [apply Hfs | intros _ _].
  eapply (yields_bind _ Htrans); [| intros _ _].
  { unfold aggregate. apply (yields_for_each _ Hrefl Htrans). intros k.
    apply (yields_for_each _ Hrefl Htrans). intros sa s r0 s' H0.
    split; [| destruct r0; exact I].
    destruct (link_stage_adds _ _ _ _ _ _ _ H0)
      as [-> | (_ & _ & m & _ & ->)]; reflexivity. }
  eapply (yields_bind _ Htrans); [apply Hout | intros _ _; apply Hout].
Qed.

(** The trace of a collection that returns, on a remote backend. *)
Lemma download_data_remote_trace s s' :
  isLocal (remote block) = false ->
  download_data w block s = (Ok tt, s') ->
  trace s'
  = trace s ++ mismatch_events block (recorded_folders s)
    ++ download_events w 1 (recorded_folders s).
Proof.
  intros Hrem H. rewrite download_data_phases in H.
  destruct (bool_decide (is_Some (fs s !! parent_workdir w)));
    [| discriminate].
  apply bind_Ok_inv in H as ([] & a & Hfetch & Hlink).
  rewrite (link_phase_silent _ _ _ Hlink).
  unfold fetch_phase in Hfetch. rewrite Hrem in Hfetch.
  cbn [negb when] in Hfetch. unfold bind at 1 in Hfetch.
  apply bind_Ok_inv in Hfetch as ([] & s0 & Hwarn & Hloop).
  rewrite (download_loop_trace _ _ _ _ Hloop).
  unfold note_mismatch in Hwarn. unfold mismatch_events.
  destruct (Z.of_nat (length (recorded_folders s)) =? replicas block)%Z;
    cbn [negb when] in Hwarn; injection Hwarn as <-; cbn [trace add_event].
  - reflexivity.
  - rewrite <- app_assoc. reflexivity.
Qed.

Lemma download_events_lookup idx folders i remote_folder :
  folders !! i = Some remote_folder ->
  EvGetData (os_path_join remote_folder "preprod")
    (str_path (stage_dir w (idx + i) "preprod"))
    ∈ download_events w idx folders
  /\ EvGetData (os_path_join remote_folder "prod")
       (str_path (stage_dir w (idx + i) "prod"))
       ∈ download_events w idx folders.
Proof.
  revert idx i. induction folders as [| folder rest IH]; intros idx i H.
  - discriminate.
  - destruct i as [| i]; cbn [download_events].
    + injection H as ->. rewrite Nat.add_0_r.
      split; [right; left | right; right; right; left].
    + destruct (IH (S idx) i H) as [H1 H2].
      replace (idx + S i)%nat with (S idx + i)%nat by lia.
      split; repeat right; assumption.
Qed.

(** X18.  A collection that returns on a remote backend has downloaded every
    recorded folder, both stages, in the order recorded, the folder at
    position [i] (counting from 1) going to [replica_<i>] whatever the
    replica count is; apart from that it has only printed one line per
    download, preceded by the warning exactly when the number of folders
    is not the replica count. *)
Theorem download_data_fetches_every_folder s s' :
  isLocal (remote block) = false ->
  download_data w block s = (Ok tt, s') ->
  trace s'
  = trace s
    ++ (if (Z.of_nat (length (recorded_folders s)) =? replicas block)%Z
        then []
        else [EvPrint "Warning: remote job folders count does not match replicas; attempting partial download."])
    ++ download_events w 1 (recorded_folders s)
  /\ forall i remote_folder,
       recorded_folders s !! i = Some remote_folder ->
       EvGetData (os_path_join remote_folder "preprod")
         (str_path (pjoin (replica_workdir w (S i)) "preprod"))
         ∈ download_events w 1 (recorded_folders s)
       /\ EvGetData (os_path_join remote_folder "prod")
            (str_path (pjoin (replica_workdir w (S i)) "prod"))
            ∈ download_events w 1 (recorded_folders s).
Proof.
  intros Hrem H. split.
  - apply (download_data_remote_trace _ _ Hrem H).
  - intros i folder Hi. apply (download_events_lookup 1 _ i folder Hi).
Qed.

(** X19.  Submission and collection fit together: after a batch of at least one
    replica has gone through on a remote backend, a collection that
    returns has fetched, for each replica [k] in turn, the stages
    [preprod] and [prod] of the remote folder that [sendData] answered
    when the work directory of replica [k] was transferred, into the local
    folders [replica_<k>/preprod] and [replica_<k>/prod]; no warning about
    the number of folders is printed. *)
Theorem submitted_batch_is_fetched_from_its_folders c1 c2 s :
  well_placed w block c1 c2 (fs s) ->
  (1 <= replicas block)%Z ->
  (forall k, k ∈ range1 (replicas block) -> replica_succeeds w block k) ->
  isLocal (remote block) = false ->
  exists s1,
    run_script w block s = (Ok tt, s1)
    /\ (forall k, k ∈ range1 (replicas block) ->
          sendData w (str_path (replica_workdir w k)) (remote_root block)
          = Ok (remote_workdir_of w block k))
    /\ forall s2,
         download_data w block s1 = (Ok tt, s2) ->
         trace s2
         = trace s1
           ++ download_events w 1
                (List.map (remote_workdir_of w block)
                   (range1 (replicas block)))
         /\ forall k, k ∈ range1 (replicas block) ->
              EvGetData (os_path_join (remote_workdir_of w block k) "prod")
                (str_path (pjoin (replica_workdir w k) "prod"))
                ∈ drop (length (trace s1)) (trace s2).
Proof.
  intros Hwp Hn Hok Hrem.
  destruct (run_script_ok w block c1 c2 s Hwp Hok)
    as (s1 & evs & Hrun & _ & Hex & _).
  exists s1. split; [exact Hrun |]. split.
  { intros k Hk. destruct (Hok k Hk) as [_ [answer Ha]].
    apply (backend_answer_remote w block k answer Hrem Ha). }
  assert (recorded_folders s1
          = List.map (remote_workdir_of w block) (range1 (replicas block)))
    as Hrec.
  { unfold recorded_folders. rewrite Hex.
    rewrite (all_recorded_remote w block Hrem Hok).
    rewrite bool_decide_eq_false_2.
    - rewrite lookup_insert_eq. reflexivity.
    - unfold range1.
      destruct (Z.to_nat (replicas block)) eqn:E; [lia | discriminate]. }
  intros s2 Hcollect.
  pose proof (download_data_remote_trace _ _ Hrem Hcollect) as Htr.
  rewrite Hrec in Htr. unfold mismatch_events in Htr.
  rewrite length_map in Htr. unfold range1 in Htr at 1.
  rewrite length_seq, Z2Nat.id, Z.eqb_refl in Htr by lia.
  cbn [app] in Htr. split; [exact Htr |].
  intros k Hk. rewrite Htr, drop_app_length.
  apply elem_of_range1 in Hk.
  assert (List.map (remote_workdir_of w block) (range1 (replicas block))
            !! (k - 1)%nat = Some (remote_workdir_of w block k)) as Hlk.
  { rewrite list_lookup_fmap. unfold range1.
    rewrite lookup_seq_lt by lia. cbn. f_equal. f_equal. lia. }
  destruct (download_events_lookup 1 _ _ _ Hlk) as [_ H2].
  replace (1 + (k - 1))%nat with k in H2 by lia. exact H2.
Qed.

End FetchTrace.

Lemma download_data_fetches_every_folder_witness :
  exists s',
    (download_data Samples.world_ok
       (Samples.with_replicas 1 Samples.block_picard) Samples.submitted).2
    = s'
    /\ trace s'
       = [EvPrint "Warning: remote job folders count does not match replicas; attempting partial download.";
          EvPrint "Downloading preprod for replica_01...";
          EvGetData "/scratch/run/replica_01/preprod"
            "/home/md_custom_workdir/replica_01/preprod";
          EvPrint "Downloading prod for replica_01...";
          EvGetData "/scratch/run/replica_01/prod"
            "/home/md_custom_workdir/replica_01/prod";
          EvPrint "Downloading preprod for replica_02...";
          EvGetData "/scratch/run/replica_02/preprod"
            "/home/md_custom_workdir/replica_02/preprod";
          EvPrint "Downloading prod for replica_02...";
          EvGetData "/scratch/run/replica_02/prod"
            "/home/md_custom_workdir/replica_02/prod"].
Proof.
  eexists. split; [reflexivity |].
  destruct (download_data_fetches_every_folder Samples.world_ok
              (Samples.with_replicas 1 Samples.block_picard)
              Samples.submitted
              (download_data Samples.world_ok
                 (Samples.with_replicas 1 Samples.block_picard)
                 Samples.submitted).2)
    as [Htr _].
  - reflexivity.
  - apply run_returned. vm_compute. reflexivity.
  - rewrite Htr. vm_compute. reflexivity.
Defined.

Lemma submitted_batch_is_fetched_from_its_folders_witness :
  exists s1,
    run_script Samples.world_ok Samples.block_picard
      (initial Samples.fs_fresh ∅) = (Ok tt, s1)
    /\ sendData Samples.world_ok "/home/md_custom_workdir/replica_02"
         "/scratch/run"
       = Ok (remote_workdir_of Samples.world_ok Samples.block_picard 2).
Proof.
  destruct (submitted_batch_is_fetched_from_its_folders Samples.world_ok
              Samples.block_picard "TOPOLOGY" "COORDINATES"
              (initial Samples.fs_fresh ∅))
    as (s1 & Hrun & Hsend & _).
  - sample_placement.
  - vm_compute. discriminate.
  - intros k Hk. split; [reflexivity | eexists; reflexivity].
  - reflexivity.
  - exists s1. split; [exact Hrun |].
    apply (Hsend 2). vm_compute. repeat constructor.
Defined.
